(** * ARIA: risk engine, signal aggregation and workflow orchestration

    A shallow embedding of the parts of the ARIA agent that carry its
    invariants:

    - [RiskEngine] (the module ./risk-engine.js, whose text follows the
      agent in agent/src/aria-agent.ts): [assess], [recordAction];
    - the composite aggregation of [fetchSentiment]
      (merchant/src/providers/sentiment.ts);
    - [ToolExecutor.executeTool] (agent/src/tool-executor.ts);
    - the phases of [AriaAgent.run] (agent/src/aria-agent.ts);
    - the rest of [RiskEngine]: [getBudgetStatus], [getAuditTrail],
      [resetDaily];
    - the cache of the sentiment provider, [fetchOnChainSignals] and the
      whole of [fetchSentiment];
    - the decision rule of [fallbackReasoning] (agent/src/aria-agent.ts);
    - the mandate handlers of the merchant server
      (merchant/src/server.ts).

    Conventions of the embedding.

    - A JavaScript [number] is an exact rational [Q].  NaN, the infinities
      and rounding are outside the model; a division whose result would not
      be a finite number is made visible as [None] by [jsDiv].
    - [Date.now()] is an input: every function that reads the clock takes
      the value it reads as an argument.
    - [Number.prototype.toFixed] and the conversion of a number to a string
      in a template literal depend on the binary representation of the
      number; they are taken as an interface, [NumberFormat].
    - The network (tool catalogue, language model, mandate endpoint, paid
      tool calls) is an input too: the record [Env] holds what each external
      call returns or throws.  The observer hook [onEvent] and the console
      are not modelled.
    - Mutable objects are threaded explicitly; a thrown exception keeps the
      mutations made before it, as in JavaScript. *)

From Stdlib Require Import QArith Qabs Qround ZArith Lia Lqa.
From stdpp Require Import base option list strings pretty gmap.

Open Scope Q_scope.
Set Warnings "-register-all".

(** ** Numbers *)

(** [x > y] and [x < y] on numbers, as booleans. *)
Definition Qgtb (x y : Q) : bool := negb (Qle_bool x y).
Definition Qltb (x y : Q) : bool := negb (Qle_bool y x).

(** [a / b]; [None] stands for a result that is not a finite number. *)
Definition jsDiv (a b : Q) : option Q :=
  if Qeq_bool b 0 then None else Some (a / b).

(** [toFixed] and the string conversion of template literals. *)
Class NumberFormat := {
  toFixed : Q -> nat -> string;
  numToString : Q -> string
}.

(** A decimal instance for exact rationals: [toFixed] rounds half away
    from zero at the requested digit, and a number is printed as an integer
    when it is one, else with its decimal expansion cut after twenty
    digits. *)
Definition padZeros (width : nat) (s : string) : string :=
  String.concat EmptyString (replicate (width - String.length s) "0") +:+ s.

Definition decimalToFixed (q : Q) (digits : nat) : string :=
  let scale := (10 ^ Z.of_nat digits)%Z in
  let scaled := Qfloor (Qabs q * inject_Z scale + (1 # 2)) in
  (if Qltb q 0 then "-" else EmptyString)
    +:+ pretty (scaled / scale)%Z
    +:+ (match digits with
         | O => EmptyString
         | _ => "." +:+ padZeros digits (pretty (scaled mod scale)%Z)
         end).

Fixpoint fractionDigits (fuel : nat) (num den : Z) : string :=
  match fuel with
  | O => EmptyString
  | S fuel' =>
      if (num =? 0)%Z then EmptyString
      else pretty (num * 10 / den)%Z +:+ fractionDigits fuel' (num * 10 mod den)%Z den
  end.

Definition decimalToString (q : Q) : string :=
  let num := Z.abs (Qnum q) in
  let den := Z.pos (Qden q) in
  (if Qltb q 0 then "-" else EmptyString)
    +:+ pretty (num / den)%Z
    +:+ (if (num mod den =? 0)%Z then EmptyString
         else "." +:+ fractionDigits 20 (num mod den)%Z den).

Definition decimalFormat : NumberFormat :=
  {| toFixed := decimalToFixed; numToString := decimalToString |}.

(** ** Risk engine (class [RiskEngine]) *)

Record RiskPolicy := {
  dailyLimitUSD : Q;
  perTransactionLimitUSD : Q;
  maxAutoApproveUSD : Q;
  allowedTokens : list string;
  allowedChains : list string;
  maxSlippageBps : Q;
  requireApprovalAboveUSD : Q;
  allowedCategories : list string;
  cooldownMs : Q
}.

Inductive RiskLevel := low | medium | high | critical.

Record BudgetImpact := {
  before : Q;
  after : Q;
  percentUsed : option Q
}.

Record RiskAssessment := {
  action : string;
  estimatedCostUSD : Q;
  riskLevel : RiskLevel;
  approved : bool;
  reason : string;
  policyViolations : list string;
  budgetImpact : BudgetImpact
}.

(** The optional [metadata] argument of [assess]. *)
Record Metadata := {
  category : option string;
  token : option string;
  chain : option string;
  slippageBps : option Q
}.

Record ActionLogEntry := {
  log_timestamp : Z;
  log_action : string;
  log_costUSD : Q;
  log_approved : bool
}.

Record RiskEngine := {
  policy : RiskPolicy;
  dailySpent : Q;
  lastActionTimestamp : Z;
  actionLog : list ActionLogEntry
}.

Definition DEFAULT_POLICY : RiskPolicy := {|
  dailyLimitUSD := 50;
  perTransactionLimitUSD := 5;
  maxAutoApproveUSD := 1;
  allowedTokens := ["USDC"; "ETH"; "WETH"; "AERO"; "cbETH"];
  allowedChains := ["base"; "base-sepolia"; "ethereum"; "arbitrum"; "skale-nebula"];
  maxSlippageBps := 100;
  requireApprovalAboveUSD := 5;
  allowedCategories := ["market-data"; "sentiment"; "routing"; "execution"; "analytics"];
  cooldownMs := 1000
|}.

(** [new RiskEngine(policy)], the policy already merged with the defaults. *)
Definition newRiskEngine (p : RiskPolicy) : RiskEngine :=
  {| policy := p; dailySpent := 0; lastActionTimestamp := 0%Z; actionLog := [] |}.

(** A string in a condition is true when it is not empty, a number when it
    is not zero; an absent field is false. *)
Definition truthyString (s : option string) : option string :=
  match s with
  | Some s' => if bool_decide (s' = EmptyString) then None else Some s'
  | None => None
  end.

Definition truthyNumber (n : option Q) : option Q :=
  match n with
  | Some q => if Qeq_bool q 0 then None else Some q
  | None => None
  end.

(** The two locals of [assess]: [violations] and [riskLevel]. *)
Definition Verdict : Type := list string * RiskLevel.

(** [violations.push(msg); riskLevel = lvl] *)
Definition flag (msg : string) (lvl : RiskLevel) (v : Verdict) : Verdict :=
  (v.1 ++ [msg], lvl).

(** [violations.push(msg)] *)
Definition note (msg : string) (v : Verdict) : Verdict :=
  (v.1 ++ [msg], v.2).

Section RiskEngineMethods.
Context `{NumberFormat}.

Definition checkDailyLimit (e : RiskEngine) (cost : Q) (v : Verdict) : Verdict :=
  if Qgtb (dailySpent e + cost) (dailyLimitUSD (policy e)) then
    flag ("Daily limit exceeded: $" +:+ toFixed (dailySpent e) 2 +:+ " + $"
            +:+ toFixed cost 2 +:+ " > $" +:+ numToString (dailyLimitUSD (policy e)))
         critical v
  else v.

Definition checkPerTransaction (e : RiskEngine) (cost : Q) (v : Verdict) : Verdict :=
  if Qgtb cost (perTransactionLimitUSD (policy e)) then
    flag ("Per-transaction limit exceeded: $" +:+ toFixed cost 2 +:+ " > $"
            +:+ numToString (perTransactionLimitUSD (policy e)))
         high v
  else v.

Definition checkCooldown (e : RiskEngine) (now : Z) (v : Verdict) : Verdict :=
  let timeSinceLastAction := (now - lastActionTimestamp e)%Z in
  if Qltb (inject_Z timeSinceLastAction) (cooldownMs (policy e))
     && (0 <? lastActionTimestamp e)%Z then
    note ("Cooldown not met: " +:+ numToString (inject_Z timeSinceLastAction)
            +:+ "ms < " +:+ numToString (cooldownMs (policy e)) +:+ "ms") v
  else v.

Definition checkCategory (e : RiskEngine) (m : option Metadata) (v : Verdict) : Verdict :=
  match truthyString (m ≫= category) with
  | Some c =>
      if negb (bool_decide (c ∈ allowedCategories (policy e))) then
        flag ("Category not allowed: " +:+ c) high v
      else v
  | None => v
  end.

Definition checkToken (e : RiskEngine) (m : option Metadata) (v : Verdict) : Verdict :=
  match truthyString (m ≫= token) with
  | Some t =>
      if negb (bool_decide (t ∈ allowedTokens (policy e))) then
        flag ("Token not allowed: " +:+ t) high v
      else v
  | None => v
  end.

Definition checkChain (e : RiskEngine) (m : option Metadata) (v : Verdict) : Verdict :=
  match truthyString (m ≫= chain) with
  | Some c =>
      if negb (bool_decide (c ∈ allowedChains (policy e))) then
        flag ("Chain not allowed: " +:+ c) high v
      else v
  | None => v
  end.

Definition checkSlippage (e : RiskEngine) (m : option Metadata) (v : Verdict) : Verdict :=
  match truthyNumber (m ≫= slippageBps) with
  | Some bps =>
      if Qgtb bps (maxSlippageBps (policy e)) then
        flag ("Slippage too high: " +:+ numToString bps +:+ "bps > "
                +:+ numToString (maxSlippageBps (policy e)) +:+ "bps")
             (match v.2 with low => medium | l => l end) v
      else v
  | None => v
  end.

(** "Determine risk level based on cost" *)
Definition costTier (e : RiskEngine) (cost : Q) (v : Verdict) : Verdict :=
  match v.2 with
  | low =>
      if Qgtb cost (requireApprovalAboveUSD (policy e)) then (v.1, high)
      else if Qgtb cost (maxAutoApproveUSD (policy e)) then (v.1, medium)
      else v
  | _ => v
  end.

(** The checks of [assess] in the order of the source. *)
Definition runChecks (e : RiskEngine) (now : Z) (cost : Q) (m : option Metadata) : Verdict :=
  costTier e cost
    (checkSlippage e m
      (checkChain e m
        (checkToken e m
          (checkCategory e m
            (checkCooldown e now
              (checkPerTransaction e cost
                (checkDailyLimit e cost ([], low)))))))).

(** [RiskEngine.assess(action, estimatedCostUSD, metadata)], reading the
    clock value [now]. *)
Definition assess (e : RiskEngine) (now : Z) (act : string) (cost : Q)
    (m : option Metadata) : RiskAssessment :=
  let '(violations, level) := runChecks e now cost m in
  let noViolations := bool_decide (length violations = 0%nat) in
  let autoApproved := noViolations && Qle_bool cost (maxAutoApproveUSD (policy e)) in
  let needsApproval := noViolations && Qgtb cost (maxAutoApproveUSD (policy e)) in
  let why :=
    if bool_decide (0 < length violations)%nat then
      "Blocked: " +:+ String.concat "; " violations
    else if autoApproved then
      "Auto-approved: $" +:+ toFixed cost 4 +:+ " within auto-approve limit ($"
        +:+ numToString (maxAutoApproveUSD (policy e)) +:+ ")"
    else
      "Requires approval: $" +:+ toFixed cost 2 +:+ " exceeds auto-approve limit ($"
        +:+ numToString (maxAutoApproveUSD (policy e)) +:+ ")" in
  {| action := act;
     estimatedCostUSD := cost;
     riskLevel := level;
     approved := autoApproved || needsApproval;
     reason := why;
     policyViolations := violations;
     budgetImpact :=
       {| before := dailySpent e;
          after := dailySpent e + cost;
          percentUsed :=
            (fun q => q * 100) <$> jsDiv (dailySpent e + cost) (dailyLimitUSD (policy e)) |}
  |}.
End RiskEngineMethods.

(** [RiskEngine.recordAction(action, costUSD, approved)].  The method reads
    the clock once for [lastActionTimestamp] ([stampedAt], only when
    approved) and once for the log entry ([loggedAt]). *)
Definition recordAction (e : RiskEngine) (stampedAt loggedAt : Z) (act : string)
    (costUSD : Q) (ok : bool) : RiskEngine :=
  let e' :=
    if ok then
      {| policy := policy e;
         dailySpent := dailySpent e + costUSD;
         lastActionTimestamp := stampedAt;
         actionLog := actionLog e |}
    else e in
  {| policy := policy e';
     dailySpent := dailySpent e';
     lastActionTimestamp := lastActionTimestamp e';
     actionLog := actionLog e' ++
       [{| log_timestamp := loggedAt; log_action := act;
           log_costUSD := costUSD; log_approved := ok |}] |}.

Definition getPolicy (e : RiskEngine) : RiskPolicy := policy e.

(** ** Composite sentiment (providers/sentiment.ts) *)

(** [SentimentSignal]; [details] carries no number the aggregation reads. *)
Record SentimentSignal := {
  source : string;
  score : Q;
  label : string;
  confidence : Q
}.

(** [result.overall], before the rounding applied for display. *)
Record Composite := {
  compositeScore : Q;
  compositeLabel : string;
  compositeConfidence : Q
}.

(** The object literal [weights], as the map of its own properties; the
    names an object inherits from [Object.prototype] are outside the model
    (the sources [fetchSentiment] builds are the three keys below). *)
Definition weights : gmap string Q :=
  {[ "news" := 0.35; "fear-greed-index" := 0.30; "onchain" := 0.35 ]}.

(** [weights[sig.source] || 0.33] *)
Definition weightOf (src : string) : Q :=
  match weights !! src with
  | Some w => if Qeq_bool w 0 then 0.33 else w
  | None => 0.33
  end.

(** The accumulators [totalWeight] and [weightedSum] of the loop. *)
Record Accum := {
  totalWeight : Q;
  weightedSum : Q
}.

(** One iteration of [for (const sig of signals)]. *)
Definition accumulate (a : Accum) (sig : SentimentSignal) : Accum :=
  let w := weightOf (source sig) in
  {| totalWeight := totalWeight a + w * confidence sig;
     weightedSum := weightedSum a + score sig * w * confidence sig |}.

Definition accumulated (signals : list SentimentSignal) : Accum :=
  foldl accumulate {| totalWeight := 0; weightedSum := 0 |} signals.

Definition labelOf (s : Q) : string :=
  if Qgtb s 0.25 then "bullish"
  else if Qltb s (-0.25) then "bearish"
  else "neutral".

(** The "Composite score (weighted average)" block of [fetchSentiment],
    as a function of the signal list built before it.  [None] would mean that one of the
    two divisions did not produce a finite number. *)
Definition compositeAggregation (signals : list SentimentSignal) : option Composite :=
  let a := accumulated signals in
  s ← (if Qgtb (totalWeight a) 0 then jsDiv (weightedSum a) (totalWeight a) else Some 0);
  c ← (if Qgtb (totalWeight a) 0
       then jsDiv (totalWeight a) (inject_Z (Z.of_nat (length signals)))
       else Some 0);
  Some {| compositeScore := s; compositeLabel := labelOf s; compositeConfidence := c |}.

(** The signal [fetchOnChainSignals] returns when its request fails. *)
Definition onChainUnavailable : SentimentSignal :=
  {| source := "onchain"; score := 0; label := "unavailable"; confidence := 0 |}.

(** *** The aggregation as the specification words it

    The weight table and the two quotients written as sums over the list,
    with none of the guards of the code: a quotient by zero has no value. *)

Definition specWeight (src : string) : Q :=
  if bool_decide (src = "news") then 0.35
  else if bool_decide (src = "fear-greed-index") then 0.30
  else if bool_decide (src = "onchain") then 0.35
  else 0.33.

Definition Qsum (l : list Q) : Q := foldr Qplus 0 l.

Definition specWeightedSum (signals : list SentimentSignal) : Q :=
  Qsum (map (fun sig => score sig * specWeight (source sig) * confidence sig) signals).

Definition specTotalWeight (signals : list SentimentSignal) : Q :=
  Qsum (map (fun sig => specWeight (source sig) * confidence sig) signals).

Definition specCompositeScore (signals : list SentimentSignal) : option Q :=
  jsDiv (specWeightedSum signals) (specTotalWeight signals).

Definition specCompositeConfidence (signals : list SentimentSignal) : option Q :=
  jsDiv (specTotalWeight signals) (inject_Z (Z.of_nat (length signals))).

(** A partial number agrees with a number when it is defined and equal. *)
Definition agrees (o : option Q) (q : Q) : Prop :=
  match o with
  | Some x => x == q
  | None => False
  end.

(** ** JavaScript values, exceptions and the agent monad *)

(** The values that [JSON.parse], object literals and property reads
    produce.  A [JObj] lists the own properties of the object, each key
    once. *)
Inductive JsVal :=
| JUndefined
| JNull
| JBool (b : bool)
| JNum (n : Q)
| JStr (s : string)
| JArr (items : list JsVal)
| JObj (props : list (string * JsVal)).

Inductive JsError :=
| Error (message : string)
| TypeError (message : string).

Inductive Result (A : Type) :=
| Ok (a : A)
| Throw (e : JsError).
Arguments Ok {A} a.
Arguments Throw {A} e.

(** The truth value of a JavaScript value in a condition. *)
Definition truthy (v : JsVal) : bool :=
  match v with
  | JUndefined | JNull => false
  | JBool b => b
  | JNum n => negb (Qeq_bool n 0)
  | JStr s => negb (bool_decide (s = EmptyString))
  | JArr _ | JObj _ => true
  end.

(** [a || b] *)
Definition jsOr (a b : JsVal) : JsVal := if truthy a then a else b.

Definition lookupProp (k : string) (props : list (string * JsVal)) : JsVal :=
  match List.find (fun p => bool_decide (p.1 = k)) props with
  | Some p => p.2
  | None => JUndefined
  end.

(** [v.k] for the property names the agent reads ([plan], [tool],
    [reasoning], ...), none of which is inherited from a prototype: reading
    a property of [null] or [undefined] throws, a primitive or an array has
    no such property. *)
Definition getProp (v : JsVal) (k : string) : Result JsVal :=
  match v with
  | JUndefined =>
      Throw (TypeError ("Cannot read properties of undefined (reading '" +:+ k +:+ "')"))
  | JNull =>
      Throw (TypeError ("Cannot read properties of null (reading '" +:+ k +:+ "')"))
  | JObj props => Ok (lookupProp k props)
  | _ => Ok JUndefined
  end.

(** ** Shared types (shared/types.ts) *)

Record PaidTool := {
  tool_id : string;
  tool_name : string;
  tool_endpoint : string;
  tool_priceUSD : Q;
  tool_category : string
}.

Module StepType.
Inductive t := discover | reason | authorize | pay | execute | settle | report.
End StepType.

Module StepStatus.
Inductive t := pending | running | success | failed | skipped.
End StepStatus.

Module RunStatus.
Inductive t := running | completed | failed.
End RunStatus.

Module ReceiptStatus.
Inductive t := pending | settled | failed.
End ReceiptStatus.

Record PaymentReceipt := {
  rcpt_id : string;
  rcpt_protocol : string;
  rcpt_tool : string;
  rcpt_amountUSD : Q;
  rcpt_amountRaw : string;
  rcpt_token : string;
  rcpt_network : string;
  rcpt_txHash : option string;
  rcpt_from : string;
  rcpt_to : string;
  rcpt_status : ReceiptStatus.t
}.

Record AP2Mandate := {
  mandateId : string;
  mandateStatus : string
}.

(** [getFullReport().summary], without the count of free-text log lines. *)
Record AuditSummary := {
  totalPayments : nat;
  totalSpentUSD : Q;
  spendByProtocol : gmap string Q;
  spendByTool : gmap string Q;
  riskAssessmentCount : nat;
  mandatesCreated : nat
}.

Record WorkflowResult := {
  res_summary : JsVal;
  res_recommendation : JsVal;
  res_confidence : Q;
  res_keyFindings : JsVal;
  res_auditSummary : AuditSummary;
  res_receipts : list PaymentReceipt
}.

Inductive StepOutput :=
| OutValue (v : JsVal)
| OutResult (r : WorkflowResult).

(** [WorkflowStep], without [timestamp] and [durationMs] (clock readings
    that nothing else depends on). *)
Record WorkflowStep := {
  step_id : string;
  step_type : StepType.t;
  step_tool : option string;
  step_protocol : option string;
  step_input : option JsVal;
  step_output : option StepOutput;
  step_costUSD : option Q;
  step_txHash : option string;
  step_status : StepStatus.t;
  step_reasoning : JsVal;
  step_error : option string
}.

(** [WorkflowRun], without [startedAt] and [completedAt]. *)
Record WorkflowRun := {
  run_id : string;
  run_status : RunStatus.t;
  run_objective : string;
  run_steps : list WorkflowStep;
  run_totalCostUSD : Q;
  run_budgetUSD : Q;
  run_budgetRemainingUSD : Q;
  run_result : option WorkflowResult
}.

(** ** Audit logger (audit-logger.ts)

    The structured stores of the logger; the free-text [entries] and the
    console output are not modelled. *)
Record AuditLogger := {
  receipts : list PaymentReceipt;
  riskAssessments : list RiskAssessment;
  mandates : list AP2Mandate
}.

Definition newAuditLogger : AuditLogger :=
  {| receipts := []; riskAssessments := []; mandates := [] |}.

Definition logPayment (r : PaymentReceipt) (l : AuditLogger) : AuditLogger :=
  {| receipts := receipts l ++ [r];
     riskAssessments := riskAssessments l;
     mandates := mandates l |}.

Definition logRiskAssessment (r : RiskAssessment) (l : AuditLogger) : AuditLogger :=
  {| receipts := receipts l;
     riskAssessments := riskAssessments l ++ [r];
     mandates := mandates l |}.

Definition logMandate (m : AP2Mandate) (l : AuditLogger) : AuditLogger :=
  {| receipts := receipts l;
     riskAssessments := riskAssessments l;
     mandates := mandates l ++ [m] |}.

(** [receipts.reduce((sum, r) => sum + r.amountUSD, 0)] *)
Definition receiptsTotal (rs : list PaymentReceipt) : Q :=
  foldl (fun sum r => sum + rcpt_amountUSD r) 0 rs.

(** [acc[k] = (acc[k] || 0) + amount] *)
Definition addSpend (k : string) (amount : Q) (acc : gmap string Q) : gmap string Q :=
  <[k := default 0 (acc !! k) + amount]> acc.

Definition getFullReportSummary (l : AuditLogger) : AuditSummary :=
  {| totalPayments := length (receipts l);
     totalSpentUSD := receiptsTotal (receipts l);
     spendByProtocol :=
       foldl (fun acc r => addSpend (rcpt_protocol r) (rcpt_amountUSD r) acc) ∅ (receipts l);
     spendByTool :=
       foldl (fun acc r => addSpend (rcpt_tool r) (rcpt_amountUSD r) acc) ∅ (receipts l);
     riskAssessmentCount := length (riskAssessments l);
     mandatesCreated := length (mandates l) |}.

(** ** The agent and its monad

    [AriaAgent] owns the risk engine and the logger; its [ToolExecutor]
    holds references to the same two objects, so the embedding keeps one
    copy of each next to the executor's [toolRegistry]. *)
Record AriaAgent := {
  riskEngine : RiskEngine;
  logger : AuditLogger;
  toolRegistry : list PaidTool;
  currentRun : option WorkflowRun
}.

Definition newAriaAgent (p : RiskPolicy) : AriaAgent :=
  {| riskEngine := newRiskEngine p; logger := newAuditLogger;
     toolRegistry := []; currentRun := None |}.

Definition setRiskEngine (e : RiskEngine) (a : AriaAgent) : AriaAgent :=
  {| riskEngine := e; logger := logger a;
     toolRegistry := toolRegistry a; currentRun := currentRun a |}.

Definition setLogger (l : AuditLogger) (a : AriaAgent) : AriaAgent :=
  {| riskEngine := riskEngine a; logger := l;
     toolRegistry := toolRegistry a; currentRun := currentRun a |}.

Definition setToolRegistry (ts : list PaidTool) (a : AriaAgent) : AriaAgent :=
  {| riskEngine := riskEngine a; logger := logger a;
     toolRegistry := ts; currentRun := currentRun a |}.

Definition setCurrentRun (r : option WorkflowRun) (a : AriaAgent) : AriaAgent :=
  {| riskEngine := riskEngine a; logger := logger a;
     toolRegistry := toolRegistry a; currentRun := r |}.

(** A method of the agent: it returns or throws, and leaves the agent in a
    new state either way. *)
Definition M (A : Type) : Type := AriaAgent -> Result A * AriaAgent.

Definition ret {A} (x : A) : M A := fun a => (Ok x, a).

Definition throw {A} (e : JsError) : M A := fun a => (Throw e, a).

Definition bind {A B} (m : M A) (k : A -> M B) : M B :=
  fun a =>
    match m a with
    | (Ok x, a') => k x a'
    | (Throw e, a') => (Throw e, a')
    end.

Definition liftResult {A} (r : Result A) : M A := fun a => (r, a).

Definition modify (f : AriaAgent -> AriaAgent) : M unit := fun a => (Ok tt, f a).

Definition gets {A} (f : AriaAgent -> A) : M A := fun a => (Ok (f a), a).

Notation "'let!' x ':=' m 'in' k" := (bind m (fun x => k))
  (at level 10, x pattern, m at level 100, k at level 200).
Notation "m ';!' k" := (bind m (fun _ => k))
  (at level 100, k at level 200, right associativity).

(** [this.currentRun!.f(...)]: the assertion [!] is erased at run time, so
    a missing run is a [TypeError]. *)
Definition updateRun (f : WorkflowRun -> WorkflowRun) : M unit :=
  fun a =>
    match currentRun a with
    | Some r => (Ok tt, setCurrentRun (Some (f r)) a)
    | None => (Throw (TypeError "Cannot read properties of null"), a)
    end.

(** [this.currentRun!.steps.push(step)] *)
Definition pushStep (s : WorkflowStep) : M unit :=
  updateRun (fun r =>
    {| run_id := run_id r; run_status := run_status r; run_objective := run_objective r;
       run_steps := run_steps r ++ [s];
       run_totalCostUSD := run_totalCostUSD r; run_budgetUSD := run_budgetUSD r;
       run_budgetRemainingUSD := run_budgetRemainingUSD r; run_result := run_result r |}).

(** [step.costUSD || 0] *)
Definition costOrZero (s : WorkflowStep) : Q :=
  match truthyNumber (step_costUSD s) with
  | Some c => c
  | None => 0
  end.

(** [this.currentRun!.totalCostUSD += step.costUSD || 0] *)
Definition addToTotalCost (s : WorkflowStep) : M unit :=
  updateRun (fun r =>
    {| run_id := run_id r; run_status := run_status r; run_objective := run_objective r;
       run_steps := run_steps r;
       run_totalCostUSD := run_totalCostUSD r + costOrZero s;
       run_budgetUSD := run_budgetUSD r;
       run_budgetRemainingUSD := run_budgetRemainingUSD r; run_result := run_result r |}).

(** [this.currentRun!.budgetRemainingUSD =
      this.currentRun!.budgetUSD - this.currentRun!.totalCostUSD] *)
Definition refreshBudgetRemaining : M unit :=
  updateRun (fun r =>
    {| run_id := run_id r; run_status := run_status r; run_objective := run_objective r;
       run_steps := run_steps r;
       run_totalCostUSD := run_totalCostUSD r; run_budgetUSD := run_budgetUSD r;
       run_budgetRemainingUSD := run_budgetUSD r - run_totalCostUSD r;
       run_result := run_result r |}).

(** ** Tool executor (tool-executor.ts) *)

(** What the payment SDK reports through the callbacks of
    [UniversalFetchOptions]. *)
Record CostEstimate := {
  est_amountUSD : Q;
  est_amountRaw : string;
  est_token : string
}.

Record PaymentSettlement := {
  stl_success : bool;
  stl_network : option string;
  stl_txHash : option string
}.

(** The [try] block of [executeTool]: [wallet.fetch] (or the fallback
    fetch) and [response.json()] return the parsed body, or one of them
    throws, or the response is not [ok] and the block throws itself. *)
Inductive GatewayOutcome :=
| GatewayThrows (message : string)
| GatewayReturns (data : JsVal).

(** Everything one call of [executeTool] takes from outside: the two
    [uuid()] values, the clock readings of [assess] and [recordAction], and
    what the SDK did. *)
Record ToolCall := {
  call_stepId : string;
  call_assessedAt : Z;
  call_detectedProtocol : option string;
  call_costEstimate : option CostEstimate;
  call_settlement : option PaymentSettlement;
  call_outcome : GatewayOutcome;
  call_stampedAt : Z;
  call_loggedAt : Z;
  call_receiptId : string
}.

(** The environment variables read when a receipt is built. *)
Record ProcessEnv := {
  NETWORK : option string;
  VERIDEX_SESSION_ADDRESS : option string;
  MERCHANT_RECIPIENT_ADDRESS : option string
}.

(** [toolRegistry.find((t) => t.id === toolId)]: strict equality holds
    for a string only. *)
Definition findTool (toolId : JsVal) (registry : list PaidTool) : option PaidTool :=
  match toolId with
  | JStr s => List.find (fun t => bool_decide (tool_id t = s)) registry
  | _ => None
  end.

Definition riskLevelName (l : RiskLevel) : string :=
  match l with
  | low => "low"
  | medium => "medium"
  | high => "high"
  | critical => "critical"
  end.

Section Agent.
Context `{NumberFormat}.
Variable processEnv : ProcessEnv.

(** A value inside a template literal. *)
Fixpoint jsToString (v : JsVal) : string :=
  match v with
  | JUndefined => "undefined"
  | JNull => "null"
  | JBool true => "true"
  | JBool false => "false"
  | JNum n => numToString n
  | JStr s => s
  | JArr items =>
      String.concat ","
        (List.map (fun x => match x with
                            | JUndefined | JNull => EmptyString
                            | _ => jsToString x
                            end) items)
  | JObj _ => "[object Object]"
  end.

(** [estimateWorkflowCost(toolIds)] *)
Definition estimateWorkflowCost (registry : list PaidTool) (toolIds : list JsVal) : Q :=
  foldl (fun sum id =>
           sum + match truthyNumber (tool_priceUSD <$> findTool id registry) with
                 | Some p => p
                 | None => 0
                 end) 0 toolIds.

(** [executeTool(toolId, params, protocolHint)].  Building the request
    ([new URL(tool.endpoint, MERCHANT_BASE)] and the query string) is taken
    to succeed for the endpoints of the registry. *)
Definition executeTool (toolId params : JsVal) (protocolHint : string) (c : ToolCall)
    : M (WorkflowStep * JsVal) :=
  let! registry := gets toolRegistry in
  match findTool toolId registry with
  | None => throw (Error ("Tool not found: " +:+ jsToString toolId))
  | Some tool =>
      let toolId := tool_id tool in
      let stepId := call_stepId c in
      (* 1. Risk assessment *)
      let! engine := gets riskEngine in
      let assessment :=
        assess engine (call_assessedAt c) ("tool:" +:+ toolId) (tool_priceUSD tool)
          (Some {| category := Some (tool_category tool); token := None;
                   chain := None; slippageBps := None |}) in
      modify (fun a => setLogger (logRiskAssessment assessment (logger a)) a) ;!
      if negb (approved assessment) then
        ret ({| step_id := stepId;
                step_type := StepType.pay;
                step_tool := Some toolId;
                step_protocol := Some protocolHint;
                step_input := None;
                step_output := None;
                step_costUSD := Some (tool_priceUSD tool);
                step_txHash := None;
                step_status := StepStatus.failed;
                step_reasoning := JStr (reason assessment);
                step_error :=
                  Some ("Risk policy violation: "
                          +:+ String.concat "; " (policyViolations assessment)) |},
             JNull)
      else
        (* 3. Execute via AgentWallet.fetch() *)
        let detectedProtocol := default protocolHint (call_detectedProtocol c) in
        match call_outcome c with
        | GatewayThrows msg =>
            ret ({| step_id := stepId;
                    step_type := StepType.execute;
                    step_tool := Some toolId;
                    step_protocol := Some detectedProtocol;
                    step_input := Some params;
                    step_output := None;
                    step_costUSD := Some 0;
                    step_txHash := None;
                    step_status := StepStatus.failed;
                    step_reasoning := JUndefined;
                    step_error := Some msg |},
                 JNull)
        | GatewayReturns data =>
            (* 4. Record payment in risk engine + log structured receipt *)
            let actualCostUSD :=
              default (tool_priceUSD tool) (est_amountUSD <$> call_costEstimate c) in
            modify (fun a =>
              setRiskEngine
                (recordAction (riskEngine a) (call_stampedAt c) (call_loggedAt c)
                   ("tool:" +:+ toolId) actualCostUSD true) a) ;!
            let txHash := call_settlement c ≫= stl_txHash in
            let receipt :=
              {| rcpt_id := call_receiptId c;
                 rcpt_protocol := detectedProtocol;
                 rcpt_tool := toolId;
                 rcpt_amountUSD := actualCostUSD;
                 rcpt_amountRaw :=
                   default
                     (numToString
                        (inject_Z (Qfloor (tool_priceUSD tool * 1000000 + (1 # 2)))))
                     (est_amountRaw <$> call_costEstimate c);
                 rcpt_token := default "USDC" (est_token <$> call_costEstimate c);
                 rcpt_network :=
                   default (default "base-sepolia" (NETWORK processEnv))
                     (call_settlement c ≫= stl_network);
                 rcpt_txHash := txHash;
                 rcpt_from := default "0xagent" (VERIDEX_SESSION_ADDRESS processEnv);
                 rcpt_to := default "0xmerchant" (MERCHANT_RECIPIENT_ADDRESS processEnv);
                 rcpt_status :=
                   match stl_success <$> call_settlement c with
                   | Some false => ReceiptStatus.failed
                   | _ => ReceiptStatus.settled
                   end |} in
            modify (fun a => setLogger (logPayment receipt (logger a)) a) ;!
            (* 5. Build workflow step *)
            ret ({| step_id := stepId;
                    step_type := StepType.execute;
                    step_tool := Some toolId;
                    step_protocol := Some detectedProtocol;
                    step_input := Some params;
                    step_output := Some (OutValue data);
                    step_costUSD := Some actualCostUSD;
                    step_txHash := txHash;
                    step_status := StepStatus.success;
                    step_reasoning :=
                      JStr ("Called " +:+ tool_name tool +:+ " for $"
                              +:+ toFixed actualCostUSD 4 +:+ " via " +:+ detectedProtocol
                              +:+ " — risk level: "
                              +:+ riskLevelName (riskLevel assessment));
                    step_error := None |},
                 data)
        end
  end.
End Agent.

(** ** The agent (aria-agent.ts) *)

(** What [callLLM] returned, with the outcome of [JSON.parse] on it:
    [None] when [JSON.parse] throws. *)
Record LLMReply := {
  reply_text : string;
  reply_parsed : option JsVal
}.

(** The two requests of [phaseAuthorize], both inside its [try]. *)
Inductive MandateOutcome :=
| MandateRequestFails (message : string)
| MandateAuthorizeFails (created : AP2Mandate) (message : string)
| MandateAuthorized (created authorized : AP2Mandate).

(** One entry of the [results] array of [phaseExecute]. *)
Record ExecResult := {
  result_tool : JsVal;
  result_data : JsVal;
  result_step : WorkflowStep
}.

(** Everything one call of [run] takes from outside. *)
Record Env := {
  env_runId : string;
  env_process : ProcessEnv;
  env_tools : Result (list PaidTool);
  env_planReply : Result LLMReply;
  env_mandate : MandateOutcome;
  env_toolCalls : nat -> ToolCall;
  env_decideReply : Result LLMReply;
  env_tradeCall : ToolCall;
  env_reportReply : Result LLMReply
}.

Fixpoint mapResult {A B} (f : A -> Result B) (l : list A) : Result (list B) :=
  match l with
  | [] => Ok []
  | x :: l' =>
      match f x with
      | Throw e => Throw e
      | Ok y =>
          match mapResult f l' with
          | Throw e => Throw e
          | Ok ys => Ok (y :: ys)
          end
      end
  end.

(** [(plan.plan || []).map((s) => s.tool)] *)
Definition plannedTools (plan : JsVal) : Result (list JsVal) :=
  match getProp plan "plan" with
  | Throw e => Throw e
  | Ok p =>
      match jsOr p (JArr []) with
      | JArr items => mapResult (fun s => getProp s "tool") items
      | _ => Throw (TypeError "(plan.plan || []).map is not a function")
      end
  end.

(** The elements [steps[0]], ..., [steps[steps.length - 1]] the loop of
    [phaseExecute] visits.  [phasePlan] throws on a truthy [plan.plan] that
    is not an array, so the loop sees an array or the default [[]]; a
    string would be visited character by character, a number or a boolean
    has no [length]; an object that carries a [length] of its own is not
    modelled. *)
Definition stepsOf (v : JsVal) : list JsVal :=
  match v with
  | JArr items => items
  | JStr s => (fun c => JStr (String c EmptyString)) <$> String.list_ascii_of_string s
  | _ => []
  end.

(** [this.currentRun!.x] read at the start of a phase. *)
Definition requireRun : M WorkflowRun :=
  fun a =>
    match currentRun a with
    | Some r => (Ok r, a)
    | None => (Throw (TypeError "Cannot read properties of null"), a)
    end.

Definition planFallback (planResponse : string) : JsVal :=
  JObj [("plan", JArr []); ("estimatedCostUSD", JNum 0); ("reasoning", JStr planResponse)].

Definition decisionFallback (decisionResponse : string) : JsVal :=
  JObj [("decision", JStr "hold"); ("confidence", JNum 0.5);
        ("reasoning", JStr decisionResponse); ("action", JNull); ("riskFactors", JArr [])].

Definition reportFallback (reportResponse : string) : JsVal :=
  JObj [("summary", JStr reportResponse); ("recommendation", JStr "See full logs");
        ("keyFindings", JArr [])].

(** [try { x = JSON.parse(response) } catch { x = fallback }] *)
Definition parseOr (fallback : string -> JsVal) (r : LLMReply) : JsVal :=
  default (fallback (reply_text r)) (reply_parsed r).

Definition plainStep (id : string) (ty : StepType.t) (out : option StepOutput)
    (cost : option Q) (st : StepStatus.t) (why : JsVal) (err : option string)
    : WorkflowStep :=
  {| step_id := id; step_type := ty; step_tool := None; step_protocol := None;
     step_input := None; step_output := out; step_costUSD := cost;
     step_txHash := None; step_status := st; step_reasoning := why;
     step_error := err |}.

(** The run object [run] starts from. *)
Definition newRun (runId objective : string) (budgetUSD : Q) : WorkflowRun :=
  {| run_id := runId; run_status := RunStatus.running;
     run_objective := objective; run_steps := [];
     run_totalCostUSD := 0; run_budgetUSD := budgetUSD;
     run_budgetRemainingUSD := budgetUSD; run_result := None |}.

Section AriaAgentMethods.
Context `{NumberFormat}.
Variable env : Env.

(** [toolExecutor.discoverTools()] *)
Definition discoverTools : M (list PaidTool) :=
  let! tools := liftResult (env_tools env) in
  modify (setToolRegistry tools) ;!
  ret tools.

(** Phase 1 *)
Definition phaseDiscover : M (list PaidTool) :=
  let! tools := discoverTools in
  let count := inject_Z (Z.of_nat (length tools)) in
  pushStep
    (plainStep "discover" StepType.discover
       (Some (OutValue (JObj [("toolCount", JNum count);
                              ("tools", JArr ((fun t => JStr (tool_id t)) <$> tools))])))
       None StepStatus.success
       (JStr ("Discovered " +:+ numToString count +:+ " paid tools from merchant server"))
       None) ;!
  ret tools.

(** Phase 2 *)
Definition phasePlan (objective : string) : M JsVal :=
  let! registry := gets toolRegistry in
  let! reply := liftResult (env_planReply env) in
  let plan := parseOr planFallback reply in
  (* plan.estimatedCostUSD || estimateWorkflowCost((plan.plan || []).map(...)) *)
  let! declared := liftResult (getProp plan "estimatedCostUSD") in
  let! estimatedCost :=
    (if truthy declared then ret declared
     else let! ids := liftResult (plannedTools plan) in
          ret (JNum (estimateWorkflowCost registry ids))) in
  (* logger.info: estimatedCost.toFixed(4), the tools of the plan, plan.reasoning *)
  match estimatedCost with
  | JNum _ =>
      let! _ := liftResult (plannedTools plan) in
      let! reasoning := liftResult (getProp plan "reasoning") in
      pushStep
        (plainStep "plan" StepType.reason (Some (OutValue plan)) (Some 0)
           StepStatus.success reasoning None) ;!
      ret plan
  | _ => throw (TypeError "estimatedCost.toFixed is not a function")
  end.

(** Phase 3 *)
Definition phaseAuthorize (objective : string) (plan : JsVal) : M (option AP2Mandate) :=
  let! declared := liftResult (getProp plan "estimatedCostUSD") in
  let estimatedCost := jsOr declared (JNum 0.5) in
  let! toolIds := liftResult (plannedTools plan) in
  let failed msg :=
    pushStep
      (plainStep "authorize" StepType.authorize None None StepStatus.failed
         (JStr "AP2 mandate failed — proceeding with direct x402 payments")
         (Some msg)) ;!
    ret None in
  match env_mandate env with
  | MandateRequestFails msg => failed msg
  | MandateAuthorizeFails created msg =>
      modify (fun a => setLogger (logMandate created (logger a)) a) ;!
      failed msg
  | MandateAuthorized created authorized =>
      modify (fun a => setLogger (logMandate created (logger a)) a) ;!
      match estimatedCost with
      | JNum n =>
          pushStep
            (plainStep "authorize" StepType.authorize
               (Some (OutValue (JObj [("mandateId", JStr (mandateId authorized));
                                      ("status", JStr (mandateStatus authorized))])))
               None StepStatus.success
               (JStr ("AP2 mandate created and authorized for $" +:+ toFixed n 2
                        +:+ " budget across "
                        +:+ numToString (inject_Z (Z.of_nat (length toolIds)))
                        +:+ " tools"))
               None) ;!
          ret (Some authorized)
      | _ => failed "estimatedCost.toFixed is not a function"
      end
  end.

(** The body of the loop of [phaseExecute], from index [i] on. *)
Fixpoint executeSteps (protocol : string) (steps : list JsVal) (i : nat)
    (results : list ExecResult) : M (list ExecResult) :=
  match steps with
  | [] => ret results
  | planned :: rest =>
      let! tool := liftResult (getProp planned "tool") in
      let! params := liftResult (getProp planned "params") in
      let! (step, data) :=
        executeTool (env_process env) tool (jsOr params (JObj [])) protocol
          (env_toolCalls env i) in
      pushStep step ;!
      addToTotalCost step ;!
      refreshBudgetRemaining ;!
      executeSteps protocol rest (S i)
        (results ++ [{| result_tool := tool; result_data := data; result_step := step |}])
  end.

(** Phase 4 *)
Definition phaseExecute (plan : JsVal) (mandate : option AP2Mandate)
    : M (list ExecResult) :=
  let! p := liftResult (getProp plan "plan") in
  let protocol := match mandate with Some _ => "ap2" | None => "x402" end in
  executeSteps protocol (stepsOf (jsOr p (JArr []))) 0 [].

(** Phase 5 *)
Definition phaseDecide (results : list ExecResult) : M JsVal :=
  let! _ := requireRun in
  let! reply := liftResult (env_decideReply env) in
  let decision := parseOr decisionFallback reply in
  let! _ := liftResult (getProp decision "decision") in
  let! reasoning := liftResult (getProp decision "reasoning") in
  pushStep
    (plainStep "decide" StepType.reason (Some (OutValue decision)) None
       StepStatus.success reasoning None) ;!
  ret decision.

(** Phase 6 *)
Definition phaseTradeExecute (decision : JsVal) : M unit :=
  let! action := liftResult (getProp decision "action") in
  if negb (truthy action) then ret tt
  else
    let! tool := liftResult (getProp action "tool") in
    let! params := liftResult (getProp action "params") in
    let! (step, data) :=
      executeTool (env_process env) tool (jsOr params (JObj [])) "x402"
        (env_tradeCall env) in
    pushStep step ;!
    addToTotalCost step.

(** Phase 7 *)
Definition phaseReport (objective : string) : M WorkflowResult :=
  let! _ := requireRun in
  let! reply := liftResult (env_reportReply env) in
  let report := parseOr reportFallback reply in
  let! l := gets logger in
  let! summary := liftResult (getProp report "summary") in
  let! recommendation := liftResult (getProp report "recommendation") in
  let! keyFindings := liftResult (getProp report "keyFindings") in
  let result :=
    {| res_summary := summary;
       res_recommendation := recommendation;
       res_confidence := 0.72;
       res_keyFindings := keyFindings;
       res_auditSummary := getFullReportSummary l;
       res_receipts := receipts l |} in
  pushStep
    (plainStep "report" StepType.report (Some (OutResult result)) None
       StepStatus.success (JStr "Generated final report with audit trail") None) ;!
  ret result.

(** The "Finalize" block of [run]. *)
Definition finalize (budgetUSD : Q) (result : WorkflowResult) : M unit :=
  let! l := gets logger in
  let total := receiptsTotal (receipts l) in
  updateRun (fun r =>
    {| run_id := run_id r; run_status := RunStatus.completed;
       run_objective := run_objective r; run_steps := run_steps r;
       run_totalCostUSD := total; run_budgetUSD := run_budgetUSD r;
       run_budgetRemainingUSD := budgetUSD - total;
       run_result := Some result |}).

(** The [try] block of [run]. *)
Definition runPhases (objective : string) (budgetUSD : Q) : M unit :=
  phaseDiscover ;!
  let! plan := phasePlan objective in
  let! mandate := phaseAuthorize objective plan in
  let! results := phaseExecute plan mandate in
  let! decision := phaseDecide results in
  let! action := liftResult (getProp decision "action") in
  (if truthy action then phaseTradeExecute decision else ret tt) ;!
  let! result := phaseReport objective in
  finalize budgetUSD result.

Definition markFailed (r : WorkflowRun) : WorkflowRun :=
  {| run_id := run_id r; run_status := RunStatus.failed;
     run_objective := run_objective r; run_steps := run_steps r;
     run_totalCostUSD := run_totalCostUSD r; run_budgetUSD := run_budgetUSD r;
     run_budgetRemainingUSD := run_budgetRemainingUSD r;
     run_result := run_result r |}.

(** [AriaAgent.run(objective, budgetUSD)]; the run it returns is the
    [currentRun] of the resulting agent. *)
Definition run (objective : string) (budgetUSD : Q) (a : AriaAgent) : AriaAgent :=
  let started := setCurrentRun (Some (newRun (env_runId env) objective budgetUSD)) a in
  match runPhases objective budgetUSD started with
  | (Ok _, a') => a'
  | (Throw _, a') => setCurrentRun (markFailed <$> currentRun a') a'
  end.
End AriaAgentMethods.

(** ** Sequences of spends

    A caller that follows the protocol of the executor: each spend is
    assessed against the engine as it stands, and then recorded with the
    assessed cost; it is recorded as approved only if the assessment listed
    no violation. *)
Record Spend := {
  spend_action : string;
  spend_cost : Q;
  spend_metadata : option Metadata;
  spend_assessedAt : Z;
  spend_approved : bool;
  spend_stampedAt : Z;
  spend_loggedAt : Z
}.

Definition recordSpend (e : RiskEngine) (s : Spend) : RiskEngine :=
  recordAction e (spend_stampedAt s) (spend_loggedAt s) (spend_action s)
    (spend_cost s) (spend_approved s).

(** The engine after each [recordAction] call of the sequence. *)
Fixpoint enginesAfter (e : RiskEngine) (spends : list Spend) : list RiskEngine :=
  match spends with
  | [] => []
  | s :: rest => recordSpend e s :: enginesAfter (recordSpend e s) rest
  end.

Section SpendDiscipline.
Context `{NumberFormat}.

Definition assessSpend (e : RiskEngine) (s : Spend) : RiskAssessment :=
  assess e (spend_assessedAt s) (spend_action s) (spend_cost s) (spend_metadata s).

Fixpoint disciplined (e : RiskEngine) (spends : list Spend) : Prop :=
  match spends with
  | [] => True
  | s :: rest =>
      (spend_approved s = true -> policyViolations (assessSpend e s) = [])
      /\ disciplined (recordSpend e s) rest
  end.
End SpendDiscipline.

(** ** Sample inputs *)

(** Scenario A of the specification: three spends of one cent, two seconds
    apart, each recorded as approved. *)
Definition centSpend (at_ : Z) : Spend :=
  {| spend_action := "tool:market-data"; spend_cost := 0.01;
     spend_metadata := None; spend_assessedAt := at_; spend_approved := true;
     spend_stampedAt := (at_ + 100)%Z; spend_loggedAt := (at_ + 100)%Z |}.

Definition scenarioA : list Spend := [centSpend 1000; centSpend 3000; centSpend 5000].

(** An engine with the default policy that has spent $49.50. *)
Definition nearLimitEngine : RiskEngine :=
  {| policy := DEFAULT_POLICY; dailySpent := 49.5;
     lastActionTimestamp := 0%Z; actionLog := [] |}.

(** An engine with the default policy whose last approved action was
    stamped at time 1000. *)
Definition coolingEngine : RiskEngine :=
  {| policy := DEFAULT_POLICY; dailySpent := 0;
     lastActionTimestamp := 1000%Z; actionLog := [] |}.

(** Scenario D of the specification. *)
Definition scenarioD : list SentimentSignal :=
  [ {| source := "news"; score := 0.5; label := "bullish"; confidence := 0.9 |};
    {| source := "on-chain"; score := -0.1; label := "neutral"; confidence := 0.2 |} ].

(** The catalogue the merchant server advertises. *)
Definition catalogue : list PaidTool :=
  [ {| tool_id := "market-data"; tool_name := "Market Data";
       tool_endpoint := "/api/v1/market-data"; tool_priceUSD := 0.01;
       tool_category := "market-data" |};
    {| tool_id := "sentiment"; tool_name := "Sentiment Analysis";
       tool_endpoint := "/api/v1/sentiment"; tool_priceUSD := 0.05;
       tool_category := "sentiment" |};
    {| tool_id := "route-optimizer"; tool_name := "Route Optimizer";
       tool_endpoint := "/api/v1/route"; tool_priceUSD := 0.02;
       tool_category := "routing" |};
    {| tool_id := "trade-execute"; tool_name := "Trade Execution";
       tool_endpoint := "/api/v1/execute"; tool_priceUSD := 0.10;
       tool_category := "execution" |};
    {| tool_id := "portfolio-analytics"; tool_name := "Portfolio Analytics";
       tool_endpoint := "/api/v1/analytics"; tool_priceUSD := 0.03;
       tool_category := "analytics" |};
    {| tool_id := "web-search"; tool_name := "Web Search";
       tool_endpoint := "/api/v1/search"; tool_priceUSD := 0.02;
       tool_category := "market-data" |} ].

Definition noProcessEnv : ProcessEnv :=
  {| NETWORK := None; VERIDEX_SESSION_ADDRESS := None;
     MERCHANT_RECIPIENT_ADDRESS := None |}.

(** A tool call assessed at [at_] whose gateway does [outcome]; the SDK
    reports nothing through its callbacks. *)
Definition callAt (at_ : Z) (outcome : GatewayOutcome) : ToolCall :=
  {| call_stepId := "step"; call_assessedAt := at_;
     call_detectedProtocol := None; call_costEstimate := None;
     call_settlement := None; call_outcome := outcome;
     call_stampedAt := (at_ + 200)%Z; call_loggedAt := (at_ + 200)%Z;
     call_receiptId := "receipt" |}.

(** A planned step [{ tool, params: {}, reasoning: "" }]. *)
Definition planned (tool : string) : JsVal :=
  JObj [("tool", JStr tool); ("params", JObj []); ("reasoning", JStr EmptyString)].

Definition planOf (tools : list string) : JsVal :=
  JObj [("plan", JArr (planned <$> tools)); ("estimatedCostUSD", JNum 0.13);
        ("reasoning", JStr "research")].

Definition replyOf (v : JsVal) : Result LLMReply :=
  Ok {| reply_text := "{...}"; reply_parsed := Some v |}.

(** An environment in which the catalogue is discovered, the mandate
    request fails, the language model answers [planReply] to the planning
    prompt and a hold decision and an empty report afterwards, and the
    [i]-th paid call is [calls i]. *)
Definition envWith (planReply : Result LLMReply) (calls : nat -> ToolCall) : Env :=
  {| env_runId := "run";
     env_process := noProcessEnv;
     env_tools := Ok catalogue;
     env_planReply := planReply;
     env_mandate := MandateRequestFails "fetch failed";
     env_toolCalls := calls;
     env_decideReply := replyOf (decisionFallback "hold");
     env_tradeCall := callAt 0 (GatewayThrows "unused");
     env_reportReply := replyOf (reportFallback "done") |}.

(** Calls two seconds apart that all return an empty object. *)
Definition steadyCalls (i : nat) : ToolCall :=
  callAt (1000 + 2000 * Z.of_nat i) (GatewayReturns (JObj [])).

(** Calls half a second after the previous settlement, as the pause of the
    loop of [phaseExecute] spaces them. *)
Definition hastyCalls (i : nat) : ToolCall :=
  callAt (1000 + 700 * Z.of_nat i) (GatewayReturns (JObj [])).

(** Calls two seconds apart, the second of which throws. *)
Definition secondCallThrows (i : nat) : ToolCall :=
  match i with
  | 1%nat => callAt 3000 (GatewayThrows "Tool call failed: 500 Internal Server Error")
  | _ => steadyCalls i
  end.

(** An agent in the middle of a run with budget [$1]. *)
Definition runningAgent (tools : list PaidTool) : AriaAgent :=
  {| riskEngine := newRiskEngine DEFAULT_POLICY;
     logger := newAuditLogger;
     toolRegistry := tools;
     currentRun := Some (newRun "run" "Research ETH" 1) |}.

(** ** Derived notions used in the statements *)

(** The sum of the amounts of the settled receipts. *)
Definition isSettled (r : PaymentReceipt) : bool :=
  match rcpt_status r with
  | ReceiptStatus.settled => true
  | _ => false
  end.

Definition settledTotal (rs : list PaymentReceipt) : Q :=
  Qsum (rcpt_amountUSD <$> List.filter isSettled rs).

(** The three updates of the run that follow one tool call in
    [phaseExecute]. *)
Definition recordStep (s : WorkflowStep) (r : WorkflowRun) : WorkflowRun :=
  {| run_id := run_id r; run_status := run_status r; run_objective := run_objective r;
     run_steps := run_steps r ++ [s];
     run_totalCostUSD := run_totalCostUSD r + costOrZero s;
     run_budgetUSD := run_budgetUSD r;
     run_budgetRemainingUSD := run_budgetUSD r - (run_totalCostUSD r + costOrZero s);
     run_result := run_result r |}.

(** The metadata [executeTool] passes to [assess]. *)
Definition toolMetadata (t : PaidTool) : option Metadata :=
  Some {| category := Some (tool_category t); token := None;
          chain := None; slippageBps := None |}.

(** A check appends to the list of violations and removes nothing. *)
Definition appends (check : Verdict -> Verdict) : Prop :=
  forall v, exists extra, (check v).1 = v.1 ++ extra.

(** A method keeps a property of the agent when the state it leaves,
    returning or throwing, has the property whenever the state it started
    from has it. *)
Definition keeps {A} (P : AriaAgent -> Prop) (m : M A) : Prop :=
  forall a, P a -> P (m a).2.

(** The registry is [tools] and a run is in progress. *)
Definition inRun (tools : list PaidTool) (a : AriaAgent) : Prop :=
  toolRegistry a = tools /\ is_Some (currentRun a).

Section ToolOutcomes.
Context `{NumberFormat}.

(** The three ways [executeTool] returns for a registered tool [t]: the
    step [s] it returns and the agent [a'] it leaves. *)
Inductive ToolOutcome (a : AriaAgent) (t : PaidTool) (c : ToolCall)
    (s : WorkflowStep) (a' : AriaAgent) : Prop :=
| Rejected :
    approved (assess (riskEngine a) (call_assessedAt c) ("tool:" +:+ tool_id t)
                (tool_priceUSD t) (toolMetadata t)) = false ->
    step_status s = StepStatus.failed ->
    step_costUSD s = Some (tool_priceUSD t) ->
    receipts (logger a') = receipts (logger a) ->
    riskEngine a' = riskEngine a ->
    ToolOutcome a t c s a'
| PaymentFailed msg :
    approved (assess (riskEngine a) (call_assessedAt c) ("tool:" +:+ tool_id t)
                (tool_priceUSD t) (toolMetadata t)) = true ->
    call_outcome c = GatewayThrows msg ->
    step_status s = StepStatus.failed ->
    step_error s = Some msg ->
    step_costUSD s = Some 0 ->
    receipts (logger a') = receipts (logger a) ->
    riskEngine a' = riskEngine a ->
    ToolOutcome a t c s a'
| Paid data r :
    approved (assess (riskEngine a) (call_assessedAt c) ("tool:" +:+ tool_id t)
                (tool_priceUSD t) (toolMetadata t)) = true ->
    call_outcome c = GatewayReturns data ->
    step_status s = StepStatus.success ->
    step_costUSD s = Some (rcpt_amountUSD r) ->
    receipts (logger a') = receipts (logger a) ++ [r] ->
    ToolOutcome a t c s a'.
End ToolOutcomes.

(** [coolingEngine] after a rejected action was logged: the same policy,
    spend and time stamp, another action log. *)
Definition coolingEngineWithLog : RiskEngine :=
  recordAction coolingEngine 1100 1100 "tool:sentiment" 0.05 false.

(** A plan of three catalogue tools, run with [secondCallThrows]. *)
Definition threeStepEnv : Env :=
  envWith (replyOf (planOf ["web-search"; "market-data"; "sentiment"])) secondCallThrows.

(** A plan whose second step names a tool the catalogue does not have. *)
Definition unknownToolEnv : Env :=
  envWith (replyOf (planOf ["web-search"; "price-oracle"])) steadyCalls.

(** The planning reply is the JSON text [null]. *)
Definition nullPlanEnv : Env :=
  envWith (Ok {| reply_text := "null"; reply_parsed := Some JNull |}) steadyCalls.

(** The planning reply is a JSON object whose [plan] is not an array. *)
Definition nestedPlanEnv : Env :=
  envWith (replyOf (JObj [("plan", JObj [("steps", JArr [planned "web-search"])])]))
    steadyCalls.

(** The planning reply is prose. *)
Definition proseEnv : Env :=
  envWith (Ok {| reply_text := "I cannot plan"; reply_parsed := None |}) steadyCalls.

(** ** The rest of the risk engine *)

(** [RiskEngine.getBudgetStatus()] *)
Record BudgetStatus := {
  bs_dailyLimit : Q;
  bs_spent : Q;
  bs_remaining : Q;
  bs_percentUsed : option Q;
  bs_actionCount : nat;
  bs_lastAction : option ActionLogEntry
}.

Definition getBudgetStatus (e : RiskEngine) : BudgetStatus :=
  {| bs_dailyLimit := dailyLimitUSD (policy e);
     bs_spent := dailySpent e;
     bs_remaining := dailyLimitUSD (policy e) - dailySpent e;
     bs_percentUsed :=
       (fun q => q * 100) <$> jsDiv (dailySpent e) (dailyLimitUSD (policy e));
     bs_actionCount := length (actionLog e);
     bs_lastAction := last (actionLog e) |}.

(** [RiskEngine.getAuditTrail()] *)
Definition getAuditTrail (e : RiskEngine) : list ActionLogEntry := actionLog e.

(** [RiskEngine.resetDaily()] *)
Definition resetDaily (e : RiskEngine) : RiskEngine :=
  {| policy := policy e;
     dailySpent := 0;
     lastActionTimestamp := lastActionTimestamp e;
     actionLog := [] |}.

(** A call of one of the two methods that change the engine. *)
Inductive EngineCall :=
| CallRecordAction (stampedAt loggedAt : Z) (act : string) (costUSD : Q) (ok : bool)
| CallResetDaily.

Definition callEngine (e : RiskEngine) (c : EngineCall) : RiskEngine :=
  match c with
  | CallRecordAction stampedAt loggedAt act costUSD ok =>
      recordAction e stampedAt loggedAt act costUSD ok
  | CallResetDaily => resetDaily e
  end.

(** The sum of the costs of the log entries recorded as approved. *)
Definition approvedTotal (log : list ActionLogEntry) : Q :=
  Qsum (log_costUSD <$> List.filter log_approved log).

(** ** The sentiment provider (providers/sentiment.ts) *)

(** [Math.min] and [Math.max] on two numbers. *)
Definition mathMin (a b : Q) : Q := if Qle_bool a b then a else b.
Definition mathMax (a b : Q) : Q := if Qle_bool a b then b else a.

(** [parseFloat(q.toFixed(digits))] on exact numbers: the multiple of
    [10^-digits] nearest to [q], a tie going away from zero. *)
Definition roundTo (digits : nat) (q : Q) : Q :=
  let scale := (10 ^ Z.of_nat digits)%Z in
  let n := Qfloor (Qabs q * inject_Z scale + (1 # 2)) in
  (if Qltb q 0 then - inject_Z n else inject_Z n) / inject_Z scale.

(** *** The cache *)

Record CacheEntry (T : Type) := {
  entry_data : T;
  entry_expiresAt : Z
}.
Arguments entry_data {T} _.
Arguments entry_expiresAt {T} _.

Definition CACHE_TTL_MS : Z := 60000.

(** [getCached(key)], reading the clock value [now]: the data, or [None]
    for [null], and the cache it leaves. *)
Definition getCached {T} (cache : gmap string (CacheEntry T)) (now : Z) (key : string)
    : option T * gmap string (CacheEntry T) :=
  match cache !! key with
  | Some entry =>
      if (now <? entry_expiresAt entry)%Z then (Some (entry_data entry), cache)
      else (None, delete key cache)
  | None => (None, delete key cache)
  end.

(** [setCache(key, data)], reading the clock value [now]. *)
Definition setCache {T} (cache : gmap string (CacheEntry T)) (now : Z) (key : string) (data : T)
    : T * gmap string (CacheEntry T) :=
  (data, <[key := {| entry_data := data; entry_expiresAt := (now + CACHE_TTL_MS)%Z |}]> cache).

(** *** What the sources return *)

Inductive NewsSentiment := NewsPositive | NewsNegative | NewsNeutral.

Record NewsItem := {
  news_title : string;
  news_source : string;
  news_url : string;
  news_publishedAt : string;
  news_sentiment : NewsSentiment;
  news_categories : list string
}.

(** The value [fetchFearGreed] returns when it does not return [null]. *)
Record FearGreed := {
  fg_value : Q;
  fg_label : string;
  fg_timestamp : Z
}.

(** The fields of the CoinGecko response [fetchOnChainSignals] computes
    with; an absent or [null] field is [None]. *)
Record CoinData := {
  coin_totalVolumeUsd : option Q;
  coin_marketCapUsd : option Q;
  coin_twitterFollowers : option Q;
  coin_redditSubscribers : option Q
}.

(** What the three requests of one [fetchSentiment] call produce:
    [fetchNews] (the empty list on any failure), [fetchFearGreed] ([None]
    for [null]) and the response [fetchOnChainSignals] reads ([None] when
    the request fails or is not [ok]). *)
Record Fetched := {
  fetched_news : list NewsItem;
  fetched_fearGreed : option FearGreed;
  fetched_coin : option CoinData
}.

(** [SentimentResult] *)
Record SentimentResult := {
  sr_token : string;
  sr_sources : list string;
  sr_overall : Composite;
  sr_signals : list SentimentSignal;
  sr_news : list NewsItem;
  sr_fearGreedIndex : option FearGreed;
  sr_recommendation : string;
  sr_timestamp : Z;
  sr_live : bool
}.

(** [x || 0] on an optional number. *)
Definition numberOrZero (x : option Q) : Q := default 0 (truthyNumber x).

(** [fetchOnChainSignals(token)], from the response of its request. *)
Definition fetchOnChainSignals (response : option CoinData) : option SentimentSignal :=
  match response with
  | None => Some onChainUnavailable
  | Some coin =>
      volumeChange ←
        match truthyNumber (coin_totalVolumeUsd coin), truthyNumber (coin_marketCapUsd coin) with
        | Some volume, Some marketCap => jsDiv volume marketCap
        | _, _ => Some 0
        end;
      let volumeSignal := mathMin 1 (mathMax (-1) ((volumeChange - 0.05) * 10)) in
      let twitterFollowers := numberOrZero (coin_twitterFollowers coin) in
      let redditSubscribers := numberOrZero (coin_redditSubscribers coin) in
      let communityScore := mathMin 1 ((twitterFollowers + redditSubscribers) / 1000000) in
      let raw := volumeSignal * 0.6 + communityScore * 0.4 in
      Some {| source := "onchain";
              score := roundTo 3 raw;
              label := if Qgtb raw 0.2 then "accumulating"
                       else if Qltb raw (-0.2) then "distributing"
                       else "neutral";
              confidence := 0.65 |}
  end.

Definition countNews (s : NewsSentiment) (news : list NewsItem) : nat :=
  length (List.filter (fun n => match news_sentiment n, s with
                                | NewsPositive, NewsPositive
                                | NewsNegative, NewsNegative
                                | NewsNeutral, NewsNeutral => true
                                | _, _ => false
                                end) news).

(** The "News sentiment signal" block: the signals it pushes. *)
Definition newsSignals (news : list NewsItem) : option (list SentimentSignal) :=
  if (0 <? length news)%nat then
    let posCount := inject_Z (Z.of_nat (countNews NewsPositive news)) in
    let negCount := inject_Z (Z.of_nat (countNews NewsNegative news)) in
    let count := inject_Z (Z.of_nat (length news)) in
    newsScore ← (if (0 <? length news)%nat then jsDiv (posCount - negCount) count
                 else Some 0);
    Some [ {| source := "news";
              score := roundTo 3 newsScore;
              label := if Qgtb newsScore 0.2 then "bullish"
                       else if Qltb newsScore (-0.2) then "bearish"
                       else "neutral";
              confidence := mathMin 0.9 (0.5 + count * 0.04) |} ]
  else Some [].

(** The "Fear & Greed signal" block. *)
Definition fearGreedSignals (fearGreed : option FearGreed) : list SentimentSignal :=
  match fearGreed with
  | Some fg =>
      let fgScore := (fg_value fg - 50) / 50 in
      [ {| source := "fear-greed-index";
           score := roundTo 3 fgScore;
           label := fg_label fg;
           confidence := 0.75 |} ]
  | None => []
  end.

(** The sources [fetchSentiment] asks for. *)
Definition sourcesOf (requestedSources : string) : list string :=
  if bool_decide (requestedSources = "all") then ["news"; "fear-greed"; "onchain"]
  else [requestedSources].

(** [sources.includes(name) || sources.includes('all')] *)
Definition wanted (name : string) (sources : list string) : bool :=
  bool_decide (name ∈ sources) || bool_decide ("all" ∈ sources).

Section FetchSentiment.
Context `{NumberFormat}.

Definition recommendationOf (token : string) (signalCount : nat) (compositeScore : Q)
    : string :=
  if Qgtb compositeScore 0.3 then
    token +:+ " sentiment is bullish across "
      +:+ numToString (inject_Z (Z.of_nat signalCount))
      +:+ " sources. Consider increasing position if fundamentals align."
  else if Qltb compositeScore (-0.3) then
    token +:+ " sentiment is bearish. Consider reducing exposure or waiting for reversal signals."
  else
    token +:+ " sentiment is mixed/neutral. Hold current position and monitor for directional shift.".

(** [fetchSentiment(token, requestedSources)] after a cache miss: the
    result it builds from what the sources return, at clock value
    [builtAt]. *)
Definition buildSentiment (token requestedSources : string) (outside : Fetched)
    (builtAt : Z) : option SentimentResult :=
  let sources := sourcesOf requestedSources in
  let news := if wanted "news" sources then fetched_news outside else [] in
  let fearGreed := if wanted "fear-greed" sources then fetched_fearGreed outside else None in
  onChain ← (if wanted "onchain" sources
             then Some <$> fetchOnChainSignals (fetched_coin outside)
             else Some None);
  fromNews ← newsSignals news;
  let signals := fromNews ++ fearGreedSignals fearGreed ++ option_list onChain in
  composite ← compositeAggregation signals;
  Some {| sr_token := token;
          sr_sources := source <$> signals;
          sr_overall :=
            {| compositeScore := roundTo 3 (compositeScore composite);
               compositeLabel := compositeLabel composite;
               compositeConfidence := roundTo 3 (compositeConfidence composite) |};
          sr_signals := signals;
          sr_news := take 5 news;
          sr_fearGreedIndex := fearGreed;
          sr_recommendation :=
            recommendationOf token (length signals) (compositeScore composite);
          sr_timestamp := builtAt;
          sr_live := (0 <? length signals)%nat |}.

(** [fetchSentiment(token, requestedSources)] with the module's cache; the
    clock is read when the cache is looked up, when the result is built
    and when it is stored. *)
Definition fetchSentiment (cache : gmap string (CacheEntry SentimentResult))
    (checkedAt builtAt storedAt : Z) (token requestedSources : string) (outside : Fetched)
    : option (SentimentResult * gmap string (CacheEntry SentimentResult)) :=
  let cacheKey := "sentiment:" +:+ token +:+ ":" +:+ requestedSources in
  match getCached cache checkedAt cacheKey with
  | (Some cached, cache') => Some (cached, cache')
  | (None, cache') =>
      result ← buildSentiment token requestedSources outside builtAt;
      Some (setCache cache' storedAt cacheKey result)
  end.

End FetchSentiment.

(** Sample inputs *)
Definition headline (s : NewsSentiment) : NewsItem :=
  {| news_title := "ETH"; news_source := "wire"; news_url := "https://example.org";
     news_publishedAt := "2026-01-01T00:00:00.000Z"; news_sentiment := s;
     news_categories := ["ETH"] |}.

Definition calmMarket : Fetched :=
  {| fetched_news := [headline NewsPositive; headline NewsPositive; headline NewsNegative;
                      headline NewsNeutral];
     fetched_fearGreed := Some {| fg_value := 72; fg_label := "Greed"; fg_timestamp := 1000 |};
     fetched_coin :=
       Some {| coin_totalVolumeUsd := Some 12000; coin_marketCapUsd := Some 300000;
               coin_twitterFollowers := Some 250000; coin_redditSubscribers := None |} |}.

(** Source data within the ranges the sources document: a Fear & Greed
    value between 0 and 100, follower counts that are not negative. *)
Definition plausible (outside : Fetched) : Prop :=
  (forall fg, fetched_fearGreed outside = Some fg ->
     0 <= fg_value fg /\ fg_value fg <= 100) /\
  (forall coin, fetched_coin outside = Some coin ->
     0 <= numberOrZero (coin_twitterFollowers coin)
          + numberOrZero (coin_redditSubscribers coin)).

(** The three texts of [recommendation]. *)
Definition holdText (token : string) : string :=
  token +:+ " sentiment is mixed/neutral. Hold current position and monitor for directional shift.".

(** A request for the on-chain source alone whose request fails. *)
Definition onChainDown : Fetched :=
  {| fetched_news := [headline NewsPositive]; fetched_fearGreed := None;
     fetched_coin := None |}.

(** ** The agent: more derived notions *)

(** The run [run] started is in progress: its identity and budget are the
    arguments of [run], it is still running and has no result. *)
Definition runInProgress (id objective : string) (budgetUSD : Q) (a : AriaAgent) : Prop :=
  exists r, currentRun a = Some r /\
    run_id r = id /\ run_objective r = objective /\ run_budgetUSD r = budgetUSD /\
    run_status r = RunStatus.running /\ run_result r = None.

(** The amount a paid call records: the estimate of the SDK when it
    reported one, else the listed price. *)
Definition actualCostUSD (t : PaidTool) (c : ToolCall) : Q :=
  default (tool_priceUSD t) (est_amountUSD <$> call_costEstimate c).

(** The SDK reports no estimate above a listed price. *)
Definition chargesWithinPrice (tools : list PaidTool) (c : ToolCall) : Prop :=
  forall est t, call_costEstimate c = Some est -> t ∈ tools ->
                est_amountUSD est <= tool_priceUSD t.

(** The registry is [tools] and the engine is within its daily limit. *)
Definition withinDailyLimit (tools : list PaidTool) (a : AriaAgent) : Prop :=
  toolRegistry a = tools /\
  dailySpent (riskEngine a) <= dailyLimitUSD (policy (riskEngine a)).

(** A step [executeTool] returns for a call the risk engine rejected. *)
Definition isRejection (s : WorkflowStep) : bool :=
  match step_type s with
  | StepType.pay => true
  | _ => false
  end.

(** Phases 2 to 7 of [run]: what its [try] block does between the
    discovery and the "Finalize" block. *)
Definition researchPhases `{NumberFormat} (env : Env) (objective : string)
    : M WorkflowResult :=
  let! plan := phasePlan env objective in
  let! mandate := phaseAuthorize env objective plan in
  let! results := phaseExecute env plan mandate in
  let! decision := phaseDecide env results in
  let! action := liftResult (getProp decision "action") in
  (if truthy action then phaseTradeExecute env decision else ret tt) ;!
  phaseReport env objective.

(** Since the agent was in state [a0], receipts were only added, the spent
    total of the risk engine grew by their sum, the engine logged one action
    per receipt, and its policy is the same. *)
Definition ledgerSince (a0 a : AriaAgent) : Prop :=
  exists new,
    receipts (logger a) = receipts (logger a0) ++ new /\
    dailySpent (riskEngine a) == dailySpent (riskEngine a0) + receiptsTotal new /\
    length (actionLog (riskEngine a)) = (length (actionLog (riskEngine a0)) + length new)%nat /\
    policy (riskEngine a) = policy (riskEngine a0).

(** Two runs that agree on everything but the budget and the remaining
    budget, and two agents that agree on everything but these two fields of
    their current run. *)
Definition sameRun (r1 r2 : WorkflowRun) : Prop :=
  run_id r1 = run_id r2 /\ run_status r1 = run_status r2 /\
  run_objective r1 = run_objective r2 /\ run_steps r1 = run_steps r2 /\
  run_totalCostUSD r1 = run_totalCostUSD r2 /\ run_result r1 = run_result r2.

Definition sameButBudget (a1 a2 : AriaAgent) : Prop :=
  riskEngine a1 = riskEngine a2 /\ logger a1 = logger a2 /\
  toolRegistry a1 = toolRegistry a2 /\
  match currentRun a1, currentRun a2 with
  | Some r1, Some r2 => sameRun r1 r2
  | None, None => True
  | _, _ => False
  end.

(** A method does the same on two such agents: the same result, and
    states that agree again. *)
Definition respects {A} (m : M A) : Prop :=
  forall a1 a2, sameButBudget a1 a2 ->
    (m a1).1 = (m a2).1 /\ sameButBudget (m a1).2 (m a2).2.

(** ** The audit report *)

(** The sum of the values of a breakdown ([spendByTool],
    [spendByProtocol]). *)
Definition breakdownTotal (m : gmap string Q) : Q :=
  map_fold (fun _ amount sum => sum + amount) 0 m.

(** The amounts of the receipts filed under [k] by [key]. *)
Definition amountsUnder (key : PaymentReceipt -> string) (k : string)
    (rs : list PaymentReceipt) : list Q :=
  rcpt_amountUSD <$> List.filter (fun r => bool_decide (key r = k)) rs.

(** ** The mandate store of the merchant server (merchant/src/server.ts)

    The handlers of [/api/v1/mandates] over the map [mandates], each taking
    the clock readings of its [Date.now()] and [new Date()] calls in the
    order the handler makes them.  A date is the time value its ISO string
    denotes; the broadcast to the dashboard is not modelled. *)

Module Mandate.

Inductive Status := pending | authorized | fulfilled.

Record MaxValue := {
  amount : Q;
  currency : string
}.

Record CartMandate := {
  maxValue : MaxValue;
  allowedCategories : list string;
  expiresAt : Z
}.

Record PaymentMandate := {
  provider : string;
  credentialType : string
}.

Record IntentMandate := {
  source : string;
  verifiedAt : Z;
  description : string;
  tools : JsVal
}.

Record t := {
  mandateId : string;
  version : string;
  cartMandate : CartMandate;
  paymentMandate : PaymentMandate;
  intentMandate : IntentMandate;
  status : Status;
  createdAt : Z;
  authorizedAt : option Z;
  authorizedBy : option string
}.

(** The body of [POST /api/v1/mandates]; an absent field is [None]. *)
Record CreateBody := {
  body_description : option string;
  body_maxValueUSD : option Q;
  body_allowedCategories : option (list string);
  body_expiresInSeconds : option Q;
  body_tools : option JsVal
}.

(** The body of [POST /api/v1/mandates/:id/fulfill]. *)
Record FulfillBody := {
  body_steps : option JsVal;
  body_totalSpent : option Q;
  body_receipts : option JsVal
}.

Record Fulfillment := {
  ful_mandateId : string;
  ful_fulfillmentId : string;
  ful_steps : JsVal;
  ful_totalSpent : Q;
  ful_receipts : JsVal;
  ful_completedAt : Z
}.

(** What a handler answers: the body of a success, or the status code of a
    failure (500 when the handler throws). *)
Inductive Response (A : Type) :=
| Json (body : A)
| NotFound
| BadRequest
| ServerError.
Arguments Json {A} body.
Arguments NotFound {A}.
Arguments BadRequest {A}.
Arguments ServerError {A}.

(** [x || fallback] on an optional value whose truth is [truth]. *)
Definition orElse {A} (truth : A -> bool) (x : option A) (fallback : A) : A :=
  match x with
  | Some v => if truth v then v else fallback
  | None => fallback
  end.

Definition nonEmpty (s : string) : bool := negb (bool_decide (s = EmptyString)).
Definition nonZero (q : Q) : bool := negb (Qeq_bool q 0).

(** [new Date(v).toISOString()]: the time value of the date, [v] without
    its fraction; a [RangeError] ([None]) beyond 8.64e15 milliseconds. *)
Definition isoDate (v : Q) : option Z :=
  if Qle_bool (Qabs v) 8640000000000000
  then Some (Z.quot (Qnum v) (Z.pos (Qden v)))
  else None.

(** [POST /api/v1/mandates]; [suffix] is the random part of the
    identifier. *)
Definition create (store : gmap string t) (idAt expiresFrom verifiedNow createdNow : Z)
    (suffix : string) (body : CreateBody) : Response t * gmap string t :=
  let id := "mandate-" +:+ pretty idAt +:+ "-" +:+ suffix in
  match isoDate (inject_Z expiresFrom
                 + orElse nonZero (body_expiresInSeconds body) 300 * 1000) with
  | None => (ServerError, store)
  | Some expires =>
      let mandate :=
        {| mandateId := id;
           version := "2026-01";
           cartMandate :=
             {| maxValue :=
                  {| amount := orElse nonZero (body_maxValueUSD body) 1;
                     currency := "USD" |};
                allowedCategories :=
                  orElse (fun _ => true) (body_allowedCategories body) ["*"];
                expiresAt := expires |};
           paymentMandate :=
             {| provider := "veridex"; credentialType := "session_key" |};
           intentMandate :=
             {| source := "agent_request";
                verifiedAt := verifiedNow;
                description :=
                  orElse nonEmpty (body_description body) "Agent workflow mandate";
                tools := orElse truthy (body_tools body) (JArr []) |};
           status := pending;
           createdAt := createdNow;
           authorizedAt := None;
           authorizedBy := None |} in
      (Json mandate, <[id := mandate]> store)
  end.

(** [POST /api/v1/mandates/:id/authorize] *)
Definition authorize (store : gmap string t) (now : Z) (id : string)
    (by_ : option string) : Response t * gmap string t :=
  match store !! id with
  | None => (NotFound, store)
  | Some mandate =>
      let mandate' :=
        {| mandateId := mandateId mandate;
           version := version mandate;
           cartMandate := cartMandate mandate;
           paymentMandate := paymentMandate mandate;
           intentMandate := intentMandate mandate;
           status := authorized;
           createdAt := createdAt mandate;
           authorizedAt := Some now;
           authorizedBy := Some (orElse nonEmpty by_ "user") |} in
      (Json mandate', <[id := mandate']> store)
  end.

(** [GET /api/v1/mandates/:id] *)
Definition get (store : gmap string t) (id : string) : Response t :=
  match store !! id with
  | None => NotFound
  | Some mandate => Json mandate
  end.

(** [POST /api/v1/mandates/:id/fulfill] *)
Definition fulfill (store : gmap string t) (idAt completedNow : Z) (id : string)
    (body : FulfillBody) : Response Fulfillment * gmap string t :=
  match store !! id with
  | None => (NotFound, store)
  | Some mandate =>
      match status mandate with
      | authorized =>
          let mandate' :=
            {| mandateId := mandateId mandate;
               version := version mandate;
               cartMandate := cartMandate mandate;
               paymentMandate := paymentMandate mandate;
               intentMandate := intentMandate mandate;
               status := fulfilled;
               createdAt := createdAt mandate;
               authorizedAt := authorizedAt mandate;
               authorizedBy := authorizedBy mandate |} in
          (Json {| ful_mandateId := mandateId mandate;
                   ful_fulfillmentId := "fulfill-" +:+ pretty idAt;
                   ful_steps := orElse truthy (body_steps body) (JArr []);
                   ful_totalSpent := orElse nonZero (body_totalSpent body) 0;
                   ful_receipts := orElse truthy (body_receipts body) (JArr []);
                   ful_completedAt := completedNow |},
           <[id := mandate']> store)
      | _ => (BadRequest, store)
      end
  end.

End Mandate.

(** A request for a mandate of five dollars for ten minutes. *)
Definition fiveDollarRequest : Mandate.CreateBody :=
  {| Mandate.body_description := Some "Research ETH";
     Mandate.body_maxValueUSD := Some 5;
     Mandate.body_allowedCategories := None;
     Mandate.body_expiresInSeconds := Some 600;
     Mandate.body_tools := None |}.

Definition noFulfillBody : Mandate.FulfillBody :=
  {| Mandate.body_steps := None; Mandate.body_totalSpent := None;
     Mandate.body_receipts := None |}.

(** ** The decision of [fallbackReasoning] (aria-agent.ts)

    Without an API key [callLLM] answers with [fallbackReasoning].  For the
    decision prompt it reads four numbers off the tool results and decides
    by the rule below; the texts [reasoning] and [riskFactors] of its answer
    are not modelled. *)

Inductive Decision := Buy | Sell | Hold.

(** The numbers the rule reads: [sentimentScore], [parseFloat(change24h)]
    ([None] when it is NaN), [portfolioAllocation] and [priceImpact]. *)
Record ResearchFacts := {
  facts_sentimentScore : Q;
  facts_changeNum : option Q;
  facts_portfolioAllocation : Q;
  facts_priceImpact : Q
}.

Record FallbackDecision := {
  fd_decision : Decision;
  fd_confidence : Q;
  fd_action : JsVal
}.

(** [x > y] and [x < y] when [x] may be NaN: a comparison with NaN is
    false. *)
Definition nanGt (x : option Q) (y : Q) : bool :=
  match x with
  | Some v => Qgtb v y
  | None => false
  end.

Definition nanLt (x : option Q) (y : Q) : bool :=
  match x with
  | Some v => Qltb v y
  | None => false
  end.

(** [{ tool: 'trade-execute', params: { routeId: 'latest', maxSlippageBps: 50 } }] *)
Definition tradeAction : JsVal :=
  JObj [("tool", JStr "trade-execute");
        ("params", JObj [("routeId", JStr "latest"); ("maxSlippageBps", JNum 50)])].

Definition fallbackDecision (f : ResearchFacts) : FallbackDecision :=
  let sentimentScore := facts_sentimentScore f in
  let isBullish := Qgtb sentimentScore 0.15 || nanGt (facts_changeNum f) 2 in
  let isBearish := Qltb sentimentScore (-0.15) || nanLt (facts_changeNum f) (-3) in
  let isHighConcentration := Qgtb (facts_portfolioAllocation f) 60 in
  let isLowImpact := Qltb (facts_priceImpact f) 50 in
  let '(decision, confidence_, action_) :=
    if isBullish && negb isHighConcentration && isLowImpact then
      (Buy, 0.65 + mathMin 0.25 (Qabs sentimentScore * 0.5), tradeAction)
    else if isBearish then
      (Hold, 0.6 + mathMin 0.3 (Qabs sentimentScore * 0.5), JNull)
    else if isHighConcentration then
      (Hold, 0.7, JNull)
    else
      (Hold, 0.55, JNull) in
  {| fd_decision := decision;
     fd_confidence := roundTo 2 confidence_;
     fd_action := action_ |}.

(** ** Further sample inputs *)

(** The language model answers every prompt in prose. *)
Definition allProseEnv : Env :=
  {| env_runId := "run";
     env_process := noProcessEnv;
     env_tools := Ok catalogue;
     env_planReply := Ok {| reply_text := "I cannot plan"; reply_parsed := None |};
     env_mandate := MandateRequestFails "fetch failed";
     env_toolCalls := steadyCalls;
     env_decideReply := Ok {| reply_text := "I cannot decide"; reply_parsed := None |};
     env_tradeCall := callAt 0 (GatewayThrows "unused");
     env_reportReply := Ok {| reply_text := "Nothing to report"; reply_parsed := None |} |}.

(** A plan of two catalogue tools, called two seconds apart. *)
Definition twoStepEnv : Env :=
  envWith (replyOf (planOf ["web-search"; "market-data"])) steadyCalls.

(** The decision to buy, and an environment whose trade call settles. *)
Definition buyDecision : JsVal :=
  JObj [("decision", JStr "buy"); ("confidence", JNum 0.8);
        ("reasoning", JStr "momentum"); ("action", tradeAction)].

Definition tradeEnv : Env :=
  {| env_runId := "run";
     env_process := noProcessEnv;
     env_tools := Ok catalogue;
     env_planReply := replyOf (planOf []);
     env_mandate := MandateRequestFails "fetch failed";
     env_toolCalls := steadyCalls;
     env_decideReply := replyOf buyDecision;
     env_tradeCall := callAt 9000 (GatewayReturns (JObj [("txHash", JStr "0xabc")]));
     env_reportReply := replyOf (reportFallback "done") |}.

(** * Properties *)

(** ** Numbers *)

Lemma Qgtb_true (x y : Q) : Qgtb x y = true <-> y < x.
Proof.
  unfold Qgtb. rewrite negb_true_iff, <- not_true_iff_false, Qle_bool_iff.
  split; [apply Qnot_le_lt | apply Qlt_not_le].
Qed.

Lemma Qgtb_false (x y : Q) : Qgtb x y = false <-> x <= y.
Proof. unfold Qgtb. rewrite negb_false_iff. apply Qle_bool_iff. Qed.

Lemma Qltb_true (x y : Q) : Qltb x y = true <-> x < y.
Proof. apply Qgtb_true. Qed.

Lemma Qltb_false (x y : Q) : Qltb x y = false <-> y <= x.
Proof. apply Qgtb_false. Qed.

Lemma positive_nonzero (x : Q) : 0 < x -> ~ x == 0.
Proof. intros Hpos Heq. rewrite Heq in Hpos. by apply Qlt_irrefl in Hpos. Qed.

Lemma jsDiv_Some (a b : Q) : ~ b == 0 -> jsDiv a b = Some (a / b).
Proof.
  intros Hb. unfold jsDiv. destruct (Qeq_bool b 0) eqn:Heq; [|done].
  by apply Qeq_bool_eq in Heq.
Qed.

(** ** Risk engine *)

Section RiskEngineFacts.
Context `{NumberFormat}.

Lemma appends_flag_if (b : bool) msg (lvl : Verdict -> RiskLevel) :
  appends (fun v => if b then flag msg (lvl v) v else v).
Proof.
  intros v. destruct b; simpl; [by exists [msg] | exists []; by rewrite app_nil_r].
Qed.

Lemma appends_checkDailyLimit e cost : appends (checkDailyLimit e cost).
Proof. unfold checkDailyLimit. apply (appends_flag_if _ _ (fun _ => critical)). Qed.

Lemma appends_checkPerTransaction e cost : appends (checkPerTransaction e cost).
Proof. unfold checkPerTransaction. apply (appends_flag_if _ _ (fun _ => high)). Qed.

Lemma appends_checkCooldown e now : appends (checkCooldown e now).
Proof.
  intros v. unfold checkCooldown, note.
  destruct (_ && _); simpl; [eauto | exists []; by rewrite app_nil_r].
Qed.

Lemma appends_checkCategory e m : appends (checkCategory e m).
Proof.
  intros v. unfold checkCategory.
  destruct (truthyString _); [apply (appends_flag_if _ _ (fun _ => high))|].
  exists []. by rewrite app_nil_r.
Qed.

Lemma appends_checkToken e m : appends (checkToken e m).
Proof.
  intros v. unfold checkToken.
  destruct (truthyString _); [apply (appends_flag_if _ _ (fun _ => high))|].
  exists []. by rewrite app_nil_r.
Qed.

Lemma appends_checkChain e m : appends (checkChain e m).
Proof.
  intros v. unfold checkChain.
  destruct (truthyString _); [apply (appends_flag_if _ _ (fun _ => high))|].
  exists []. by rewrite app_nil_r.
Qed.

Lemma appends_checkSlippage e m : appends (checkSlippage e m).
Proof.
  intros v. unfold checkSlippage.
  destruct (truthyNumber _);
    [apply (appends_flag_if _ _ (fun v => match v.2 with low => medium | l => l end))|].
  exists []. by rewrite app_nil_r.
Qed.

Lemma costTier_violations e cost v : (costTier e cost v).1 = v.1.
Proof. unfold costTier. destruct v as [vs []]; simpl; repeat case_match; done. Qed.

Lemma appends_nil check v : appends check -> (check v).1 = [] -> v.1 = [].
Proof.
  intros Hc Hnil. destruct (Hc v) as [extra Hx]. rewrite Hx in Hnil.
  by apply app_eq_nil in Hnil as [-> _].
Qed.

(** The fields of an assessment in terms of the checks. *)
Lemma assess_unfold e now act cost m :
  policyViolations (assess e now act cost m) = (runChecks e now cost m).1 /\
  riskLevel (assess e now act cost m) = (runChecks e now cost m).2.
Proof. unfold assess. by destruct (runChecks e now cost m) as [vs lvl]. Qed.

(** An assessment without violations passed the daily-limit check. *)
Lemma no_violation_within_daily_limit e now act cost m :
  policyViolations (assess e now act cost m) = [] ->
  dailySpent e + cost <= dailyLimitUSD (policy e).
Proof.
  destruct (assess_unfold e now act cost m) as [-> _]. unfold runChecks.
  rewrite costTier_violations. intros Hnil.
  apply appends_nil in Hnil; [|apply appends_checkSlippage].
  apply appends_nil in Hnil; [|apply appends_checkChain].
  apply appends_nil in Hnil; [|apply appends_checkToken].
  apply appends_nil in Hnil; [|apply appends_checkCategory].
  apply appends_nil in Hnil; [|apply appends_checkCooldown].
  apply appends_nil in Hnil; [|apply appends_checkPerTransaction].
  unfold checkDailyLimit in Hnil.
  destruct (Qgtb _ _) eqn:Hgt; [done|]. by apply Qgtb_false.
Qed.

Lemma recordSpend_policy e s : policy (recordSpend e s) = policy e.
Proof. unfold recordSpend, recordAction. by destruct (spend_approved s). Qed.

Lemma recordSpend_dailySpent e s :
  dailySpent (recordSpend e s) =
    if spend_approved s then dailySpent e + spend_cost s else dailySpent e.
Proof. unfold recordSpend, recordAction. by destruct (spend_approved s). Qed.

(** One disciplined spend keeps the spent total within the limit. *)
Lemma within_limit_step e s :
  dailySpent e <= dailyLimitUSD (policy e) ->
  (spend_approved s = true -> policyViolations (assessSpend e s) = []) ->
  dailySpent (recordSpend e s) <= dailyLimitUSD (policy (recordSpend e s)).
Proof.
  intros Hinv Hs. rewrite recordSpend_policy, recordSpend_dailySpent.
  destruct (spend_approved s); [|done].
  apply (no_violation_within_daily_limit e (spend_assessedAt s) (spend_action s)
           (spend_cost s) (spend_metadata s)).
  by apply Hs.
Qed.

(** Whatever the engine started with, a disciplined spend leaves the spent
    total within the limit or at its initial value. *)
Lemma within_limit_or_untouched (spent0 : Q) e spends :
  dailySpent e <= dailyLimitUSD (policy e) \/ dailySpent e = spent0 ->
  disciplined e spends ->
  Forall (fun e' => dailySpent e' <= dailyLimitUSD (policy e') \/ dailySpent e' = spent0)
    (enginesAfter e spends).
Proof.
  revert e. induction spends as [|s rest IH]; intros e Hinv Hd; simpl; [constructor|].
  destruct Hd as [Hs Hrest].
  assert (Hnext : dailySpent (recordSpend e s) <= dailyLimitUSD (policy (recordSpend e s))
                  \/ dailySpent (recordSpend e s) = spent0).
  { rewrite recordSpend_policy, recordSpend_dailySpent.
    destruct (spend_approved s); [left|done].
    apply (no_violation_within_daily_limit e (spend_assessedAt s) (spend_action s)
             (spend_cost s) (spend_metadata s)).
    by apply Hs. }
  constructor; [exact Hnext | by apply IH].
Qed.

(** Claim C1.  Let every spend be assessed against the engine as it stands
    and then recorded at the assessed cost, as approved only when the
    assessment listed no violation.  If the engine starts within its daily
    limit (a fresh engine has spent 0), the spent total is at most the
    daily limit after every [recordAction] call.  Whatever it starts with,
    after every call the spent total is within the limit or is still the
    initial one, no approved recording having changed it. *)
Theorem spent_never_exceeds_daily_limit (e : RiskEngine) (spends : list Spend) :
  disciplined e spends ->
  (dailySpent e <= dailyLimitUSD (policy e) ->
   Forall (fun e' => dailySpent e' <= dailyLimitUSD (policy e')) (enginesAfter e spends)) /\
  Forall (fun e' => dailySpent e' <= dailyLimitUSD (policy e') \/ dailySpent e' = dailySpent e)
    (enginesAfter e spends).
Proof.
  intros Hd. split.
  - revert e Hd. induction spends as [|s rest IH]; intros e Hd Hinv; simpl; [constructor|].
    destruct Hd as [Hs Hrest].
    pose proof (within_limit_step e s Hinv Hs) as Hnext.
    constructor; [exact Hnext | by apply IH].
  - apply within_limit_or_untouched; [by right | done].
Qed.

(** The assessment when some check failed. *)
Lemma assess_blocked e now act cost m :
  policyViolations (assess e now act cost m) <> [] ->
  approved (assess e now act cost m) = false /\
  reason (assess e now act cost m) =
    "Blocked: " +:+ String.concat "; " (policyViolations (assess e now act cost m)).
Proof.
  unfold assess. destruct (runChecks e now cost m) as [vs lvl]. simpl.
  destruct vs as [|v vs]; [done|]. intros _. simpl. done.
Qed.

(** The assessment when no check failed. *)
Lemma assess_clean e now act cost m :
  policyViolations (assess e now act cost m) = [] ->
  approved (assess e now act cost m) = true /\
  reason (assess e now act cost m) =
    if Qle_bool cost (maxAutoApproveUSD (policy e)) then
      "Auto-approved: $" +:+ toFixed cost 4 +:+ " within auto-approve limit ($"
        +:+ numToString (maxAutoApproveUSD (policy e)) +:+ ")"
    else
      "Requires approval: $" +:+ toFixed cost 2 +:+ " exceeds auto-approve limit ($"
        +:+ numToString (maxAutoApproveUSD (policy e)) +:+ ")".
Proof.
  unfold assess. destruct (runChecks e now cost m) as [vs lvl]. simpl.
  intros ->. simpl. unfold Qgtb. destruct (Qle_bool _ _); done.
Qed.

(** Claim C2.  The assessment is approved exactly when it lists no
    violation.  Without violations and with a cost above the auto-approve
    ceiling it is still approved and its reason begins "Requires approval:",
    not "Auto-approved:"; with a violation it is not approved and its reason
    begins "Blocked:". *)
Theorem approved_iff_no_violations e now act cost m :
  let a := assess e now act cost m in
  (approved a = true <-> policyViolations a = []) /\
  (policyViolations a = [] -> maxAutoApproveUSD (policy e) < cost ->
     approved a = true /\
     String.prefix "Requires approval:" (reason a) = true /\
     String.prefix "Auto-approved:" (reason a) = false) /\
  (policyViolations a <> [] ->
     approved a = false /\ String.prefix "Blocked:" (reason a) = true).
Proof.
  intros a. subst a. split; [|split].
  - split.
    + intros Happ. destruct (policyViolations (assess e now act cost m)) eqn:Hv; [done|].
      destruct (assess_blocked e now act cost m) as [Hno _]; [by rewrite Hv|]. congruence.
    + intros Hv. by apply assess_clean.
  - intros Hv Hgt. destruct (assess_clean e now act cost m Hv) as [Happ Hwhy].
    assert (Hle : Qle_bool cost (maxAutoApproveUSD (policy e)) = false).
    { apply not_true_iff_false. rewrite Qle_bool_iff. by apply Qlt_not_le. }
    rewrite Hle in Hwhy. rewrite Happ, Hwhy. done.
  - intros Hv. destruct (assess_blocked e now act cost m Hv) as [Happ Hwhy].
    rewrite Happ, Hwhy. done.
Qed.

(** Once the tier is high, the checks after the per-transaction check
    leave it high. *)
Lemma checkCooldown_level e now v : (checkCooldown e now v).2 = v.2.
Proof. unfold checkCooldown. by case_match. Qed.

Lemma checkCategory_high e m v : v.2 = high -> (checkCategory e m v).2 = high.
Proof. intros Hv. unfold checkCategory. repeat case_match; done. Qed.

Lemma checkToken_high e m v : v.2 = high -> (checkToken e m v).2 = high.
Proof. intros Hv. unfold checkToken. repeat case_match; done. Qed.

Lemma checkChain_high e m v : v.2 = high -> (checkChain e m v).2 = high.
Proof. intros Hv. unfold checkChain. repeat case_match; done. Qed.

Lemma checkSlippage_high e m v : v.2 = high -> (checkSlippage e m v).2 = high.
Proof. intros Hv. unfold checkSlippage. repeat case_match; simpl; rewrite ?Hv; done. Qed.

Lemma costTier_high e cost v : v.2 = high -> (costTier e cost v).2 = high.
Proof. intros Hv. unfold costTier. by rewrite Hv. Qed.

(** Claim C3 fails on the code.  When the cost would pass the daily limit
    and is above the per-transaction limit, the daily-limit check sets the
    tier to critical and the per-transaction check then overwrites it: the
    assessment comes back with tier high. *)
Theorem per_transaction_check_overwrites_critical e now act cost m :
  dailyLimitUSD (policy e) < dailySpent e + cost ->
  perTransactionLimitUSD (policy e) < cost ->
  (checkDailyLimit e cost ([], low)).2 = critical /\
  riskLevel (assess e now act cost m) = high.
Proof.
  intros Hdaily Hper. split.
  - unfold checkDailyLimit. apply Qgtb_true in Hdaily. by rewrite Hdaily.
  - destruct (assess_unfold e now act cost m) as [_ ->]. unfold runChecks.
    apply costTier_high, checkSlippage_high, checkChain_high, checkToken_high,
      checkCategory_high.
    rewrite checkCooldown_level. unfold checkPerTransaction.
    apply Qgtb_true in Hper. by rewrite Hper.
Qed.

(** Claim C6, amended.  The violations, tier, approved flag, reason and
    budget impact of an assessment are determined by the policy, the spent
    total, the time stamp of the last approved action, the clock reading, the
    cost and the metadata: two engines that agree on the first three give
    the same assessment at the same clock reading, whatever their action
    logs and the action names. *)
Theorem assess_determined_by_state_and_clock e1 e2 now act1 act2 cost m :
  policy e1 = policy e2 ->
  dailySpent e1 = dailySpent e2 ->
  lastActionTimestamp e1 = lastActionTimestamp e2 ->
  let a1 := assess e1 now act1 cost m in
  let a2 := assess e2 now act2 cost m in
  policyViolations a1 = policyViolations a2 /\
  riskLevel a1 = riskLevel a2 /\
  approved a1 = approved a2 /\
  reason a1 = reason a2 /\
  budgetImpact a1 = budgetImpact a2.
Proof.
  intros Hp Hs Ht.
  assert (Hrun : runChecks e1 now cost m = runChecks e2 now cost m).
  { unfold runChecks, costTier, checkSlippage, checkChain, checkToken, checkCategory,
      checkCooldown, checkPerTransaction, checkDailyLimit.
    by rewrite Hp, Hs, Ht. }
  unfold assess. rewrite Hrun, Hp, Hs.
  destruct (runChecks e2 now cost m) as [vs lvl]. simpl. done.
Qed.

End RiskEngineFacts.

(** *** The risk engine on the scenarios of the specification *)

(** Scenario A: three approvals of one cent leave [spent = 0.03], within
    the limit after each of them. *)
Lemma scenarioA_within_limit :
  dailySpent (newRiskEngine DEFAULT_POLICY) <= dailyLimitUSD DEFAULT_POLICY /\
  @disciplined decimalFormat (newRiskEngine DEFAULT_POLICY) scenarioA /\
  Forall (fun e => dailySpent e <= dailyLimitUSD (policy e))
    (enginesAfter (newRiskEngine DEFAULT_POLICY) scenarioA).
Proof.
  assert (Hlimit : dailySpent (newRiskEngine DEFAULT_POLICY) <= dailyLimitUSD DEFAULT_POLICY)
    by discriminate.
  assert (Hd : @disciplined decimalFormat (newRiskEngine DEFAULT_POLICY) scenarioA)
    by (vm_compute; repeat split).
  split; [exact Hlimit|]. split; [exact Hd|].
  exact (proj1 (@spent_never_exceeds_daily_limit decimalFormat
                  (newRiskEngine DEFAULT_POLICY) scenarioA Hd) Hlimit).
Defined.

Example scenarioA_spent :
  (dailySpent <$> last (enginesAfter (newRiskEngine DEFAULT_POLICY) scenarioA))
    = Some (0 + 0.01 + 0.01 + 0.01) /\
  0 + 0.01 + 0.01 + 0.01 == 0.03.
Proof. split; [vm_compute; reflexivity | reflexivity]. Qed.

(** Scenario B: a cost of $6 is above the per-transaction limit. *)
Example scenarioB_assessment :
  policyViolations (@assess decimalFormat (newRiskEngine DEFAULT_POLICY) 1000
                      "tool:premium" 6 None)
    = ["Per-transaction limit exceeded: $6.00 > $5"] /\
  riskLevel (@assess decimalFormat (newRiskEngine DEFAULT_POLICY) 1000
               "tool:premium" 6 None) = high /\
  approved (@assess decimalFormat (newRiskEngine DEFAULT_POLICY) 1000
              "tool:premium" 6 None) = false.
Proof. vm_compute. repeat split. Qed.

(** Scenario C: with $49.50 spent, a cost of $1 passes the daily limit. *)
Example scenarioC_assessment :
  policyViolations (@assess decimalFormat nearLimitEngine 1000 "tool:sentiment" 1 None)
    = ["Daily limit exceeded: $49.50 + $1.00 > $50"] /\
  riskLevel (@assess decimalFormat nearLimitEngine 1000 "tool:sentiment" 1 None) = critical.
Proof. vm_compute. repeat split. Qed.

(** A cost of $2 with the default policy: no violation, above the
    auto-approve ceiling of $1. *)
Lemma requires_approval_is_approved :
  approved (@assess decimalFormat (newRiskEngine DEFAULT_POLICY) 1000 "tool:premium" 2 None)
    = true /\
  reason (@assess decimalFormat (newRiskEngine DEFAULT_POLICY) 1000 "tool:premium" 2 None)
    = "Requires approval: $2.00 exceeds auto-approve limit ($1)".
Proof.
  pose proof (@approved_iff_no_violations decimalFormat (newRiskEngine DEFAULT_POLICY)
                1000 "tool:premium" 2 None) as (_ & Hclean & _).
  destruct Hclean as (Happ & _ & _); [reflexivity | reflexivity |].
  split; [exact Happ | reflexivity].
Defined.

(** With $49.50 spent, a cost of $6 breaks the daily limit and the
    per-transaction limit; the tier that comes back is high. *)
Lemma critical_tier_is_lost :
  policyViolations (@assess decimalFormat nearLimitEngine 1000 "tool:premium" 6 None)
    = ["Daily limit exceeded: $49.50 + $6.00 > $50";
       "Per-transaction limit exceeded: $6.00 > $5"] /\
  riskLevel (@assess decimalFormat nearLimitEngine 1000 "tool:premium" 6 None) = high.
Proof.
  split; [reflexivity|].
  apply (@per_transaction_check_overwrites_critical decimalFormat nearLimitEngine 1000
           "tool:premium" 6 None); reflexivity.
Defined.

(** Claim C6 fails on the code: the cooldown check reads the clock.  The
    same engine, cost and metadata give a blocked assessment half a second
    after the last approved action and an approved one two seconds after
    it. *)
Lemma assess_reads_the_clock :
  policyViolations (@assess decimalFormat coolingEngine 1500 "tool:market-data" 0.01 None)
    = ["Cooldown not met: 500ms < 1000ms"] /\
  approved (@assess decimalFormat coolingEngine 1500 "tool:market-data" 0.01 None) = false /\
  policyViolations (@assess decimalFormat coolingEngine 3000 "tool:market-data" 0.01 None)
    = [] /\
  approved (@assess decimalFormat coolingEngine 3000 "tool:market-data" 0.01 None) = true.
Proof. vm_compute. repeat split. Qed.

(** Two engines that differ in their action logs only, at one clock
    reading. *)
Lemma same_state_same_assessment :
  actionLog coolingEngine <> actionLog coolingEngineWithLog /\
  reason (@assess decimalFormat coolingEngine 1500 "tool:market-data" 0.01 None)
    = reason (@assess decimalFormat coolingEngineWithLog 1500 "tool:sentiment" 0.01 None).
Proof.
  split; [discriminate|].
  apply (@assess_determined_by_state_and_clock decimalFormat coolingEngine
           coolingEngineWithLog 1500 "tool:market-data" "tool:sentiment" 0.01 None);
    reflexivity.
Defined.

(** ** Composite sentiment *)

(** The property lookup with its default is the weight table. *)
Lemma weightOf_table (src : string) : weightOf src = specWeight src.
Proof.
  unfold weightOf, specWeight, weights.
  destruct (bool_decide_reflect (src = "news")) as [->|Hnews]; [done|].
  rewrite lookup_insert_ne by done.
  destruct (bool_decide_reflect (src = "fear-greed-index")) as [->|Hfg]; [done|].
  rewrite lookup_insert_ne by done.
  destruct (bool_decide_reflect (src = "onchain")) as [->|Hoc]; [done|].
  by rewrite lookup_singleton_ne.
Qed.

(** The loop adds the two sums to its accumulators. *)
Lemma accumulate_from (a : Accum) (signals : list SentimentSignal) :
  totalWeight (foldl accumulate a signals) == totalWeight a + specTotalWeight signals /\
  weightedSum (foldl accumulate a signals) == weightedSum a + specWeightedSum signals.
Proof.
  revert a. induction signals as [|sig rest IH]; intros a; simpl.
  - unfold specTotalWeight, specWeightedSum. simpl. split; ring.
  - destruct (IH (accumulate a sig)) as [Ht Hs]. rewrite Ht, Hs.
    unfold specTotalWeight, specWeightedSum. simpl. rewrite weightOf_table. split; ring.
Qed.

Lemma accumulated_sums (signals : list SentimentSignal) :
  totalWeight (accumulated signals) == specTotalWeight signals /\
  weightedSum (accumulated signals) == specWeightedSum signals.
Proof.
  unfold accumulated.
  destruct (accumulate_from {| totalWeight := 0; weightedSum := 0 |} signals) as [Ht Hs].
  simpl in *. rewrite Ht, Hs. split; ring.
Qed.

Lemma count_nonzero {A} (l : list A) : l <> [] -> ~ inject_Z (Z.of_nat (length l)) == 0.
Proof. destruct l as [|x l]; [done|]. intros _. unfold Qeq. simpl. lia. Qed.

Lemma positive_weight_nonempty (signals : list SentimentSignal) :
  0 < totalWeight (accumulated signals) -> signals <> [].
Proof. intros Hpos ->. vm_compute in Hpos. discriminate. Qed.

Lemma labelOf_cases s :
  (0.25 < s /\ labelOf s = "bullish") \/
  (s < -0.25 /\ labelOf s = "bearish") \/
  (-0.25 <= s /\ s <= 0.25 /\ labelOf s = "neutral").
Proof.
  unfold labelOf.
  destruct (Qgtb s 0.25) eqn:Hgt; [left; split; [by apply Qgtb_true|done]|].
  apply Qgtb_false in Hgt.
  destruct (Qltb s (-0.25)) eqn:Hlt; [right; left; split; [by apply Qltb_true|done]|].
  apply Qltb_false in Hlt. right; right. done.
Qed.

Lemma labelOf_thresholds s :
  (labelOf s = "bullish" <-> 0.25 < s) /\
  (labelOf s = "bearish" <-> s < -0.25) /\
  (labelOf s = "neutral" <-> -0.25 <= s /\ s <= 0.25).
Proof.
  destruct (labelOf_cases s) as [[? ->]|[[? ->]|(? & ? & ->)]];
    repeat split; try done; try lra; intros; lra.
Qed.

(** What [compositeAggregation] returns when the guard [totalWeight > 0] fails. *)
Lemma aggregation_guarded (signals : list SentimentSignal) :
  ~ 0 < totalWeight (accumulated signals) ->
  compositeAggregation signals =
    Some {| compositeScore := 0; compositeLabel := "neutral"; compositeConfidence := 0 |}.
Proof.
  intros Hnot. unfold compositeAggregation.
  destruct (Qgtb _ 0) eqn:Hgt; [by apply Qgtb_true in Hgt|]. done.
Qed.

(** What [compositeAggregation] returns when the guard holds: both
    divisions have a divisor that is not zero. *)
Lemma aggregation_positive (signals : list SentimentSignal) :
  0 < totalWeight (accumulated signals) ->
  compositeAggregation signals =
    Some {| compositeScore :=
              weightedSum (accumulated signals) / totalWeight (accumulated signals);
            compositeLabel :=
              labelOf (weightedSum (accumulated signals) / totalWeight (accumulated signals));
            compositeConfidence :=
              totalWeight (accumulated signals) / inject_Z (Z.of_nat (length signals)) |}.
Proof.
  intros Hpos. unfold compositeAggregation.
  assert (Hgt := proj2 (Qgtb_true _ _) Hpos). rewrite Hgt.
  rewrite (jsDiv_Some (weightedSum _) (totalWeight _)) by (by apply positive_nonzero).
  rewrite (jsDiv_Some (totalWeight _) (inject_Z _))
    by (by apply count_nonzero, positive_weight_nonempty).
  done.
Qed.

(** Claim C7, amended.  When the total weight [Σ weight_i × confidence_i]
    is positive, the composite score is the weighted sum divided by it and
    the aggregate confidence is the total weight divided by the number of
    signals, with weight 0.35 for "news", 0.30 for "fear-greed-index", 0.35
    for "onchain" and 0.33 for any other source; when the total weight is
    not positive both are 0.  The label is "bullish" exactly when the
    composite score exceeds 0.25, "bearish" exactly when it is below -0.25,
    and "neutral" otherwise. *)
Theorem composite_is_weighted_average (signals : list SentimentSignal) :
  (0 < specTotalWeight signals ->
   exists c, compositeAggregation signals = Some c /\
     agrees (specCompositeScore signals) (compositeScore c) /\
     agrees (specCompositeConfidence signals) (compositeConfidence c)) /\
  (specTotalWeight signals <= 0 ->
   exists c, compositeAggregation signals = Some c /\
     compositeScore c = 0 /\ compositeConfidence c = 0) /\
  (forall c, compositeAggregation signals = Some c ->
     (compositeLabel c = "bullish" <-> 0.25 < compositeScore c) /\
     (compositeLabel c = "bearish" <-> compositeScore c < -0.25) /\
     (compositeLabel c = "neutral" <->
        -0.25 <= compositeScore c /\ compositeScore c <= 0.25)).
Proof.
  destruct (accumulated_sums signals) as [Ht Hs].
  split; [|split].
  - intros Hpos. rewrite <- Ht in Hpos.
    eexists. split; [by apply aggregation_positive|]. simpl.
    unfold specCompositeScore, specCompositeConfidence.
    rewrite (jsDiv_Some (specWeightedSum _)) by (rewrite <- Ht; by apply positive_nonzero).
    rewrite (jsDiv_Some (specTotalWeight _))
      by (by apply count_nonzero, positive_weight_nonempty).
    simpl. by rewrite Ht, Hs.
  - intros Hle. rewrite <- Ht in Hle.
    eexists. split; [apply aggregation_guarded; lra|]. done.
  - intros c Hc.
    assert (Hlabel : compositeLabel c = labelOf (compositeScore c)).
    { destruct (Qlt_le_dec 0 (totalWeight (accumulated signals))) as [Hpos|Hle].
      - rewrite aggregation_positive in Hc by done. by inversion Hc.
      - rewrite aggregation_guarded in Hc by lra. by inversion Hc. }
    rewrite Hlabel. apply labelOf_thresholds.
Qed.

(** Claim C8.  The aggregation of the empty list is score 0, confidence 0
    and label neutral, and for every list both divisions of the aggregation
    produce a number: the guard on the total weight keeps each divisor away
    from zero. *)
Theorem aggregation_never_divides_by_zero :
  compositeAggregation [] =
    Some {| compositeScore := 0; compositeLabel := "neutral"; compositeConfidence := 0 |} /\
  forall signals, is_Some (compositeAggregation signals).
Proof.
  split; [done|]. intros signals.
  destruct (Qlt_le_dec 0 (totalWeight (accumulated signals))) as [Hpos|Hle].
  - rewrite aggregation_positive by done. eauto.
  - rewrite aggregation_guarded by lra. eauto.
Qed.

(** Claim C7 fails on the code for a list that is not empty and has no
    weight: the quotient of the claim has no value there, and the code
    returns 0.  The list is what [fetchSentiment] builds when only the
    on-chain source is requested and its request fails. *)
Lemma composite_of_weightless_signal :
  length [onChainUnavailable] = 1%nat /\
  specCompositeScore [onChainUnavailable] = None /\
  compositeAggregation [onChainUnavailable] =
    Some {| compositeScore := 0; compositeLabel := "neutral"; compositeConfidence := 0 |}.
Proof. repeat split; done. Qed.

(** Scenario D: the score lies strictly between the two signal scores. *)
Lemma scenarioD_composite :
  0 < specTotalWeight scenarioD /\
  exists c, compositeAggregation scenarioD = Some c /\
     agrees (specCompositeScore scenarioD) (compositeScore c) /\
     agrees (specCompositeConfidence scenarioD) (compositeConfidence c).
Proof.
  assert (Hpos : 0 < specTotalWeight scenarioD) by reflexivity.
  split; [exact Hpos|].
  exact (proj1 (composite_is_weighted_average scenarioD) Hpos).
Defined.

Example scenarioD_values :
  exists c, compositeAggregation scenarioD = Some c /\
    -0.1 < compositeScore c /\ compositeScore c < 0.5 /\
    compositeLabel c = "bullish".
Proof. eexists. split; [vm_compute; reflexivity|]. repeat split. Qed.

(** ** The agent monad *)

Lemma bind_ok {A B} (m : M A) (k : A -> M B) a x a' :
  m a = (Ok x, a') -> bind m k a = k x a'.
Proof. unfold bind. by intros ->. Qed.

Lemma bind_throw {A B} (m : M A) (k : A -> M B) a e a' :
  m a = (Throw e, a') -> bind m k a = (Throw e, a').
Proof. unfold bind. by intros ->. Qed.

Lemma keeps_ret {A} P (x : A) : keeps P (ret x).
Proof. by intros a HP. Qed.

Lemma keeps_throw {A} P e : keeps P (@throw A e).
Proof. by intros a HP. Qed.

Lemma keeps_liftResult {A} P (r : Result A) : keeps P (liftResult r).
Proof. by intros a HP. Qed.

Lemma keeps_gets {A} P (f : AriaAgent -> A) : keeps P (gets f).
Proof. by intros a HP. Qed.

Lemma keeps_bind {A B} P (m : M A) (k : A -> M B) :
  keeps P m -> (forall x, keeps P (k x)) -> keeps P (bind m k).
Proof.
  intros Hm Hk a HP. unfold bind. specialize (Hm a HP).
  destruct (m a) as [[x|e] a']; simpl in *; [by apply Hk | done].
Qed.

Lemma keeps_modify P (f : AriaAgent -> AriaAgent) :
  (forall a, P a -> P (f a)) -> keeps P (modify f).
Proof. intros Hf a HP. by apply Hf. Qed.

Lemma keeps_updateRun tools f : keeps (inRun tools) (updateRun f).
Proof.
  intros a [Hreg [r Hrun]]. unfold updateRun. rewrite Hrun. simpl. split; [done|eauto].
Qed.

Lemma keeps_setLogger tools (f : AriaAgent -> AuditLogger) :
  keeps (inRun tools) (modify (fun a => setLogger (f a) a)).
Proof. apply keeps_modify. by intros a []. Qed.

Lemma keeps_setRiskEngine tools (f : AriaAgent -> RiskEngine) :
  keeps (inRun tools) (modify (fun a => setRiskEngine (f a) a)).
Proof. apply keeps_modify. by intros a []. Qed.

Create HintDb keeps.
#[local] Hint Resolve keeps_ret keeps_throw keeps_liftResult keeps_gets
  keeps_updateRun keeps_setLogger keeps_setRiskEngine : keeps.
#[local] Hint Extern 2 (keeps _ (bind _ _)) => apply keeps_bind; [|intros] : keeps.
#[local] Hint Extern 2 (keeps _ (pushStep _)) => apply keeps_updateRun : keeps.
#[local] Hint Extern 2 (keeps _ (addToTotalCost _)) => apply keeps_updateRun : keeps.
#[local] Hint Extern 2 (keeps _ refreshBudgetRemaining) => apply keeps_updateRun : keeps.
#[local] Hint Extern 4 (keeps _ (match ?x with _ => _ end)) => destruct x : keeps.
#[local] Hint Extern 4 (keeps _ (if ?x then _ else _)) => destruct x : keeps.
#[local] Hint Extern 4 (keeps _ (let (_, _) := ?x in _)) => destruct x : keeps.

Ltac solve_keeps := auto 30 with keeps.

(** ** Tool executor and the Execute phase *)

Section ExecutorFacts.
Context `{NumberFormat}.

Lemma keeps_executeTool tools penv id params hint c :
  keeps (inRun tools) (executeTool penv id params hint c).
Proof. unfold executeTool. solve_keeps. Qed.

Lemma keeps_phasePlan tools env objective : keeps (inRun tools) (phasePlan env objective).
Proof. unfold phasePlan. solve_keeps. Qed.

Lemma keeps_phaseAuthorize tools env objective plan :
  keeps (inRun tools) (phaseAuthorize env objective plan).
Proof. unfold phaseAuthorize. solve_keeps. Qed.

Lemma keeps_executeSteps tools env protocol steps :
  forall i results, keeps (inRun tools) (executeSteps env protocol steps i results).
Proof.
  induction steps as [|p rest IH]; intros i results; simpl; [solve_keeps|].
  pose proof (keeps_executeTool tools). solve_keeps.
Qed.

(** A tool that is not in the registry: [executeTool] throws. *)
Lemma executeTool_missing penv id params hint c a :
  findTool id (toolRegistry a) = None ->
  executeTool penv id params hint c a
    = (Throw (Error ("Tool not found: " +:+ jsToString id)), a).
Proof. intros Hfind. unfold executeTool, bind, gets. by rewrite Hfind. Qed.

(** A tool that is in the registry: [executeTool] returns a step, in one
    of three ways, and touches neither the registry nor the run. *)
Lemma executeTool_found penv id params hint c a t :
  findTool id (toolRegistry a) = Some t ->
  exists s data a',
    executeTool penv id params hint c a = (Ok (s, data), a') /\
    toolRegistry a' = toolRegistry a /\
    currentRun a' = currentRun a /\
    ToolOutcome a t c s a'.
Proof.
  intros Hfind. unfold executeTool, bind, gets, modify, ret. rewrite Hfind. simpl.
  fold (toolMetadata t).
  destruct (approved (assess _ _ _ _ _)) eqn:Happ; simpl.
  - destruct (call_outcome c) as [msg|data] eqn:Hout.
    + eexists _, _, _. split; [done|]. split; [done|]. split; [done|].
      eapply PaymentFailed; [exact Happ | exact Hout | done..].
    + eexists _, _, _. split; [done|]. split; [done|]. split; [done|].
      eapply Paid; [exact Happ | exact Hout | done | | simpl; reflexivity]; done.
  - eexists _, _, _. split; [done|]. split; [done|]. split; [done|].
    eapply Rejected; [exact Happ | done..].
Qed.

(** The three updates of the run that follow a tool call in the loop. *)
Lemma recordStep_then {B} (k : M B) s a r :
  currentRun a = Some r ->
  (pushStep s ;! addToTotalCost s ;! refreshBudgetRemaining ;! k) a
    = k (setCurrentRun (Some (recordStep s r)) a).
Proof.
  intros Hrun. unfold bind, pushStep, addToTotalCost, refreshBudgetRemaining, updateRun.
  rewrite Hrun. simpl. done.
Qed.

Lemma executeSteps_cons env protocol p rest i results :
  executeSteps env protocol (p :: rest) i results =
    (let! tool := liftResult (getProp p "tool") in
     let! params := liftResult (getProp p "params") in
     let! (step, data) :=
       executeTool (env_process env) tool (jsOr params (JObj [])) protocol
         (env_toolCalls env i) in
     pushStep step ;!
     addToTotalCost step ;!
     refreshBudgetRemaining ;!
     executeSteps env protocol rest (S i)
       (results ++ [{| result_tool := tool; result_data := data; result_step := step |}])).
Proof. done. Qed.

Lemma getProp_params p id :
  getProp p "tool" = Ok id -> exists params, getProp p "params" = Ok params.
Proof. destruct p; simpl; try done; eauto. Qed.

(** One iteration of the loop for a registered tool. *)
Lemma executeSteps_step env protocol p i a r id t :
  currentRun a = Some r ->
  getProp p "tool" = Ok id ->
  findTool id (toolRegistry a) = Some t ->
  exists s data a',
    ToolOutcome a t (env_toolCalls env i) s a' /\
    toolRegistry a' = toolRegistry a /\
    currentRun a' = currentRun a /\
    forall rest results,
      executeSteps env protocol (p :: rest) i results a
        = executeSteps env protocol rest (S i)
            (results ++ [{| result_tool := id; result_data := data; result_step := s |}])
            (setCurrentRun (Some (recordStep s r)) a').
Proof.
  intros Hrun Htool Hfind.
  destruct (getProp_params p id Htool) as [params Hparams].
  destruct (executeTool_found (env_process env) id (jsOr params (JObj [])) protocol
              (env_toolCalls env i) a t Hfind) as (s & data & a' & Hexec & Hreg & Hcur & Hout).
  exists s, data, a'. split; [done|]. split; [done|]. split; [done|].
  intros rest results.
  rewrite executeSteps_cons, Htool, Hparams.
  rewrite (bind_ok _ _ a id a) by done.
  rewrite (bind_ok _ _ a params a) by done.
  rewrite (bind_ok _ _ _ _ _ Hexec).
  apply recordStep_then. congruence.
Qed.

(** A step that names a tool missing from the registry makes the loop
    throw, whatever the steps before it did. *)
Lemma executeSteps_missing_tool env protocol steps p id tools :
  p ∈ steps ->
  getProp p "tool" = Ok id ->
  findTool id tools = None ->
  forall i results a,
    inRun tools a ->
    exists e a', executeSteps env protocol steps i results a = (Throw e, a')
                 /\ inRun tools a'.
Proof.
  intros Hin Htool Hmissing.
  induction steps as [|q rest IH]; [by apply elem_of_nil in Hin|].
  intros i results a Hinv.
  destruct (getProp q "tool") as [qid|e] eqn:Hq.
  2:{ exists e, a. split; [|done]. by rewrite executeSteps_cons, Hq. }
  destruct Hinv as [Hreg [r Hr]].
  destruct (findTool qid (toolRegistry a)) as [t|] eqn:Hfind.
  - destruct (executeSteps_step env protocol q i a r qid t Hr Hq Hfind)
      as (s & data & a1 & _ & Hreg1 & Hcur1 & ->).
    apply elem_of_cons in Hin as [->|Hin]; [congruence|].
    apply IH; [done|]. split; [simpl; congruence | simpl; eauto].
  - exists (Error ("Tool not found: " +:+ jsToString qid)), a.
    split; [|split; eauto].
    destruct (getProp_params q qid Hq) as [params Hparams].
    rewrite executeSteps_cons, Hq, Hparams.
    rewrite (bind_ok _ _ a qid a) by done.
    rewrite (bind_ok _ _ a params a) by done.
    apply bind_throw. by apply executeTool_missing.
Qed.

Lemma phaseExecute_steps env plan mandate steps a :
  getProp plan "plan" = Ok (JArr steps) ->
  phaseExecute env plan mandate a =
    executeSteps env (match mandate with Some _ => "ap2" | None => "x402" end) steps 0 [] a.
Proof.
  intros Hplan. unfold phaseExecute. rewrite Hplan.
  by rewrite (bind_ok _ _ a (JArr steps) a).
Qed.

Lemma costOrZero_eq s c : step_costUSD s = Some c -> costOrZero s == c.
Proof.
  intros Hc. unfold costOrZero. rewrite Hc. simpl.
  destruct (Qeq_bool c 0) eqn:Hz; [|done]. apply Qeq_bool_eq in Hz. by rewrite Hz.
Qed.

(** Claim C4 fails on the code.  A step the risk engine rejects is
    returned with the price of its tool as [costUSD], and the loop of
    [phaseExecute] adds it to the total: the remaining budget drops by the
    price although no receipt is recorded. *)
Theorem rejected_step_is_charged_to_the_budget env a r mandate plan p id t :
  currentRun a = Some r ->
  getProp plan "plan" = Ok (JArr [p]) ->
  getProp p "tool" = Ok id ->
  findTool id (toolRegistry a) = Some t ->
  approved (assess (riskEngine a) (call_assessedAt (env_toolCalls env 0))
              ("tool:" +:+ tool_id t) (tool_priceUSD t) (toolMetadata t)) = false ->
  exists results a' r',
    phaseExecute env plan mandate a = (Ok results, a') /\
    currentRun a' = Some r' /\
    receipts (logger a') = receipts (logger a) /\
    run_budgetUSD r' = run_budgetUSD r /\
    run_budgetRemainingUSD r'
      == run_budgetUSD r - (run_totalCostUSD r + tool_priceUSD t).
Proof.
  intros Hrun Hplan Htool Hfind Hrejected.
  rewrite (phaseExecute_steps env plan mandate [p] a Hplan).
  destruct (executeSteps_step env (match mandate with Some _ => "ap2" | None => "x402" end)
              p 0%nat a r id t Hrun Htool Hfind)
    as (s & data & a1 & Hout & Hreg & Hcur & ->).
  simpl. eexists _, _, _. split; [done|]. split; [done|].
  destruct Hout as [_ _ Hcost Hrcpt _ | msg Happ | data' rc Happ]; [|congruence..].
  simpl. split; [done|]. split; [done|].
  by rewrite (costOrZero_eq s _ Hcost).
Qed.

(** The "Finalize" block computes the remaining budget from the receipts. *)
Lemma finalize_recomputes_from_receipts budgetUSD result a r :
  currentRun a = Some r ->
  exists r',
    finalize budgetUSD result a = (Ok tt, setCurrentRun (Some r') a) /\
    run_status r' = RunStatus.completed /\
    run_budgetRemainingUSD r' = budgetUSD - receiptsTotal (receipts (logger a)).
Proof.
  intros Hrun. unfold finalize, bind, gets, updateRun. rewrite Hrun.
  eexists. split; [done|]. done.
Qed.

(** A tool call records at most one receipt. *)
Lemma ToolOutcome_receipts a t c s a' :
  ToolOutcome a t c s a' ->
  (length (receipts (logger a')) <= length (receipts (logger a)) + 1)%nat.
Proof.
  intros [_ _ _ Heq _ | msg _ _ _ _ _ Heq _ | data rc _ _ _ _ Heq]; rewrite Heq;
    rewrite ?length_app; simpl; lia.
Qed.

(** Claim C5.  The Execute phase runs a plan of three steps whose tools
    are registered; the risk engine approves step 2 and its paid call
    throws.  Then the phase returns, the run has the three steps appended,
    step 2 is failed with the error message and cost 0, the status of the
    run is what it was, the total cost grew by the costs of steps 1 and 3
    only, and at most two receipts were recorded. *)
Theorem failed_payment_does_not_stop_the_loop
    env a r mandate plan p1 p2 p3 id1 id2 id3 t1 t2 t3 msg :
  let protocol := match mandate with Some _ => "ap2" | None => "x402" end in
  currentRun a = Some r ->
  getProp plan "plan" = Ok (JArr [p1; p2; p3]) ->
  getProp p1 "tool" = Ok id1 -> findTool id1 (toolRegistry a) = Some t1 ->
  getProp p2 "tool" = Ok id2 -> findTool id2 (toolRegistry a) = Some t2 ->
  getProp p3 "tool" = Ok id3 -> findTool id3 (toolRegistry a) = Some t3 ->
  approved (assess (riskEngine (executeSteps env protocol [p1] 0 [] a).2)
              (call_assessedAt (env_toolCalls env 1))
              ("tool:" +:+ tool_id t2) (tool_priceUSD t2) (toolMetadata t2)) = true ->
  call_outcome (env_toolCalls env 1) = GatewayThrows msg ->
  exists results a' r' s1 s2 s3,
    phaseExecute env plan mandate a = (Ok results, a') /\
    result_step <$> results = [s1; s2; s3] /\
    currentRun a' = Some r' /\
    run_steps r' = run_steps r ++ [s1; s2; s3] /\
    step_status s2 = StepStatus.failed /\
    step_error s2 = Some msg /\
    step_costUSD s2 = Some 0 /\
    run_status r' = run_status r /\
    run_totalCostUSD r' == run_totalCostUSD r + costOrZero s1 + costOrZero s3 /\
    (length (receipts (logger a')) <= length (receipts (logger a)) + 2)%nat.
Proof.
  intros protocol Hrun Hplan Hp1 Hf1 Hp2 Hf2 Hp3 Hf3 Happroved Hthrows.
  rewrite (phaseExecute_steps env plan mandate [p1; p2; p3] a Hplan). fold protocol.
  (* step 1 *)
  destruct (executeSteps_step env protocol p1 0%nat a r id1 t1 Hrun Hp1 Hf1)
    as (s1 & d1 & a1 & Hout1 & Hreg1 & Hcur1 & Hone).
  rewrite Hone in Happroved. simpl in Happroved. rewrite Hone. clear Hone.
  apply ToolOutcome_receipts in Hout1.
  (* step 2: approved, and the paid call throws *)
  rewrite <- Hreg1 in Hf2, Hf3.
  destruct (executeSteps_step env protocol p2 1%nat
              (setCurrentRun (Some (recordStep s1 r)) a1) (recordStep s1 r) id2 t2
              eq_refl Hp2 Hf2)
    as (s2 & d2 & a2 & Hout2 & Hreg2 & Hcur2 & ->).
  simpl in Hreg2, Hcur2. rewrite <- Hreg2 in Hf3.
  destruct Hout2 as [Hno | msg' _ Hout Hstatus Herror Hcost Hsame _ | data' rc _ Hout];
    [simpl in Hno; congruence | | congruence].
  assert (msg' = msg) as -> by congruence. simpl in Hsame.
  (* step 3 *)
  destruct (executeSteps_step env protocol p3 2%nat
              (setCurrentRun (Some (recordStep s2 (recordStep s1 r))) a2)
              (recordStep s2 (recordStep s1 r)) id3 t3 eq_refl Hp3 Hf3)
    as (s3 & d3 & a3 & Hout3 & _ & _ & ->).
  apply ToolOutcome_receipts in Hout3. simpl in Hout3.
  simpl. eexists _, _, _, s1, s2, s3. split; [done|]. split; [done|]. split; [done|].
  simpl. split; [by rewrite <- !app_assoc|]. do 4 (split; [done|]).
  split; [rewrite (costOrZero_eq s2 0 Hcost); ring|].
  rewrite Hsame in Hout3. lia.
Qed.

(** ** The phases around the Execute phase *)

Lemma phaseDiscover_ok env tools a :
  env_tools env = Ok tools ->
  is_Some (currentRun a) ->
  exists a', phaseDiscover env a = (Ok tools, a') /\ inRun tools a'.
Proof.
  intros Htools [r Hrun].
  unfold phaseDiscover, discoverTools, bind, liftResult, modify, ret, pushStep, updateRun.
  rewrite Htools. simpl. rewrite Hrun. simpl.
  eexists. split; [done|]. split; simpl; eauto.
Qed.

(** When [phasePlan] returns, it returns the parsed reply or the fallback. *)
Lemma phasePlan_returns env objective a plan a' reply :
  env_planReply env = Ok reply ->
  phasePlan env objective a = (Ok plan, a') ->
  plan = parseOr planFallback reply.
Proof.
  intros Hreply. unfold phasePlan, bind, gets, liftResult, ret, throw. rewrite Hreply.
  repeat case_match; intros Hret; simplify_eq; done.
Qed.

(** [phasePlan] returns only a plan whose [plan] is an array or is falsy:
    these are the values the loop of [phaseExecute] is modelled for. *)
Lemma phasePlan_plan_shape env objective a plan a' :
  phasePlan env objective a = (Ok plan, a') ->
  exists p, getProp plan "plan" = Ok p /\
    ((exists steps, p = JArr steps) \/ truthy p = false).
Proof.
  unfold phasePlan, bind, gets, liftResult, ret, throw, plannedTools, jsOr.
  destruct (env_planReply env) as [reply|]; [|done]. simpl.
  destruct (getProp (parseOr planFallback reply) "plan") as [p|] eqn:Hp.
  2:{ repeat case_match; intros Hret; simplify_eq. }
  destruct (truthy p) eqn:Htruthy.
  - destruct p; try (repeat case_match; intros Hret; simplify_eq; fail).
    intros Hret. exists (JArr items). 
    assert (plan = parseOr planFallback reply) as ->
      by (repeat case_match; simplify_eq; done).
    split; [done|]. left. eauto.
  - intros Hret.
    assert (plan = parseOr planFallback reply) as ->
      by (repeat case_match; simplify_eq; done).
    exists p. split; [done|]. by right.
Qed.

Lemma phaseExecute_missing_tool env plan mandate steps p id tools a :
  getProp plan "plan" = Ok (JArr steps) ->
  p ∈ steps ->
  getProp p "tool" = Ok id ->
  findTool id tools = None ->
  inRun tools a ->
  exists e a', phaseExecute env plan mandate a = (Throw e, a') /\ inRun tools a'.
Proof.
  intros Hplan Hin Htool Hmissing Hinv.
  rewrite (phaseExecute_steps env plan mandate steps) by done.
  by eapply executeSteps_missing_tool.
Qed.

(** The [catch] block of [run]. *)
Lemma run_catch env objective budgetUSD a e a' :
  runPhases env objective budgetUSD
    (setCurrentRun (Some (newRun (env_runId env) objective budgetUSD)) a) = (Throw e, a') ->
  is_Some (currentRun a') ->
  run_status <$> currentRun (run env objective budgetUSD a) = Some RunStatus.failed.
Proof.
  intros Hthrow [r Hr]. unfold run. rewrite Hthrow. simpl. rewrite Hr. done.
Qed.

(** Claim C10.  When the plan the planning reply parses to has a step that
    names a tool absent from the discovered registry, the run ends with
    status failed: [executeTool] throws "Tool not found" for that step and
    nothing between the loop and the [catch] of [run] catches it.  For a
    registered tool [executeTool] returns a step whatever the risk engine
    and the paid call do. *)
Theorem unknown_tool_fails_the_run :
  (forall env objective budgetUSD a tools reply steps p id,
     env_tools env = Ok tools ->
     env_planReply env = Ok reply ->
     getProp (parseOr planFallback reply) "plan" = Ok (JArr steps) ->
     p ∈ steps ->
     getProp p "tool" = Ok id ->
     findTool id tools = None ->
     run_status <$> currentRun (run env objective budgetUSD a) = Some RunStatus.failed) /\
  (forall penv id params hint c a,
     findTool id (toolRegistry a) = None ->
     executeTool penv id params hint c a
       = (Throw (Error ("Tool not found: " +:+ jsToString id)), a)) /\
  (forall penv id params hint c a t,
     findTool id (toolRegistry a) = Some t ->
     exists s data a', executeTool penv id params hint c a = (Ok (s, data), a')).
Proof.
  split; [|split].
  - intros env objective budgetUSD a tools reply steps p id Htools Hreply Hplan Hin Htool Hmiss.
    assert (exists e a', runPhases env objective budgetUSD
              (setCurrentRun (Some (newRun (env_runId env) objective budgetUSD)) a)
              = (Throw e, a') /\ is_Some (currentRun a')) as (e & a' & Hthrow & Hsome).
    2:{ by eapply run_catch. }
    unfold runPhases.
    destruct (phaseDiscover_ok env tools
                (setCurrentRun (Some (newRun (env_runId env) objective budgetUSD)) a)
                Htools) as (a1 & Hdisc & Hinv1); [simpl; eauto|].
    rewrite (bind_ok _ _ _ _ _ Hdisc).
    pose proof (keeps_phasePlan tools env objective a1 Hinv1) as Hinv2.
    destruct (phasePlan env objective a1) as [[plan|e] a2] eqn:Hp; simpl in Hinv2.
    2:{ exists e, a2. split; [by apply bind_throw | apply Hinv2]. }
    rewrite (bind_ok _ _ _ _ _ Hp).
    rewrite (phasePlan_returns _ _ _ _ _ _ Hreply Hp) in *.
    pose proof (keeps_phaseAuthorize tools env objective (parseOr planFallback reply) a2 Hinv2)
      as Hinv3.
    destruct (phaseAuthorize env objective (parseOr planFallback reply) a2)
      as [[mandate|e] a3] eqn:Hauth; simpl in Hinv3.
    2:{ exists e, a3. split; [by apply bind_throw | apply Hinv3]. }
    rewrite (bind_ok _ _ _ _ _ Hauth).
    destruct (phaseExecute_missing_tool env (parseOr planFallback reply) mandate steps p id
                tools a3 Hplan Hin Htool Hmiss Hinv3) as (e & a4 & Hexec & Hinv4).
    exists e, a4. split; [by apply bind_throw | apply Hinv4].
  - intros. by apply executeTool_missing.
  - intros penv id params hint c a t Hfind.
    destruct (executeTool_found penv id params hint c a t Hfind) as (s & data & a' & Hexec & _).
    eauto.
Qed.

Lemma phaseAuthorize_fallback env objective text a r :
  currentRun a = Some r ->
  exists mandate a',
    phaseAuthorize env objective (planFallback text) a = (Ok mandate, a') /\
    is_Some (currentRun a').
Proof.
  intros Hrun.
  unfold phaseAuthorize, bind, liftResult, modify, ret, pushStep, updateRun. simpl.
  destruct (env_mandate env); simpl; rewrite Hrun; simpl; eauto.
Qed.

(** Claim C9, amended.  When [JSON.parse] throws on the planning reply, the
    Plan phase returns: the plan is the empty plan (no step, estimated cost
    0) with the raw reply as its reasoning, a successful plan step carrying
    that reasoning is appended to the run, whose status is unchanged, and the
    Authorize and Execute phases that follow return too, the latter without
    running a step. *)
Theorem unparsable_plan_degrades_to_the_empty_plan env objective a r text :
  currentRun a = Some r ->
  env_planReply env = Ok {| reply_text := text; reply_parsed := None |} ->
  exists a1 r1,
    phasePlan env objective a = (Ok (planFallback text), a1) /\
    getProp (planFallback text) "plan" = Ok (JArr []) /\
    getProp (planFallback text) "estimatedCostUSD" = Ok (JNum 0) /\
    getProp (planFallback text) "reasoning" = Ok (JStr text) /\
    currentRun a1 = Some r1 /\
    run_status r1 = run_status r /\
    run_steps r1 =
      run_steps r ++
        [plainStep "plan" StepType.reason (Some (OutValue (planFallback text))) (Some 0)
           StepStatus.success (JStr text) None] /\
    exists mandate a2,
      phaseAuthorize env objective (planFallback text) a1 = (Ok mandate, a2) /\
      phaseExecute env (planFallback text) mandate a2 = (Ok [], a2).
Proof.
  intros Hrun Hreply.
  unfold phasePlan, bind, gets, liftResult, ret, pushStep, updateRun.
  rewrite Hreply. simpl. rewrite Hrun. simpl.
  eexists _, _. do 7 (split; [done|]).
  destruct (phaseAuthorize_fallback env objective text
              (setCurrentRun
                 (Some
                    {| run_id := run_id r; run_status := run_status r;
                       run_objective := run_objective r;
                       run_steps := run_steps r ++
                         [plainStep "plan" StepType.reason
                            (Some (OutValue (planFallback text))) (Some 0)
                            StepStatus.success (JStr text) None];
                       run_totalCostUSD := run_totalCostUSD r;
                       run_budgetUSD := run_budgetUSD r;
                       run_budgetRemainingUSD := run_budgetRemainingUSD r;
                       run_result := run_result r |}) a) _ eq_refl)
    as (mandate & a2 & Hauth & _).
  exists mandate, a2. split; [exact Hauth|]. done.
Qed.

End ExecutorFacts.

(** *** The agent on sample runs *)

(** The default pacing of the loop: the second call is assessed half a
    second after the first was settled, the cooldown check rejects it, and
    its price is taken from the remaining budget.  One receipt of $0.02 is
    settled; the remaining budget is $1 less $0.03. *)
Lemma cooldown_rejection_is_charged :
  let after1 :=
    (@phaseExecute decimalFormat (envWith (replyOf (planOf [])) hastyCalls)
       (planOf ["web-search"]) None (runningAgent catalogue)).2 in
  let env := envWith (replyOf (planOf [])) (fun i => hastyCalls (S i)) in
  exists results a' r',
    @phaseExecute decimalFormat env (JObj [("plan", JArr [planned "market-data"])]) None after1
      = (Ok results, a') /\
    currentRun a' = Some r' /\
    settledTotal (receipts (logger a')) == 0.02 /\
    run_budgetUSD r' == 1 /\
    run_budgetRemainingUSD r' == 0.97.
Proof.
  intros after1 env.
  eassert (Hrun0 : currentRun after1 = Some _) by (vm_compute; reflexivity).
  eassert (Hfind : findTool (JStr "market-data") (toolRegistry after1) = Some _)
    by (vm_compute; reflexivity).
  destruct (@rejected_step_is_charged_to_the_budget decimalFormat env after1 _ None
              (JObj [("plan", JArr [planned "market-data"])])
              (planned "market-data") (JStr "market-data") _ Hrun0 eq_refl eq_refl Hfind)
    as (results & a' & r' & Hexec & Hrun & Hreceipts & Hbudget & Hremaining).
  - vm_compute. reflexivity.
  - exists results, a', r'. split; [exact Hexec|]. split; [exact Hrun|].
    rewrite Hreceipts, Hbudget, Hremaining. repeat split; vm_compute; reflexivity.
Defined.

(** The same on the plan of two steps, run in one go. *)
Example two_step_run_budget :
  exists results a' r',
    @phaseExecute decimalFormat (envWith (replyOf (planOf [])) hastyCalls)
      (planOf ["web-search"; "market-data"]) None (runningAgent catalogue)
      = (Ok results, a') /\
    currentRun a' = Some r' /\
    step_status <$> run_steps r' = [StepStatus.success; StepStatus.failed] /\
    length (receipts (logger a')) = 1%nat /\
    run_budgetUSD r' - settledTotal (receipts (logger a')) == 0.98 /\
    run_budgetRemainingUSD r' == 0.97.
Proof. eexists _, _, _. split; [vm_compute; reflexivity|]. repeat split. Qed.

(** A paid call that returns while the SDK reports a failed settlement:
    the receipt is logged as failed, and its amount is charged all the
    same, in the loop and in the "Finalize" block, which sums every
    receipt. *)
Example unsettled_receipt_is_charged :
  exists results a' r',
    @phaseExecute decimalFormat
      (envWith (replyOf (planOf []))
         (fun _ =>
            {| call_stepId := "step"; call_assessedAt := 1000;
               call_detectedProtocol := Some "x402"; call_costEstimate := None;
               call_settlement :=
                 Some {| stl_success := false; stl_network := None; stl_txHash := None |};
               call_outcome := GatewayReturns (JObj []);
               call_stampedAt := 1200; call_loggedAt := 1200;
               call_receiptId := "receipt" |}))
      (planOf ["web-search"]) None (runningAgent catalogue) = (Ok results, a') /\
    currentRun a' = Some r' /\
    rcpt_status <$> receipts (logger a') = [ReceiptStatus.failed] /\
    settledTotal (receipts (logger a')) == 0 /\
    receiptsTotal (receipts (logger a')) == 0.02 /\
    run_budgetRemainingUSD r' == 0.98.
Proof. eexists _, _, _. split; [vm_compute; reflexivity|]. repeat split. Qed.

(** Three steps, the paid call of the second throws. *)
Lemma second_call_throws_run_continues :
  exists results a' r' s1 s2 s3,
    @phaseExecute decimalFormat threeStepEnv
      (planOf ["web-search"; "market-data"; "sentiment"])
      None (runningAgent catalogue) = (Ok results, a') /\
    currentRun a' = Some r' /\
    run_steps r' = [s1; s2; s3] /\
    step_status s2 = StepStatus.failed /\
    step_error s2 = Some "Tool call failed: 500 Internal Server Error" /\
    step_costUSD s2 = Some 0 /\
    run_status r' = RunStatus.running.
Proof.
  eassert (Hf1 : findTool (JStr "web-search") (toolRegistry (runningAgent catalogue))
                 = Some _) by (vm_compute; reflexivity).
  eassert (Hf2 : findTool (JStr "market-data") (toolRegistry (runningAgent catalogue))
                 = Some _) by (vm_compute; reflexivity).
  eassert (Hf3 : findTool (JStr "sentiment") (toolRegistry (runningAgent catalogue))
                 = Some _) by (vm_compute; reflexivity).
  destruct (@failed_payment_does_not_stop_the_loop decimalFormat threeStepEnv
              (runningAgent catalogue) (newRun "run" "Research ETH" 1) None
              (planOf ["web-search"; "market-data"; "sentiment"])
              (planned "web-search") (planned "market-data") (planned "sentiment")
              (JStr "web-search") (JStr "market-data") (JStr "sentiment") _ _ _
              "Tool call failed: 500 Internal Server Error"
              eq_refl eq_refl eq_refl Hf1 eq_refl Hf2 eq_refl Hf3)
    as (results & a' & r' & s1 & s2 & s3 & Hexec & _ & Hrun & Hsteps & Hst & Herr & Hcost
        & Hstatus & _).
  - vm_compute. reflexivity.
  - reflexivity.
  - exists results, a', r', s1, s2, s3. repeat split; assumption.
Defined.

(** A plan that names a tool the catalogue does not have. *)
Lemma unknown_tool_run_is_failed :
  run_status <$>
    currentRun (@run decimalFormat unknownToolEnv "Research ETH" 1
                  (newAriaAgent DEFAULT_POLICY))
    = Some RunStatus.failed.
Proof.
  apply (proj1 (@unknown_tool_fails_the_run decimalFormat) unknownToolEnv "Research ETH" 1
           (newAriaAgent DEFAULT_POLICY) catalogue
           {| reply_text := "{...}";
              reply_parsed := Some (planOf ["web-search"; "price-oracle"]) |}
           [planned "web-search"; planned "price-oracle"]
           (planned "price-oracle") (JStr "price-oracle")).
  - reflexivity.
  - reflexivity.
  - reflexivity.
  - apply list_elem_of_further, list_elem_of_here.
  - reflexivity.
  - vm_compute. reflexivity.
Defined.

(** Claim C9 fails on the code for a reply that is JSON but not a plan
    object: [JSON.parse] returns, the fallback is not taken, and reading the
    value throws.  The text [null] and an object whose [plan] is not an
    array both end the run with status failed. *)
Lemma json_of_another_shape_fails_the_run :
  (phasePlan nullPlanEnv "Research ETH" (runningAgent catalogue)).1
    = Throw (TypeError "Cannot read properties of null (reading 'estimatedCostUSD')") /\
  run_status <$>
    currentRun (@run decimalFormat nullPlanEnv "Research ETH" 1 (newAriaAgent DEFAULT_POLICY))
    = Some RunStatus.failed /\
  (phasePlan nestedPlanEnv "Research ETH" (runningAgent catalogue)).1
    = Throw (TypeError "(plan.plan || []).map is not a function") /\
  run_status <$>
    currentRun (@run decimalFormat nestedPlanEnv "Research ETH" 1
                  (newAriaAgent DEFAULT_POLICY))
    = Some RunStatus.failed.
Proof. repeat split; vm_compute; reflexivity. Qed.

(** A reply in prose: the run goes on and completes. *)
Lemma prose_plan_is_the_empty_plan :
  exists a1 r1,
    phasePlan proseEnv "Research ETH" (runningAgent catalogue)
      = (Ok (planFallback "I cannot plan"), a1) /\
    currentRun a1 = Some r1 /\
    run_status r1 = RunStatus.running.
Proof.
  destruct (@unparsable_plan_degrades_to_the_empty_plan decimalFormat proseEnv
              "Research ETH" (runningAgent catalogue) (newRun "run" "Research ETH" 1)
              "I cannot plan" eq_refl eq_refl)
    as (a1 & r1 & Hplan & _ & _ & _ & Hrun & Hstatus & _).
  exists a1, r1. repeat split; assumption.
Defined.

Example prose_plan_run_completes :
  run_status <$>
    currentRun (@run decimalFormat proseEnv "Research ETH" 1 (newAriaAgent DEFAULT_POLICY))
    = Some RunStatus.completed.
Proof. vm_compute. reflexivity. Qed.

(** * Further properties *)

(** ** The risk engine *)

Lemma Qsum_app (l1 l2 : list Q) : Qsum (l1 ++ l2) == Qsum l1 + Qsum l2.
Proof.
  induction l1 as [|x l1 IH]; simpl; [ring|].
  unfold Qsum in *. simpl. rewrite IH. ring.
Qed.

Lemma snoc_not_nil {A} (l : list A) (x : A) : l ++ [x] = [] -> False.
Proof. by destruct l. Qed.

(** A check that has flagged a violation did not leave the list empty. *)
Ltac flagged H :=
  exfalso; unfold flag, note in H; simpl in H; exact (snoc_not_nil _ _ H).

Lemma truthyString_Some (field : option string) s :
  truthyString field = Some s <-> field = Some s /\ s <> EmptyString.
Proof.
  unfold truthyString. destruct field as [s'|]; [|split; [done|by intros []]].
  destruct (bool_decide_reflect (s' = EmptyString)) as [->|Hne].
  - split; [done|]. by intros [[= <-] ?].
  - split; [by intros [= <-] | by intros [[= <-] _]].
Qed.

Lemma truthyNumber_Some (field : option Q) q :
  truthyNumber field = Some q <-> field = Some q /\ ~ q == 0.
Proof.
  unfold truthyNumber. destruct field as [q'|]; [|split; [done|by intros []]].
  destruct (Qeq_bool q' 0) eqn:Hz.
  - apply Qeq_bool_eq in Hz. split; [done|]. by intros [[= <-] ?].
  - apply Qeq_bool_neq in Hz. split; [by intros [= <-] | by intros [[= <-] _]].
Qed.

Lemma allowlist_nil (field : option string) (allowed : list string) msg v :
  (match truthyString field with
   | Some c => if negb (bool_decide (c ∈ allowed)) then flag (msg c) high v else v
   | None => v
   end).1 = [] <->
  v.1 = [] /\ (forall c, field = Some c -> c <> EmptyString -> c ∈ allowed).
Proof.
  destruct (truthyString field) as [c|] eqn:Hf.
  - apply truthyString_Some in Hf as [-> Hne].
    destruct (bool_decide_reflect (c ∈ allowed)) as [Hin|Hout]; simpl.
    + split; [|tauto]. intros Hnil. split; [done|]. by intros ? [= <-] _.
    + split.
      * intros Hnil. flagged Hnil.
      * intros [_ Hall]. destruct Hout. by apply Hall.
  - split; [|tauto]. intros Hnil. split; [done|]. intros c -> Hne.
    assert (truthyString (Some c) = Some c) by (by apply truthyString_Some).
    congruence.
Qed.

Lemma metadata_field {A} (m : option Metadata) (f : Metadata -> option A) x :
  m ≫= f = Some x <-> exists md, m = Some md /\ f md = Some x.
Proof.
  destruct m as [md|]; simpl.
  - split; [eauto | by intros (? & [= <-] & ?)].
  - split; [done | by intros (? & ? & _)].
Qed.

Section RiskEngineMore.
Context `{NumberFormat}.

Lemma checkDailyLimit_nil e cost v :
  (checkDailyLimit e cost v).1 = [] <->
  v.1 = [] /\ dailySpent e + cost <= dailyLimitUSD (policy e).
Proof.
  unfold checkDailyLimit. destruct (Qgtb _ _) eqn:Hgt.
  - apply Qgtb_true in Hgt. split.
    + intros Hnil. flagged Hnil.
    + intros [_ Hle]. by apply Qlt_not_le in Hgt.
  - apply Qgtb_false in Hgt. tauto.
Qed.

Lemma checkPerTransaction_nil e cost v :
  (checkPerTransaction e cost v).1 = [] <->
  v.1 = [] /\ cost <= perTransactionLimitUSD (policy e).
Proof.
  unfold checkPerTransaction. destruct (Qgtb _ _) eqn:Hgt.
  - apply Qgtb_true in Hgt. split.
    + intros Hnil. flagged Hnil.
    + intros [_ Hle]. by apply Qlt_not_le in Hgt.
  - apply Qgtb_false in Hgt. tauto.
Qed.

Lemma checkCooldown_nil e now v :
  (checkCooldown e now v).1 = [] <->
  v.1 = [] /\
  (cooldownMs (policy e) <= inject_Z (now - lastActionTimestamp e)
   \/ (lastActionTimestamp e <= 0)%Z).
Proof.
  unfold checkCooldown.
  destruct (Qltb _ _) eqn:Hlt; destruct (0 <? lastActionTimestamp e)%Z eqn:Hpos; simpl.
  - apply Qltb_true in Hlt. apply Z.ltb_lt in Hpos. split.
    + intros Hnil. flagged Hnil.
    + intros [_ [Hle|Hle]]; [by apply Qlt_not_le in Hlt | lia].
  - apply Z.ltb_ge in Hpos. tauto.
  - apply Qltb_false in Hlt. tauto.
  - apply Qltb_false in Hlt. tauto.
Qed.

Lemma checkCategory_nil e m v :
  (checkCategory e m v).1 = [] <->
  v.1 = [] /\
  (forall md c, m = Some md -> category md = Some c -> c <> EmptyString ->
                c ∈ allowedCategories (policy e)).
Proof.
  unfold checkCategory.
  rewrite (allowlist_nil (m ≫= category) _ (fun c => "Category not allowed: " +:+ c)).
  split; intros [Hv Hall]; (split; [done|]).
  - intros md c -> Hc. apply Hall. simpl. done.
  - intros c Hc. apply metadata_field in Hc as (md & -> & Hc). by eapply Hall.
Qed.

Lemma checkToken_nil e m v :
  (checkToken e m v).1 = [] <->
  v.1 = [] /\
  (forall md t, m = Some md -> token md = Some t -> t <> EmptyString ->
                t ∈ allowedTokens (policy e)).
Proof.
  unfold checkToken.
  rewrite (allowlist_nil (m ≫= token) _ (fun c => "Token not allowed: " +:+ c)).
  split; intros [Hv Hall]; (split; [done|]).
  - intros md c -> Hc. apply Hall. simpl. done.
  - intros c Hc. apply metadata_field in Hc as (md & -> & Hc). by eapply Hall.
Qed.

Lemma checkChain_nil e m v :
  (checkChain e m v).1 = [] <->
  v.1 = [] /\
  (forall md c, m = Some md -> chain md = Some c -> c <> EmptyString ->
                c ∈ allowedChains (policy e)).
Proof.
  unfold checkChain.
  rewrite (allowlist_nil (m ≫= chain) _ (fun c => "Chain not allowed: " +:+ c)).
  split; intros [Hv Hall]; (split; [done|]).
  - intros md c -> Hc. apply Hall. simpl. done.
  - intros c Hc. apply metadata_field in Hc as (md & -> & Hc). by eapply Hall.
Qed.

Lemma checkSlippage_nil e m v :
  (checkSlippage e m v).1 = [] <->
  v.1 = [] /\
  (forall md bps, m = Some md -> slippageBps md = Some bps -> ~ bps == 0 ->
                  bps <= maxSlippageBps (policy e)).
Proof.
  unfold checkSlippage. destruct (truthyNumber (m ≫= slippageBps)) as [bps|] eqn:Hf.
  - apply truthyNumber_Some in Hf as [Hf Hne].
    apply metadata_field in Hf as (md & -> & Hf).
    destruct (Qgtb _ _) eqn:Hgt.
    + apply Qgtb_true in Hgt. split.
      * intros Hnil. flagged Hnil.
      * intros [_ Hall]. specialize (Hall md bps eq_refl Hf Hne).
        by apply Qlt_not_le in Hgt.
    + apply Qgtb_false in Hgt. split; [|tauto]. intros Hnil. split; [done|].
      intros md' bps' [= <-] Hf' _. congruence.
  - split; [|tauto]. intros Hnil. split; [done|]. intros md bps -> Hf' Hne.
    assert (truthyNumber (Some md ≫= slippageBps) = Some bps)
      by (apply truthyNumber_Some; done).
    congruence.
Qed.

(** An assessment is approved exactly when it lists no violation. *)
Lemma approved_no_violations e now act cost m :
  approved (assess e now act cost m) = true <->
  policyViolations (assess e now act cost m) = [].
Proof.
  split.
  - intros Happ. destruct (policyViolations (assess e now act cost m)) eqn:Hv; [done|].
    destruct (assess_blocked e now act cost m) as [Hno _]; [by rewrite Hv|]. congruence.
  - intros Hv. by apply assess_clean.
Qed.

(** The conditions under which [assess] approves. *)
Lemma approved_conditions e now act cost m :
  approved (assess e now act cost m) = true <->
  dailySpent e + cost <= dailyLimitUSD (policy e) /\
  cost <= perTransactionLimitUSD (policy e) /\
  (cooldownMs (policy e) <= inject_Z (now - lastActionTimestamp e)
   \/ (lastActionTimestamp e <= 0)%Z) /\
  (forall md c, m = Some md -> category md = Some c -> c <> EmptyString ->
                c ∈ allowedCategories (policy e)) /\
  (forall md t, m = Some md -> token md = Some t -> t <> EmptyString ->
                t ∈ allowedTokens (policy e)) /\
  (forall md c, m = Some md -> chain md = Some c -> c <> EmptyString ->
                c ∈ allowedChains (policy e)) /\
  (forall md bps, m = Some md -> slippageBps md = Some bps -> ~ bps == 0 ->
                  bps <= maxSlippageBps (policy e)).
Proof.
  rewrite approved_no_violations.
  destruct (assess_unfold e now act cost m) as [-> _]. unfold runChecks.
  rewrite costTier_violations, checkSlippage_nil, checkChain_nil, checkToken_nil,
    checkCategory_nil, checkCooldown_nil, checkPerTransaction_nil, checkDailyLimit_nil.
  simpl. tauto.
Qed.

(** Property X1.  [assess] approves an action exactly when all seven checks
    pass: the spent total plus the cost is within the daily limit, the cost
    is within the per-transaction limit, the cooldown has elapsed since the
    last recorded action (or no action was recorded yet), and each of
    category, token, chain and slippage is absent, falsy, or allowed by the
    policy. *)
Theorem assess_approves_iff_every_check_passes e now act cost m :
  approved (assess e now act cost m) = true <->
  dailySpent e + cost <= dailyLimitUSD (policy e) /\
  cost <= perTransactionLimitUSD (policy e) /\
  (cooldownMs (policy e) <= inject_Z (now - lastActionTimestamp e)
   \/ (lastActionTimestamp e <= 0)%Z) /\
  (forall md c, m = Some md -> category md = Some c -> c <> EmptyString ->
                c ∈ allowedCategories (policy e)) /\
  (forall md t, m = Some md -> token md = Some t -> t <> EmptyString ->
                t ∈ allowedTokens (policy e)) /\
  (forall md c, m = Some md -> chain md = Some c -> c <> EmptyString ->
                c ∈ allowedChains (policy e)) /\
  (forall md bps, m = Some md -> slippageBps md = Some bps -> ~ bps == 0 ->
                  bps <= maxSlippageBps (policy e)).
Proof. apply approved_conditions. Qed.

(** Property X2.  Approval is monotone: an action that [assess] approves on
    an engine is still approved, on the same engine and with the same
    metadata, at any later clock reading and for any cost that is not
    higher, whatever the name of the action. *)
Theorem approval_survives_lower_cost_and_later_clock
    e now now' act act' cost cost' m :
  approved (assess e now act cost m) = true ->
  (now <= now')%Z ->
  cost' <= cost ->
  approved (assess e now' act' cost' m) = true.
Proof.
  rewrite !approved_conditions.
  intros (Hdaily & Hper & Hcool & Hrest) Hnow Hcost.
  split; [lra|]. split; [lra|]. split; [|exact Hrest].
  destruct Hcool as [Hcool|Hfirst]; [left|by right].
  eapply Qle_trans; [exact Hcool|].
  rewrite <- Zle_Qle. lia.
Qed.

(** A check that reports nothing changes nothing. *)
Lemma checkDailyLimit_clean e cost v :
  (checkDailyLimit e cost v).1 = [] -> checkDailyLimit e cost v = v.
Proof. unfold checkDailyLimit. repeat case_match; try done; intros Hn; flagged Hn. Qed.

Lemma checkPerTransaction_clean e cost v :
  (checkPerTransaction e cost v).1 = [] -> checkPerTransaction e cost v = v.
Proof. unfold checkPerTransaction. repeat case_match; try done; intros Hn; flagged Hn. Qed.

Lemma checkCooldown_clean e now v :
  (checkCooldown e now v).1 = [] -> checkCooldown e now v = v.
Proof. unfold checkCooldown. repeat case_match; try done; intros Hn; flagged Hn. Qed.

Lemma checkCategory_clean e m v :
  (checkCategory e m v).1 = [] -> checkCategory e m v = v.
Proof. unfold checkCategory. repeat case_match; try done; intros Hn; flagged Hn. Qed.

Lemma checkToken_clean e m v :
  (checkToken e m v).1 = [] -> checkToken e m v = v.
Proof. unfold checkToken. repeat case_match; try done; intros Hn; flagged Hn. Qed.

Lemma checkChain_clean e m v :
  (checkChain e m v).1 = [] -> checkChain e m v = v.
Proof. unfold checkChain. repeat case_match; try done; intros Hn; flagged Hn. Qed.

Lemma checkSlippage_clean e m v :
  (checkSlippage e m v).1 = [] -> checkSlippage e m v = v.
Proof. unfold checkSlippage. repeat case_match; try done; intros Hn; flagged Hn. Qed.

(** Without violations the tier is the one the cost alone gives. *)
Lemma runChecks_clean e now cost m :
  (runChecks e now cost m).1 = [] ->
  runChecks e now cost m = costTier e cost ([], low).
Proof.
  unfold runChecks. rewrite costTier_violations. intros Hnil.
  pose proof (checkSlippage_clean _ _ _ Hnil) as Hid; rewrite Hid in Hnil |- *; clear Hid.
  pose proof (checkChain_clean _ _ _ Hnil) as Hid; rewrite Hid in Hnil |- *; clear Hid.
  pose proof (checkToken_clean _ _ _ Hnil) as Hid; rewrite Hid in Hnil |- *; clear Hid.
  pose proof (checkCategory_clean _ _ _ Hnil) as Hid; rewrite Hid in Hnil |- *; clear Hid.
  pose proof (checkCooldown_clean _ _ _ Hnil) as Hid; rewrite Hid in Hnil |- *; clear Hid.
  pose proof (checkPerTransaction_clean _ _ _ Hnil) as Hid; rewrite Hid in Hnil |- *; clear Hid.
  by rewrite (checkDailyLimit_clean _ _ _ Hnil).
Qed.

(** Property X3.  The risk tier of an approved assessment depends on the
    cost alone: high above [requireApprovalAboveUSD], else medium above
    [maxAutoApproveUSD], else low; it is never critical. *)
Theorem approved_tier_is_set_by_cost e now act cost m :
  approved (assess e now act cost m) = true ->
  let tier := riskLevel (assess e now act cost m) in
  (tier = high <-> requireApprovalAboveUSD (policy e) < cost) /\
  (tier = medium <->
     cost <= requireApprovalAboveUSD (policy e) /\ maxAutoApproveUSD (policy e) < cost) /\
  (tier = low <->
     cost <= requireApprovalAboveUSD (policy e) /\ cost <= maxAutoApproveUSD (policy e)) /\
  tier <> critical.
Proof.
  intros Happ tier. subst tier.
  apply approved_no_violations in Happ.
  destruct (assess_unfold e now act cost m) as [Hv ->]. rewrite Hv in Happ.
  rewrite (runChecks_clean _ _ _ _ Happ). unfold costTier. simpl.
  destruct (Qgtb cost (requireApprovalAboveUSD _)) eqn:Hhigh.
  - apply Qgtb_true in Hhigh. simpl.
    repeat split; try done; intros; try lra.
  - apply Qgtb_false in Hhigh.
    destruct (Qgtb cost (maxAutoApproveUSD _)) eqn:Hmed.
    + apply Qgtb_true in Hmed. simpl. repeat split; try done; intros; try lra.
    + apply Qgtb_false in Hmed. simpl. repeat split; try done; intros; try lra.
Qed.

End RiskEngineMore.

(** *** The engine over a history of calls *)

Lemma approvedTotal_snoc log x :
  approvedTotal (log ++ [x])
    == approvedTotal log + (if log_approved x then log_costUSD x else 0).
Proof.
  unfold approvedTotal. rewrite List.filter_app, fmap_app, Qsum_app. simpl.
  destruct (log_approved x); unfold Qsum; simpl; ring.
Qed.

Lemma callEngine_keeps_the_books e c :
  dailySpent e == approvedTotal (actionLog e) ->
  dailySpent (callEngine e c) == approvedTotal (actionLog (callEngine e c)).
Proof.
  intros Hinv. destruct c as [stampedAt loggedAt act costUSD ok|]; simpl.
  - rewrite approvedTotal_snoc. destruct ok; simpl; rewrite Hinv; ring.
  - reflexivity.
Qed.

Lemma callEngine_policy e c : policy (callEngine e c) = policy e.
Proof. destruct c as [? ? ? ? []|]; done. Qed.

(** Property X4.  After any sequence of [recordAction] and [resetDaily]
    calls on a new engine, the policy is the one the engine was built with
    and the spent total is the sum of the costs of the log entries recorded
    as approved. *)
Theorem spent_is_the_sum_of_the_approved_log_entries p calls :
  let e := foldl callEngine (newRiskEngine p) calls in
  policy e = p /\ dailySpent e == approvedTotal (actionLog e).
Proof.
  simpl.
  assert (Hgen : forall e,
            dailySpent e == approvedTotal (actionLog e) ->
            policy (foldl callEngine e calls) = policy e /\
            dailySpent (foldl callEngine e calls)
              == approvedTotal (actionLog (foldl callEngine e calls))).
  { induction calls as [|c calls IH]; intros e Hinv; simpl; [done|].
    destruct (IH (callEngine e c) (callEngine_keeps_the_books e c Hinv)) as [Hp Hs].
    split; [by rewrite Hp, callEngine_policy | exact Hs]. }
  apply (Hgen (newRiskEngine p)). reflexivity.
Qed.

(** *** Budget status *)


Section ResetDaily.
Context `{NumberFormat}.

Lemma appends_keeps check v x : appends check -> x ∈ v.1 -> x ∈ (check v).1.
Proof.
  intros Hc Hin. destruct (Hc v) as [extra ->]. apply elem_of_app. by left.
Qed.

(** While the cooldown runs, [assess] lists the cooldown violation. *)
Lemma cooldown_violation_listed e now act cost m :
  (0 < lastActionTimestamp e)%Z ->
  inject_Z (now - lastActionTimestamp e) < cooldownMs (policy e) ->
  ("Cooldown not met: " +:+ numToString (inject_Z (now - lastActionTimestamp e))
     +:+ "ms < " +:+ numToString (cooldownMs (policy e)) +:+ "ms")
    ∈ policyViolations (assess e now act cost m).
Proof.
  intros Hpos Hcool.
  destruct (assess_unfold e now act cost m) as [-> _]. unfold runChecks.
  rewrite costTier_violations.
  apply appends_keeps; [apply appends_checkSlippage|].
  apply appends_keeps; [apply appends_checkChain|].
  apply appends_keeps; [apply appends_checkToken|].
  apply appends_keeps; [apply appends_checkCategory|].
  unfold checkCooldown.
  apply Qltb_true in Hcool. rewrite Hcool.
  apply Z.ltb_lt in Hpos. rewrite Hpos. simpl.
  apply elem_of_app. right. apply list_elem_of_here.
Qed.

(** Property X6.  [resetDaily] empties the spent total and the action log
    and keeps the policy, but it keeps the time of the last action too: an
    action assessed within the cooldown of the last recorded one is rejected
    after the reset as before, with the cooldown violation. *)
Theorem resetDaily_restores_the_budget_and_keeps_the_cooldown e now act cost m :
  (0 < lastActionTimestamp e)%Z ->
  inject_Z (now - lastActionTimestamp e) < cooldownMs (policy e) ->
  let e' := resetDaily e in
  bs_spent (getBudgetStatus e') = 0 /\
  bs_remaining (getBudgetStatus e') == dailyLimitUSD (policy e) /\
  bs_actionCount (getBudgetStatus e') = 0%nat /\
  bs_lastAction (getBudgetStatus e') = None /\
  getAuditTrail e' = [] /\
  getPolicy e' = getPolicy e /\
  ("Cooldown not met: " +:+ numToString (inject_Z (now - lastActionTimestamp e))
     +:+ "ms < " +:+ numToString (cooldownMs (policy e)) +:+ "ms")
    ∈ policyViolations (assess e' now act cost m) /\
  approved (assess e' now act cost m) = false.
Proof.
  intros Hpos Hcool e'. subst e'.
  split; [done|]. split; [simpl; ring|]. do 4 (split; [done|]).
  pose proof (cooldown_violation_listed (resetDaily e) now act cost m Hpos Hcool) as Hin.
  split; [exact Hin|].
  apply assess_blocked. intros Hnil. rewrite Hnil in Hin. by apply elem_of_nil in Hin.
Qed.

End ResetDaily.

(** *** Examples *)

Lemma cheaper_later_call_is_approved :
  approved (@assess decimalFormat coolingEngine 2000 "tool:sentiment" 0.05 None) = true /\
  approved (@assess decimalFormat coolingEngine 2500 "tool:market-data" 0.01 None) = true.
Proof.
  assert (Happ : approved (@assess decimalFormat coolingEngine 2000 "tool:sentiment"
                             0.05 None) = true) by reflexivity.
  split; [exact Happ|].
  apply (@approval_survives_lower_cost_and_later_clock decimalFormat coolingEngine
           2000 2500 "tool:sentiment" "tool:market-data" 0.05 0.01 None Happ).
  - lia.
  - discriminate.
Defined.

Lemma two_dollar_call_is_medium :
  approved (@assess decimalFormat (newRiskEngine DEFAULT_POLICY) 1000 "tool:premium" 2 None)
    = true /\
  riskLevel (@assess decimalFormat (newRiskEngine DEFAULT_POLICY) 1000 "tool:premium" 2 None)
    = medium.
Proof.
  assert (Happ : approved (@assess decimalFormat (newRiskEngine DEFAULT_POLICY) 1000
                             "tool:premium" 2 None) = true) by reflexivity.
  split; [exact Happ|].
  destruct (@approved_tier_is_set_by_cost decimalFormat (newRiskEngine DEFAULT_POLICY) 1000
              "tool:premium" 2 None Happ) as (_ & Hmedium & _).
  apply Hmedium. split; [discriminate | reflexivity].
Defined.

Lemma reset_during_cooldown_is_still_blocked :
  (0 < lastActionTimestamp coolingEngine)%Z /\
  inject_Z (1500 - lastActionTimestamp coolingEngine) < cooldownMs (policy coolingEngine) /\
  bs_remaining (getBudgetStatus (resetDaily coolingEngine)) == 50 /\
  approved (@assess decimalFormat (resetDaily coolingEngine) 1500 "tool:market-data"
              0.01 None) = false.
Proof.
  assert (Hpos : (0 < lastActionTimestamp coolingEngine)%Z) by reflexivity.
  assert (Hcool : inject_Z (1500 - lastActionTimestamp coolingEngine)
                  < cooldownMs (policy coolingEngine)) by reflexivity.
  split; [exact Hpos|]. split; [exact Hcool|].
  destruct (@resetDaily_restores_the_budget_and_keeps_the_cooldown decimalFormat
              coolingEngine 1500 "tool:market-data" 0.01 None Hpos Hcool)
    as (_ & Hremaining & _ & _ & _ & _ & _ & Hblocked).
  split; [exact Hremaining | exact Hblocked].
Defined.

(** ** The sentiment provider *)

(** *** The cache *)

Lemma setCache_then_getCached
    {T} (cache : gmap string (CacheEntry T)) (storedAt now : Z) (key : string) (data : T) :
  let stored := (setCache cache storedAt key data).2 in
  ((now < storedAt + 60000)%Z -> getCached stored now key = (Some data, stored)) /\
  ((storedAt + 60000 <= now)%Z -> getCached stored now key = (None, delete key cache)) /\
  (forall other, other <> key ->
     (getCached stored now other).1 = (getCached cache now other).1).
Proof.
  simpl. unfold getCached. split; [|split].
  - intros Hfresh. rewrite lookup_insert_eq. simpl. unfold CACHE_TTL_MS.
    destruct (Z.ltb_spec now (storedAt + 60000)); [done|lia].
  - intros Hstale. rewrite lookup_insert_eq. simpl. unfold CACHE_TTL_MS.
    destruct (Z.ltb_spec now (storedAt + 60000)); [lia|].
    by rewrite delete_insert_eq.
  - intros other Hne. rewrite lookup_insert_ne by done.
    destruct (cache !! other) as [entry|]; [|done]. by destruct (_ <? _)%Z.
Qed.

(** Property X7.  A value stored by [setCache] is what [getCached] returns
    for its key during the next 60000 ms, the cache unchanged; from then on
    [getCached] returns null and deletes the entry. Looking up another key
    finds what it found before the store. *)
Theorem cached_value_is_returned_until_it_expires
    {T} (cache : gmap string (CacheEntry T)) (storedAt now : Z) (key : string) (data : T) :
  let stored := (setCache cache storedAt key data).2 in
  ((now < storedAt + 60000)%Z -> getCached stored now key = (Some data, stored)) /\
  ((storedAt + 60000 <= now)%Z -> getCached stored now key = (None, delete key cache)) /\
  (forall other, other <> key ->
     (getCached stored now other).1 = (getCached cache now other).1).
Proof. apply setCache_then_getCached. Qed.

(** *** Rounding to three digits *)

Lemma roundTo3_nonneg q (k : Z) :
  0 <= q -> q * 1000 <= inject_Z k ->
  0 <= roundTo 3 q /\ roundTo 3 q * 1000 <= inject_Z k.
Proof.
  intros Hpos Hle. unfold roundTo.
  assert (Hsign : Qltb q 0 = false) by (by apply Qltb_false).
  rewrite Hsign. rewrite (Qabs_pos q Hpos).
  change (inject_Z (10 ^ Z.of_nat 3)) with 1000.
  set (n := Qfloor (q * 1000 + (1 # 2))).
  assert (Hn0 : (0 <= n)%Z).
  { change 0%Z with (Qfloor 0). apply Qfloor_resp_le. lra. }
  assert (Hnk : (n <= k)%Z).
  { assert (Hlt : inject_Z n < inject_Z (k + 1)).
    { eapply Qle_lt_trans; [apply Qfloor_le|]. rewrite inject_Z_plus.
      change (inject_Z 1) with 1. lra. }
    rewrite <- Zlt_Qlt in Hlt. lia. }
  rewrite Zle_Qle in Hn0, Hnk. change (inject_Z 0) with 0 in Hn0.
  split.
  - apply Qle_shift_div_l; [reflexivity|]. lra.
  - assert (Hscaled : inject_Z n / 1000 * 1000 == inject_Z n) by field.
    by rewrite Hscaled.
Qed.

Lemma roundTo3_neg q : q < 0 -> roundTo 3 q == - roundTo 3 (- q).
Proof.
  intros Hneg. unfold roundTo.
  assert (Hs1 : Qltb q 0 = true) by (by apply Qltb_true).
  assert (Hs2 : Qltb (- q) 0 = false) by (apply Qltb_false; lra).
  rewrite Hs1, Hs2. rewrite Qabs_opp.
  change (inject_Z (10 ^ Z.of_nat 3)) with 1000. field.
Qed.

(** Rounding keeps a number within bounds that are multiples of 0.001. *)
Lemma roundTo3_within q (k : Z) :
  - inject_Z k <= q * 1000 -> q * 1000 <= inject_Z k ->
  - inject_Z k <= roundTo 3 q * 1000 /\ roundTo 3 q * 1000 <= inject_Z k.
Proof.
  intros Hlo Hhi. destruct (Qlt_le_dec q 0) as [Hneg|Hpos].
  - rewrite (roundTo3_neg q Hneg).
    destruct (roundTo3_nonneg (- q) k) as [H0 Hk]; lra.
  - destruct (roundTo3_nonneg q k Hpos Hhi) as [H0 Hk]. lra.
Qed.

Lemma roundTo3_unit q : -1 <= q -> q <= 1 -> -1 <= roundTo 3 q /\ roundTo 3 q <= 1.
Proof.
  intros Hlo Hhi.
  pose proof (roundTo3_within q 1000) as Hw. change (inject_Z 1000) with 1000 in Hw.
  destruct Hw; lra.
Qed.

(** *** Weighted averages *)

Lemma specWeight_range src : 0 < specWeight src /\ specWeight src <= 0.35.
Proof. unfold specWeight. repeat case_match; split; reflexivity || discriminate. Qed.

Lemma Qsum_cons x l : Qsum (x :: l) = x + Qsum l.
Proof. done. Qed.

Lemma weighted_sum_between lo hi (signals : list SentimentSignal) :
  Forall (fun sig => lo <= score sig /\ score sig <= hi /\ 0 <= confidence sig) signals ->
  lo * specTotalWeight signals <= specWeightedSum signals /\
  specWeightedSum signals <= hi * specTotalWeight signals.
Proof.
  induction 1 as [|sig rest (Hlo & Hhi & Hc) _ [IHlo IHhi]].
  - unfold specTotalWeight, specWeightedSum, Qsum. simpl. lra.
  - unfold specTotalWeight, specWeightedSum in *. rewrite !map_cons, !Qsum_cons.
    destruct (specWeight_range (source sig)) as [Hw _].
    assert (Hwc : 0 <= specWeight (source sig) * confidence sig) by nra.
    split; nra.
Qed.

Lemma total_weight_between (signals : list SentimentSignal) :
  Forall (fun sig => 0 <= confidence sig /\ confidence sig <= 1) signals ->
  0 <= specTotalWeight signals /\
  specTotalWeight signals <= 0.35 * inject_Z (Z.of_nat (length signals)).
Proof.
  induction 1 as [|sig rest [Hc0 Hc1] _ [IH0 IH1]].
  - unfold specTotalWeight, Qsum. simpl. split; [lra | discriminate].
  - unfold specTotalWeight in *. simpl length. rewrite Nat2Z.inj_succ, <- Z.add_1_r.
    rewrite inject_Z_plus. change (inject_Z 1) with 1. rewrite map_cons, Qsum_cons.
    destruct (specWeight_range (source sig)) as [Hw0 Hw1].
    split; nra.
Qed.

(** The score and the confidence of the aggregation, whichever branch of
    its guard is taken. *)
Lemma aggregation_cases (signals : list SentimentSignal) c :
  compositeAggregation signals = Some c ->
  (0 < specTotalWeight signals /\
   compositeScore c == specWeightedSum signals / specTotalWeight signals /\
   compositeConfidence c
     == specTotalWeight signals / inject_Z (Z.of_nat (length signals)) /\
   signals <> []) \/
  (specTotalWeight signals <= 0 /\ compositeScore c = 0 /\ compositeConfidence c = 0).
Proof.
  intros Hc. destruct (accumulated_sums signals) as [Ht Hs].
  destruct (Qlt_le_dec 0 (totalWeight (accumulated signals))) as [Hpos|Hle].
  - left. rewrite aggregation_positive in Hc by done. inversion Hc; subst c; simpl.
    split; [by rewrite <- Ht|]. split; [by rewrite Ht, Hs|]. split; [by rewrite Ht|].
    by apply positive_weight_nonempty.
  - right. rewrite aggregation_guarded in Hc by lra. inversion Hc; subst c; simpl.
    split; [by rewrite <- Ht | done].
Qed.

Lemma composite_score_between lo hi (signals : list SentimentSignal) c :
  lo <= 0 -> 0 <= hi ->
  Forall (fun sig => lo <= score sig /\ score sig <= hi /\ 0 <= confidence sig) signals ->
  compositeAggregation signals = Some c ->
  lo <= compositeScore c /\ compositeScore c <= hi.
Proof.
  intros Hlo Hhi Hall Hc.
  destruct (aggregation_cases signals c Hc) as [(Hpos & -> & _)|(_ & -> & _)]; [|done].
  destruct (weighted_sum_between lo hi signals Hall) as [H1 H2].
  split.
  - apply Qle_shift_div_l; [done|lra].
  - apply Qle_shift_div_r; [done|lra].
Qed.

Lemma composite_confidence_between (signals : list SentimentSignal) c :
  Forall (fun sig => 0 <= confidence sig /\ confidence sig <= 1) signals ->
  compositeAggregation signals = Some c ->
  0 <= compositeConfidence c /\ compositeConfidence c <= 0.35.
Proof.
  intros Hall Hc.
  destruct (aggregation_cases signals c Hc) as [(Hpos & _ & -> & Hne)|(_ & _ & ->)];
    [|split; [lra | discriminate]].
  destruct (total_weight_between signals Hall) as [H1 H2].
  assert (Hn : 0 < inject_Z (Z.of_nat (length signals))).
  { destruct signals; [done|]. rewrite <- (Zlt_Qlt 0). simpl length. lia. }
  split.
  - apply Qle_shift_div_l; [done|lra].
  - apply Qle_shift_div_r; [done|lra].
Qed.


(** Property X9.  The composite confidence is the mean of weight times
    confidence, so with confidences between 0 and 1 it lies between 0 and
    0.35, the largest weight: it never comes near 1, however confident the
    signals. *)
Theorem composite_confidence_is_at_most_the_largest_weight
    (signals : list SentimentSignal) c :
  Forall (fun sig => 0 <= confidence sig /\ confidence sig <= 1) signals ->
  compositeAggregation signals = Some c ->
  0 <= compositeConfidence c /\ compositeConfidence c <= 0.35.
Proof. apply composite_confidence_between. Qed.

(** *** The signals *)

Lemma mathMin_cases a b :
  mathMin a b <= a /\ mathMin a b <= b /\ (mathMin a b = a \/ mathMin a b = b).
Proof.
  unfold mathMin. destruct (Qle_bool a b) eqn:Hle.
  - apply Qle_bool_iff in Hle. split; [lra|]. split; [lra|]. by left.
  - assert (b < a).
    { apply Qnot_le_lt. intros Hab. apply Qle_bool_iff in Hab. congruence. }
    split; [lra|]. split; [lra|]. by right.
Qed.

Lemma mathMax_cases a b :
  a <= mathMax a b /\ b <= mathMax a b /\ (mathMax a b = a \/ mathMax a b = b).
Proof.
  unfold mathMax. destruct (Qle_bool a b) eqn:Hle.
  - apply Qle_bool_iff in Hle. split; [lra|]. split; [lra|]. by right.
  - assert (b < a).
    { apply Qnot_le_lt. intros Hab. apply Qle_bool_iff in Hab. congruence. }
    split; [lra|]. split; [lra|]. by left.
Qed.

Lemma countNews_le (news : list NewsItem) :
  (countNews NewsPositive news + countNews NewsNegative news <= length news)%nat.
Proof.
  unfold countNews. induction news as [|n news IH]; simpl; [lia|].
  destruct (news_sentiment n); simpl; lia.
Qed.

(** The news block pushes at most one signal, and its division is by the
    number of articles, which is not zero. *)
Lemma newsSignals_range (news : list NewsItem) :
  exists sigs, newsSignals news = Some sigs /\
    (news = [] -> sigs = []) /\
    Forall (fun sig => source sig = "news" /\
                       (-1 <= score sig /\ score sig <= 1) /\
                       (0 <= confidence sig /\ confidence sig <= 0.9)) sigs.
Proof.
  unfold newsSignals. destruct news as [|n0 rest]; [by exists []|].
  set (news := n0 :: rest).
  assert (Hlen : (0 <? length news)%nat = true) by done. rewrite Hlen.
  pose proof (countNews_le news) as Hcount.
  set (p := countNews NewsPositive news) in *.
  set (n := countNews NewsNegative news) in *.
  assert (Hc : 0 < inject_Z (Z.of_nat (length news))).
  { rewrite <- (Zlt_Qlt 0). simpl length. lia. }
  rewrite jsDiv_Some by (by apply positive_nonzero). cbn [mbind option_bind].
  eexists. split; [reflexivity|]. split; [done|].
  constructor; [|constructor]. cbn [source score confidence]. split; [done|].
  assert (Hp : 0 <= inject_Z (Z.of_nat p)) by (rewrite <- (Zle_Qle 0); lia).
  assert (Hn : 0 <= inject_Z (Z.of_nat n)) by (rewrite <- (Zle_Qle 0); lia).
  assert (Hpn : inject_Z (Z.of_nat p) + inject_Z (Z.of_nat n)
                <= inject_Z (Z.of_nat (length news))).
  { rewrite <- inject_Z_plus, <- Zle_Qle. lia. }
  split.
  - apply roundTo3_unit.
    + apply Qle_shift_div_l; [done|lra].
    + apply Qle_shift_div_r; [done|lra].
  - destruct (mathMin_cases 0.9 (0.5 + inject_Z (Z.of_nat (length news)) * 0.04))
      as (H1 & H2 & [He|He]); rewrite He in *; split; lra.
Qed.

Lemma fearGreedSignals_range (fearGreed : option FearGreed) :
  (forall fg, fearGreed = Some fg -> 0 <= fg_value fg /\ fg_value fg <= 100) ->
  Forall (fun sig => (-1 <= score sig /\ score sig <= 1) /\
                     (0 <= confidence sig /\ confidence sig <= 0.9))
    (fearGreedSignals fearGreed).
Proof.
  intros Hrange. destruct fearGreed as [fg|]; simpl; [|constructor].
  destruct (Hrange fg eq_refl) as [H0 H100].
  constructor; [|constructor]. simpl. split; [|split; [lra | discriminate]].
  apply roundTo3_unit.
  - apply Qle_shift_div_l; [reflexivity|lra].
  - apply Qle_shift_div_r; [reflexivity|lra].
Qed.

(** [fetchOnChainSignals] returns a signal whatever the response holds: the
    market capitalisation it divides by is truthy, hence not zero. *)
Lemma fetchOnChainSignals_range (response : option CoinData) :
  exists sig, fetchOnChainSignals response = Some sig /\
    (0 <= confidence sig /\ confidence sig <= 0.9) /\
    ((forall coin, response = Some coin ->
        0 <= numberOrZero (coin_twitterFollowers coin)
             + numberOrZero (coin_redditSubscribers coin)) ->
     -1 <= score sig /\ score sig <= 1).
Proof.
  destruct response as [coin|]; simpl.
  2:{ eexists. split; [done|]. split; [split; discriminate|].
      intros _. split; discriminate. }
  assert (exists volumeChange,
            match truthyNumber (coin_totalVolumeUsd coin),
                  truthyNumber (coin_marketCapUsd coin) with
            | Some volume, Some marketCap => jsDiv volume marketCap
            | _, _ => Some 0
            end = Some volumeChange) as [volumeChange ->].
  { destruct (truthyNumber (coin_totalVolumeUsd coin)) as [volume|]; [|eauto].
    destruct (truthyNumber (coin_marketCapUsd coin)) as [marketCap|] eqn:Hcap; [|eauto].
    apply truthyNumber_Some in Hcap as [_ Hne]. rewrite jsDiv_Some by done. eauto. }
  simpl. eexists. split; [done|]. simpl. split; [split; [lra | discriminate]|].
  intros Hfollowers. specialize (Hfollowers coin eq_refl).
  set (followers := numberOrZero (coin_twitterFollowers coin)
                    + numberOrZero (coin_redditSubscribers coin)) in *.
  destruct (mathMax_cases (-1) ((volumeChange - 0.05) * 10)) as (Hx1 & Hx2 & _).
  destruct (mathMin_cases 1 (mathMax (-1) ((volumeChange - 0.05) * 10)))
    as (Hv1 & Hv2 & Hv3).
  assert (Hv0 : -1 <= mathMin 1 (mathMax (-1) ((volumeChange - 0.05) * 10))).
  { destruct Hv3 as [-> | ->]; [discriminate | done]. }
  destruct (mathMin_cases 1 (followers / 1000000)) as (Hc1 & Hc2 & Hc3).
  assert (Hc0 : 0 <= mathMin 1 (followers / 1000000)).
  { destruct Hc3 as [-> | ->]; [discriminate|].
    apply Qle_shift_div_l; [reflexivity|lra]. }
  apply roundTo3_unit; lra.
Qed.

(** *** [fetchSentiment] *)

Lemma aggregation_returns (signals : list SentimentSignal) :
  exists c, compositeAggregation signals = Some c.
Proof.
  destruct (Qlt_le_dec 0 (totalWeight (accumulated signals))) as [Hpos|Hle].
  - rewrite aggregation_positive by done. eauto.
  - rewrite aggregation_guarded by lra. eauto.
Qed.

Section SentimentFacts.
Context `{NumberFormat}.

(** The signals of a result: what the three blocks push, in their order. *)
Lemma buildSentiment_unfold token requested outside builtAt :
  let sources := sourcesOf requested in
  let news := if wanted "news" sources then fetched_news outside else [] in
  let fearGreed :=
    if wanted "fear-greed" sources then fetched_fearGreed outside else None in
  exists fromNews onChain composite,
    newsSignals news = Some fromNews /\
    (if wanted "onchain" sources
     then Some <$> fetchOnChainSignals (fetched_coin outside)
     else Some None) = Some onChain /\
    compositeAggregation (fromNews ++ fearGreedSignals fearGreed ++ option_list onChain)
      = Some composite /\
    buildSentiment token requested outside builtAt =
      Some {| sr_token := token;
              sr_sources :=
                source <$> (fromNews ++ fearGreedSignals fearGreed ++ option_list onChain);
              sr_overall :=
                {| compositeScore := roundTo 3 (compositeScore composite);
                   compositeLabel := compositeLabel composite;
                   compositeConfidence := roundTo 3 (compositeConfidence composite) |};
              sr_signals := fromNews ++ fearGreedSignals fearGreed ++ option_list onChain;
              sr_news := take 5 news;
              sr_fearGreedIndex := fearGreed;
              sr_recommendation :=
                recommendationOf token
                  (length (fromNews ++ fearGreedSignals fearGreed ++ option_list onChain))
                  (compositeScore composite);
              sr_timestamp := builtAt;
              sr_live :=
                (0 <? length (fromNews ++ fearGreedSignals fearGreed
                                ++ option_list onChain))%nat |}.
Proof.
  intros sources news fearGreed. unfold buildSentiment. fold sources. fold news.
  fold fearGreed.
  destruct (newsSignals_range news) as (fromNews & Hnews & _).
  assert (exists onChain,
            (if wanted "onchain" sources
             then Some <$> fetchOnChainSignals (fetched_coin outside)
             else Some None) = Some onChain) as [onChain HonChain].
  { destruct (wanted "onchain" sources); [|eauto].
    destruct (fetchOnChainSignals_range (fetched_coin outside)) as (sig & -> & _). eauto. }
  destruct (aggregation_returns (fromNews ++ fearGreedSignals fearGreed ++ option_list onChain))
    as [composite Hcomposite].
  exists fromNews, onChain, composite.
  rewrite Hnews, HonChain. cbn [mbind option_bind]. rewrite Hcomposite.
  done.
Qed.

(** Property X10.  After a cache miss [fetchSentiment] builds a result
    whatever the three sources return: none of its divisions is by zero.
    When the Fear & Greed value is between 0 and 100 and the follower counts
    are not negative, every signal has a score between -1 and 1 and a
    confidence between 0 and 0.9, and the overall score and confidence are
    between -1 and 1 and between 0 and 0.35. *)
Theorem sentiment_is_always_built_and_stays_in_range token requested outside builtAt :
  (exists r, buildSentiment token requested outside builtAt = Some r) /\
  (forall r,
     plausible outside ->
     buildSentiment token requested outside builtAt = Some r ->
     Forall (fun sig => (-1 <= score sig /\ score sig <= 1) /\
                        (0 <= confidence sig /\ confidence sig <= 0.9)) (sr_signals r) /\
     (-1 <= compositeScore (sr_overall r) /\ compositeScore (sr_overall r) <= 1) /\
     (0 <= compositeConfidence (sr_overall r) /\
      compositeConfidence (sr_overall r) <= 0.35)).
Proof.
  destruct (buildSentiment_unfold token requested outside builtAt)
    as (fromNews & onChain & composite & Hnews & HonChain & Hcomposite & Hbuild).
  split; [rewrite Hbuild; eauto|].
  intros r [Hfg Hcoin] Hr. rewrite Hbuild in Hr. inversion Hr; subst r; clear Hr.
  cbn [sr_signals sr_overall compositeScore compositeConfidence].
  assert (Hall : Forall (fun sig => (-1 <= score sig /\ score sig <= 1) /\
                                    (0 <= confidence sig /\ confidence sig <= 0.9))
                   (fromNews
                      ++ fearGreedSignals
                           (if wanted "fear-greed" (sourcesOf requested)
                            then fetched_fearGreed outside else None)
                      ++ option_list onChain)).
  { apply Forall_app. split; [|apply Forall_app; split].
    - destruct (newsSignals_range
                  (if wanted "news" (sourcesOf requested) then fetched_news outside else []))
        as (sigs & Hsigs & _ & Hrange).
      rewrite Hnews in Hsigs. inversion Hsigs; subst sigs.
      eapply Forall_impl; [exact Hrange|]. by intros sig (_ & Hs & Hc).
    - apply fearGreedSignals_range. intros fg Hsome.
      destruct (wanted "fear-greed" _); [by apply Hfg | done].
    - destruct (wanted "onchain" (sourcesOf requested)).
      + destruct (fetchOnChainSignals_range (fetched_coin outside))
          as (sig & Hsig & Hc & Hs).
        rewrite Hsig in HonChain. inversion HonChain; subst onChain. simpl.
        constructor; [|constructor]. split; [by apply Hs | exact Hc].
      + inversion HonChain; subst onChain. constructor. }
  split; [exact Hall|].
  split.
  - apply roundTo3_unit;
      eapply (composite_score_between (-1) 1); try exact Hcomposite; try done;
      (eapply Forall_impl; [exact Hall|]; intros sig [[? ?] [? ?]]; done).
  - assert (0 <= compositeConfidence composite
            /\ compositeConfidence composite <= 0.35) as [Hc0 Hc1].
    { eapply composite_confidence_between; [|exact Hcomposite].
      eapply Forall_impl; [exact Hall|]. intros sig [_ [? ?]]. split; [done|lra]. }
    pose proof (roundTo3_nonneg (compositeConfidence composite) 350 Hc0) as Hround.
    change (inject_Z 350) with 350 in Hround.
    destruct Hround as [Hr0 Hr1]; [lra|]. split; [done|lra].
Qed.


(** Property X12.  The recommendation and the label of a composite score
    agree in direction, but their thresholds differ: a neutral label always
    comes with the hold recommendation, a bullish or bearish recommendation
    always with the label of its side, and a score above 0.25 and up to 0.3
    is labelled bullish while the recommendation is still to hold. *)
Theorem recommendation_takes_a_side_only_with_the_label token count s :
  (labelOf s = "neutral" -> recommendationOf token count s = holdText token) /\
  (recommendationOf token count s <> holdText token ->
     (0.3 < s /\ labelOf s = "bullish") \/ (s < -0.3 /\ labelOf s = "bearish")) /\
  (0.25 < s -> s <= 0.3 ->
     labelOf s = "bullish" /\ recommendationOf token count s = holdText token).
Proof.
  destruct (labelOf_thresholds s) as (Hbull & Hbear & Hneutral).
  assert (Hhold : -0.3 <= s -> s <= 0.3 -> recommendationOf token count s = holdText token).
  { intros Hlo Hhi. unfold recommendationOf.
    rewrite (proj2 (Qgtb_false s 0.3) Hhi), (proj2 (Qltb_false s (-0.3)) Hlo). done. }
  split; [|split].
  - intros Hn. apply Hneutral in Hn as [Hlo Hhi]. apply Hhold; lra.
  - intros Hside. destruct (Qlt_le_dec 0.3 s) as [Hup|Hle].
    + left. split; [done|]. apply Hbull. lra.
    + destruct (Qlt_le_dec s (-0.3)) as [Hdown|Hge].
      * right. split; [done|]. apply Hbear. lra.
      * destruct Hside. by apply Hhold.
  - intros Hlo Hhi. split; [by apply Hbull | apply Hhold; lra].
Qed.

(** Property X13.  When a request missed the cache and was answered, a
    second request for the same token and sources within 60000 ms of the
    store returns that answer again, whatever the sources would return now,
    and leaves the cache as it is; a later one builds a new result and
    stores it. *)
Theorem repeated_request_is_answered_from_the_cache
    cache checkedAt builtAt storedAt token requested outside result cache1
    checkedAt' builtAt' storedAt' outside' :
  let key := "sentiment:" +:+ token +:+ ":" +:+ requested in
  (getCached cache checkedAt key).1 = None ->
  fetchSentiment cache checkedAt builtAt storedAt token requested outside
    = Some (result, cache1) ->
  ((checkedAt' < storedAt + 60000)%Z ->
   fetchSentiment cache1 checkedAt' builtAt' storedAt' token requested outside'
     = Some (result, cache1)) /\
  ((storedAt + 60000 <= checkedAt')%Z ->
   fetchSentiment cache1 checkedAt' builtAt' storedAt' token requested outside'
     = (fresh ← buildSentiment token requested outside' builtAt';
        Some (setCache (delete key cache) storedAt' key fresh))).
Proof.
  intros key Hmiss Hfirst. unfold fetchSentiment in Hfirst. fold key in Hfirst.
  destruct (getCached cache checkedAt key) as [[cached|] cache0] eqn:Hget; [done|].
  assert (Hcache0 : cache0 = delete key cache).
  { unfold getCached in Hget. repeat case_match; by simplify_eq. }
  destruct (buildSentiment token requested outside builtAt) as [built|]; [|done].
  cbn [mbind option_bind] in Hfirst. inversion Hfirst; subst result cache1; clear Hfirst.
  destruct (setCache_then_getCached cache0 storedAt checkedAt' key built)
    as (Hfresh & Hstale & _).
  unfold setCache in Hfresh, Hstale. cbn [snd] in Hfresh, Hstale.
  unfold fetchSentiment, setCache. fold key. split.
  - intros Hlt. by rewrite (Hfresh Hlt).
  - intros Hge. rewrite (Hstale Hge). subst cache0. by rewrite delete_delete_eq.
Qed.

End SentimentFacts.

(** ** The agent *)

Lemma bind_Ok_inv {A B} (m : M A) (k : A -> M B) a y a' :
  bind m k a = (Ok y, a') ->
  exists x a1, m a = (Ok x, a1) /\ k x a1 = (Ok y, a').
Proof.
  unfold bind. destruct (m a) as [[x|e] a1]; [eauto | done].
Qed.

Lemma receiptsTotal_snoc rs r :
  receiptsTotal (rs ++ [r]) = receiptsTotal rs + rcpt_amountUSD r.
Proof. unfold receiptsTotal. by rewrite foldl_snoc. Qed.

Section AgentFacts.
Context `{NumberFormat}.

(** What [executeTool] has done when it returns. *)
Lemma executeTool_outcomes penv id params hint c a s data a' :
  executeTool penv id params hint c a = (Ok (s, data), a') ->
  exists t,
    findTool id (toolRegistry a) = Some t /\
    toolRegistry a' = toolRegistry a /\
    currentRun a' = currentRun a /\
    mandates (logger a') = mandates (logger a) /\
    riskAssessments (logger a') =
      riskAssessments (logger a) ++
        [assess (riskEngine a) (call_assessedAt c) ("tool:" +:+ tool_id t)
           (tool_priceUSD t) (toolMetadata t)] /\
    ((approved (assess (riskEngine a) (call_assessedAt c) ("tool:" +:+ tool_id t)
                  (tool_priceUSD t) (toolMetadata t)) = false /\
      step_type s = StepType.pay /\
      step_status s = StepStatus.failed /\
      step_costUSD s = Some (tool_priceUSD t) /\
      receipts (logger a') = receipts (logger a) /\
      riskEngine a' = riskEngine a)
     \/
     (approved (assess (riskEngine a) (call_assessedAt c) ("tool:" +:+ tool_id t)
                  (tool_priceUSD t) (toolMetadata t)) = true /\
      step_type s = StepType.execute /\
      step_status s = StepStatus.failed /\
      step_costUSD s = Some 0 /\
      receipts (logger a') = receipts (logger a) /\
      riskEngine a' = riskEngine a)
     \/
     (approved (assess (riskEngine a) (call_assessedAt c) ("tool:" +:+ tool_id t)
                  (tool_priceUSD t) (toolMetadata t)) = true /\
      step_type s = StepType.execute /\
      step_status s = StepStatus.success /\
      step_costUSD s = Some (actualCostUSD t c) /\
      (exists rc, rcpt_amountUSD rc = actualCostUSD t c /\
                  rcpt_tool rc = tool_id t /\
                  receipts (logger a') = receipts (logger a) ++ [rc]) /\
      riskEngine a' =
        recordAction (riskEngine a) (call_stampedAt c) (call_loggedAt c)
          ("tool:" +:+ tool_id t) (actualCostUSD t c) true)).
Proof.
  unfold executeTool, bind, gets, modify, ret, throw.
  destruct (findTool id (toolRegistry a)) as [t|] eqn:Hfind; [|done]. simpl.
  fold (toolMetadata t).
  destruct (approved (assess _ _ _ _ _)) eqn:Happ; simpl.
  - destruct (call_outcome c) as [msg|body] eqn:Hout.
    + intros [= <- <- <-]. exists t. simpl. do 5 (split; [done|]).
      right; left. done.
    + intros [= <- <- <-]. exists t. simpl. do 5 (split; [done|]).
      right; right. do 4 (split; [done|]). split; [|reflexivity].
      eexists. split; [|split; [|reflexivity]]; reflexivity.
  - intros [= <- <- <-]. exists t. simpl. do 5 (split; [done|]). left. done.
Qed.

(** When [executeTool] throws, it has changed nothing. *)
Lemma executeTool_throws penv id params hint c a e a' :
  executeTool penv id params hint c a = (Throw e, a') ->
  a' = a /\ findTool id (toolRegistry a) = None.
Proof.
  unfold executeTool, bind, gets, modify, ret, throw.
  destruct (findTool id (toolRegistry a)) as [t|] eqn:Hfind; [|by intros [= _ <-]].
  simpl. repeat case_match; done.
Qed.

(** *** Invariants of the phases

    A property of the agent that the updates of the run, the logging of a
    mandate and the paid calls of an environment keep is kept by every
    phase after the discovery. *)
Section PhaseInvariant.
Variable P : AriaAgent -> Prop.
Variable env : Env.
Hypothesis P_pushStep : forall s, keeps P (pushStep s).
Hypothesis P_addToTotalCost : forall s, keeps P (addToTotalCost s).
Hypothesis P_refresh : keeps P refreshBudgetRemaining.
Hypothesis P_logMandate :
  forall m, keeps P (modify (fun a => setLogger (logMandate m (logger a)) a)).
Hypothesis P_toolCalls :
  forall i id params hint,
    keeps P (executeTool (env_process env) id params hint (env_toolCalls env i)).
Hypothesis P_tradeCall :
  forall id params hint,
    keeps P (executeTool (env_process env) id params hint (env_tradeCall env)).

Lemma keeps_requireRun : keeps P requireRun.
Proof. intros a HP. unfold requireRun. by destruct (currentRun a). Qed.

#[local] Hint Resolve P_pushStep P_addToTotalCost P_refresh P_logMandate P_toolCalls
  P_tradeCall keeps_requireRun : keeps.

Lemma invariant_phasePlan objective : keeps P (phasePlan env objective).
Proof. unfold phasePlan. solve_keeps. Qed.

Lemma invariant_phaseAuthorize objective plan : keeps P (phaseAuthorize env objective plan).
Proof. unfold phaseAuthorize. solve_keeps. Qed.

Lemma invariant_executeSteps protocol steps :
  forall i results, keeps P (executeSteps env protocol steps i results).
Proof.
  induction steps as [|p rest IH]; intros i results; simpl; solve_keeps.
Qed.

Lemma invariant_phaseExecute plan mandate : keeps P (phaseExecute env plan mandate).
Proof.
  unfold phaseExecute. pose proof invariant_executeSteps. solve_keeps.
Qed.

Lemma invariant_phaseDecide results : keeps P (phaseDecide env results).
Proof. unfold phaseDecide. solve_keeps. Qed.

Lemma invariant_phaseTradeExecute decision : keeps P (phaseTradeExecute env decision).
Proof. unfold phaseTradeExecute. solve_keeps. Qed.

Lemma invariant_phaseReport objective : keeps P (phaseReport env objective).
Proof. unfold phaseReport. solve_keeps. Qed.

Lemma invariant_researchPhases objective : keeps P (researchPhases env objective).
Proof.
  unfold researchPhases.
  pose proof invariant_phasePlan. pose proof invariant_phaseAuthorize.
  pose proof invariant_phaseExecute. pose proof invariant_phaseDecide.
  pose proof invariant_phaseTradeExecute. pose proof invariant_phaseReport.
  solve_keeps.
Qed.

End PhaseInvariant.

(** [runPhases] is the discovery, the research phases and the "Finalize"
    block. *)
Lemma runPhases_split env objective budgetUSD a :
  runPhases env objective budgetUSD a =
    (phaseDiscover env ;!
     let! result := researchPhases env objective in
     finalize budgetUSD result) a.
Proof.
  unfold runPhases, researchPhases, bind.
  repeat (match goal with
          | |- context [match ?m ?x with _ => _ end] =>
              destruct (m x) as [[?|?] ?]; try done
          | |- context [match (if ?b then _ else _) ?x with _ => _ end] =>
              destruct b
          end).
Qed.

(** **** The run in progress *)

Lemma inProgress_pushStep id objective budgetUSD s :
  keeps (runInProgress id objective budgetUSD) (pushStep s).
Proof.
  intros a (r & Hrun & Hrest). unfold pushStep, updateRun. rewrite Hrun. simpl.
  eexists. split; [done|]. exact Hrest.
Qed.

Lemma inProgress_addToTotalCost id objective budgetUSD s :
  keeps (runInProgress id objective budgetUSD) (addToTotalCost s).
Proof.
  intros a (r & Hrun & Hrest). unfold addToTotalCost, updateRun. rewrite Hrun. simpl.
  eexists. split; [done|]. exact Hrest.
Qed.

Lemma inProgress_refresh id objective budgetUSD :
  keeps (runInProgress id objective budgetUSD) refreshBudgetRemaining.
Proof.
  intros a (r & Hrun & Hrest). unfold refreshBudgetRemaining, updateRun. rewrite Hrun. simpl.
  eexists. split; [done|]. exact Hrest.
Qed.

Lemma inProgress_same_run id objective budgetUSD (f : AriaAgent -> AriaAgent) :
  (forall a, currentRun (f a) = currentRun a) ->
  keeps (runInProgress id objective budgetUSD) (modify f).
Proof.
  intros Hf. apply keeps_modify. intros a (r & Hrun & Hrest).
  exists r. by rewrite Hf.
Qed.

Lemma inProgress_executeTool id objective budgetUSD penv toolId params hint c :
  keeps (runInProgress id objective budgetUSD) (executeTool penv toolId params hint c).
Proof.
  intros a (r & Hrun & Hrest).
  destruct (executeTool penv toolId params hint c a) as [[[s data]|e] a'] eqn:Hexec; simpl.
  - apply executeTool_outcomes in Hexec as (t & _ & _ & Hsame & _).
    exists r. by rewrite Hsame.
  - apply executeTool_throws in Hexec as [-> _]. by exists r.
Qed.

Lemma inProgress_phaseDiscover id objective budgetUSD env :
  keeps (runInProgress id objective budgetUSD) (phaseDiscover env).
Proof.
  unfold phaseDiscover, discoverTools.
  pose proof (inProgress_pushStep id objective budgetUSD).
  pose proof (inProgress_same_run id objective budgetUSD).
  solve_keeps.
Qed.

Lemma inProgress_researchPhases id objective budgetUSD env :
  keeps (runInProgress id objective budgetUSD) (researchPhases env objective).
Proof.
  apply invariant_researchPhases.
  - apply inProgress_pushStep.
  - apply inProgress_addToTotalCost.
  - apply inProgress_refresh.
  - intros m. by apply inProgress_same_run.
  - intros. apply inProgress_executeTool.
  - intros. apply inProgress_executeTool.
Qed.

(** The report phase returns the receipts and the summary of the logger as
    it leaves it. *)
Lemma phaseReport_result env objective a result a' :
  phaseReport env objective a = (Ok result, a') ->
  logger a' = logger a /\ riskEngine a' = riskEngine a /\
  res_receipts result = receipts (logger a') /\
  res_auditSummary result = getFullReportSummary (logger a').
Proof.
  unfold phaseReport, bind, requireRun, liftResult, gets, ret, pushStep, updateRun.
  destruct (currentRun a) as [r|] eqn:Hrun; [|done].
  destruct (env_reportReply env) as [reply|]; [|done]. simpl.
  destruct (getProp _ "summary"); [|done]. simpl.
  destruct (getProp _ "recommendation"); [|done]. simpl.
  destruct (getProp _ "keyFindings"); [|done]. simpl.
  rewrite Hrun. simpl. intros [= <- <-]. done.
Qed.

Lemma researchPhases_result env objective a result a' :
  researchPhases env objective a = (Ok result, a') ->
  res_receipts result = receipts (logger a') /\
  res_auditSummary result = getFullReportSummary (logger a').
Proof.
  unfold researchPhases. intros Hres.
  apply bind_Ok_inv in Hres as (plan & a1 & _ & Hres).
  apply bind_Ok_inv in Hres as (mandate & a2 & _ & Hres).
  apply bind_Ok_inv in Hres as (results & a3 & _ & Hres).
  apply bind_Ok_inv in Hres as (decision & a4 & _ & Hres).
  apply bind_Ok_inv in Hres as (action & a5 & _ & Hres).
  apply bind_Ok_inv in Hres as (? & a6 & _ & Hres).
  apply phaseReport_result in Hres. tauto.
Qed.

(** How [run] ends: completed, with the totals of the "Finalize" block, or
    failed, with the run as the throwing phase left it. *)
Lemma run_outcome env objective budgetUSD a :
  exists r,
    currentRun (run env objective budgetUSD a) = Some r /\
    run_id r = env_runId env /\
    run_objective r = objective /\
    run_budgetUSD r = budgetUSD /\
    ((run_status r = RunStatus.completed /\
      exists result,
        run_result r = Some result /\
        res_receipts result = receipts (logger (run env objective budgetUSD a)) /\
        res_auditSummary result
          = getFullReportSummary (logger (run env objective budgetUSD a)) /\
        run_totalCostUSD r
          = receiptsTotal (receipts (logger (run env objective budgetUSD a))) /\
        run_budgetRemainingUSD r = budgetUSD - run_totalCostUSD r)
     \/
     (run_status r = RunStatus.failed /\ run_result r = None)).
Proof.
  unfold run. rewrite runPhases_split.
  set (started := setCurrentRun (Some (newRun (env_runId env) objective budgetUSD)) a).
  assert (Hstart : runInProgress (env_runId env) objective budgetUSD started).
  { eexists. split; [done|]. done. }
  pose proof (inProgress_phaseDiscover _ _ _ env started Hstart) as H1.
  destruct (phaseDiscover env started) as [[tools|e] a1] eqn:Hd; simpl in H1.
  2:{ rewrite (bind_throw _ _ _ _ _ Hd). destruct H1 as (r & Hr & Hid & Hobj & Hb & _ & Hres).
      simpl. rewrite Hr. simpl. eexists. split; [done|]. simpl.
      do 3 (split; [done|]). by right. }
  rewrite (bind_ok _ _ _ _ _ Hd).
  pose proof (inProgress_researchPhases _ _ _ env a1 H1) as H2.
  destruct (researchPhases env objective a1) as [[result|e] a2] eqn:Hr2; simpl in H2.
  2:{ rewrite (bind_throw _ _ _ _ _ Hr2). destruct H2 as (r & Hr & Hid & Hobj & Hb & _ & Hres).
      simpl. rewrite Hr. simpl. eexists. split; [done|]. simpl.
      do 3 (split; [done|]). by right. }
  rewrite (bind_ok _ _ _ _ _ Hr2).
  destruct H2 as (r & Hr & Hid & Hobj & Hb & _ & _).
  apply researchPhases_result in Hr2 as [Hrcpt Hsum].
  unfold finalize, bind, gets, updateRun. rewrite Hr. simpl.
  eexists. split; [done|]. simpl. do 3 (split; [done|]). left. split; [done|].
  exists result. done.
Qed.

(** **** The ledger *)

Lemma ledger_start a0 : ledgerSince a0 a0.
Proof.
  exists []. rewrite app_nil_r. split; [done|]. split; [unfold receiptsTotal; simpl; ring|].
  split; [simpl; lia | done].
Qed.

Lemma ledger_same a0 a a' :
  riskEngine a' = riskEngine a ->
  receipts (logger a') = receipts (logger a) ->
  ledgerSince a0 a -> ledgerSince a0 a'.
Proof. intros He Hr (new & H1 & H2 & H3 & H4). exists new. by rewrite He, Hr. Qed.

Lemma ledger_updateRun a0 f : keeps (ledgerSince a0) (updateRun f).
Proof.
  intros a Hl. unfold updateRun. destruct (currentRun a); [|done].
  by apply (ledger_same a0 a).
Qed.

Lemma ledger_modify a0 (f : AriaAgent -> AriaAgent) :
  (forall a, riskEngine (f a) = riskEngine a) ->
  (forall a, receipts (logger (f a)) = receipts (logger a)) ->
  keeps (ledgerSince a0) (modify f).
Proof. intros He Hr. apply keeps_modify. intros a. by apply ledger_same. Qed.

Lemma ledger_executeTool a0 penv toolId params hint c :
  keeps (ledgerSince a0) (executeTool penv toolId params hint c).
Proof.
  intros a Hl.
  destruct (executeTool penv toolId params hint c a) as [[[s data]|e] a'] eqn:Hexec; simpl.
  - apply executeTool_outcomes in Hexec
      as (t & _ & _ & _ & _ & _ & [Hrej | [Hfail | Hpaid]]).
    + destruct Hrej as (_ & _ & _ & _ & Hr & He). by apply (ledger_same a0 a).
    + destruct Hfail as (_ & _ & _ & _ & Hr & He). by apply (ledger_same a0 a).
    + destruct Hpaid as (_ & _ & _ & _ & (rc & Hamount & _ & Hr) & He).
      destruct Hl as (new & H1 & H2 & H3 & H4).
      exists (new ++ [rc]). rewrite Hr, He, H1, receiptsTotal_snoc, Hamount. simpl.
      split; [by rewrite app_assoc|]. split; [rewrite H2; ring|].
      rewrite !length_app, H3. simpl. split; [lia | done].
  - apply executeTool_throws in Hexec as [-> _]. done.
Qed.

Lemma ledger_phaseDiscover a0 env : keeps (ledgerSince a0) (phaseDiscover env).
Proof.
  unfold phaseDiscover, discoverTools, pushStep.
  pose proof (ledger_updateRun a0). pose proof (ledger_modify a0).
  solve_keeps.
Qed.

Lemma ledger_researchPhases a0 env objective :
  keeps (ledgerSince a0) (researchPhases env objective).
Proof.
  apply invariant_researchPhases.
  - intros s. apply ledger_updateRun.
  - intros s. apply ledger_updateRun.
  - apply ledger_updateRun.
  - intros m. by apply ledger_modify.
  - intros. apply ledger_executeTool.
  - intros. apply ledger_executeTool.
Qed.

Lemma ledger_finalize a0 budgetUSD result : keeps (ledgerSince a0) (finalize budgetUSD result).
Proof. unfold finalize. pose proof (ledger_updateRun a0). solve_keeps. Qed.

Lemma ledger_run a0 env objective budgetUSD :
  forall a, ledgerSince a0 a -> ledgerSince a0 (run env objective budgetUSD a).
Proof.
  intros a Hl. unfold run.
  set (started := setCurrentRun (Some (newRun (env_runId env) objective budgetUSD)) a).
  assert (Hs : ledgerSince a0 started) by (by apply (ledger_same a0 a)).
  assert (Hk : keeps (ledgerSince a0) (runPhases env objective budgetUSD)).
  { intros x Hx. rewrite runPhases_split.
    pose proof (ledger_phaseDiscover a0 env). pose proof (ledger_researchPhases a0 env objective).
    pose proof (ledger_finalize a0 budgetUSD).
    assert (Hall : keeps (ledgerSince a0)
                     (phaseDiscover env ;!
                      let! result := researchPhases env objective in
                      finalize budgetUSD result)) by solve_keeps.
    by apply Hall. }
  specialize (Hk started Hs).
  destruct (runPhases env objective budgetUSD started) as [[?|e] a']; simpl in Hk; [done|].
  by apply (ledger_same a0 a').
Qed.

(** **** The daily limit *)

Lemma findTool_registered toolId registry t :
  findTool toolId registry = Some t -> t ∈ registry.
Proof.
  unfold findTool. destruct toolId; try done. intros Hfind.
  apply find_some in Hfind as [Hin _]. by apply list_elem_of_In.
Qed.

Lemma dailyLimit_same tools a a' :
  toolRegistry a' = toolRegistry a -> riskEngine a' = riskEngine a ->
  withinDailyLimit tools a -> withinDailyLimit tools a'.
Proof. intros Hr He [H1 H2]. split; [congruence | by rewrite He]. Qed.

Lemma dailyLimit_updateRun tools f : keeps (withinDailyLimit tools) (updateRun f).
Proof.
  intros a Hl. unfold updateRun. destruct (currentRun a); [|done].
  by apply (dailyLimit_same tools a).
Qed.

Lemma dailyLimit_executeTool tools penv toolId params hint c :
  chargesWithinPrice tools c ->
  keeps (withinDailyLimit tools) (executeTool penv toolId params hint c).
Proof.
  intros Hcharge a Hl.
  destruct (executeTool penv toolId params hint c a) as [[[s data]|e] a'] eqn:Hexec; simpl.
  - apply executeTool_outcomes in Hexec
      as (t & Hfind & Hreg & _ & _ & _ & [Hrej | [Hfail | Hpaid]]).
    + destruct Hrej as (_ & _ & _ & _ & _ & He). by apply (dailyLimit_same tools a).
    + destruct Hfail as (_ & _ & _ & _ & _ & He). by apply (dailyLimit_same tools a).
    + destruct Hpaid as (Happ & _ & _ & _ & _ & He). destruct Hl as [Htools Hlimit].
      split; [congruence|]. rewrite He. simpl.
      apply approved_conditions in Happ as (Hdaily & _).
      assert (Hactual : actualCostUSD t c <= tool_priceUSD t).
      { unfold actualCostUSD. destruct (call_costEstimate c) as [est|] eqn:Hest; simpl.
        - apply (Hcharge est t Hest). rewrite <- Htools. by eapply findTool_registered.
        - apply Qle_refl. }
      lra.
  - apply executeTool_throws in Hexec as [-> _]. done.
Qed.

Lemma phaseDiscover_effect env a :
  riskEngine (phaseDiscover env a).2 = riskEngine a /\
  forall tools, (phaseDiscover env a).1 = Ok tools ->
                env_tools env = Ok tools /\ toolRegistry (phaseDiscover env a).2 = tools.
Proof.
  unfold phaseDiscover, discoverTools, bind, liftResult, modify, ret, pushStep, updateRun.
  destruct (env_tools env) as [tools|e]; simpl; [|done].
  destruct (currentRun a); simpl; [|done]. split; [done|]. by intros ? [= <-].
Qed.

Lemma dailyLimit_run env objective budgetUSD a :
  (forall tools, env_tools env = Ok tools ->
     chargesWithinPrice tools (env_tradeCall env) /\
     forall i, chargesWithinPrice tools (env_toolCalls env i)) ->
  dailySpent (riskEngine a) <= dailyLimitUSD (policy (riskEngine a)) ->
  dailySpent (riskEngine (run env objective budgetUSD a))
    <= dailyLimitUSD (policy (riskEngine (run env objective budgetUSD a))).
Proof.
  intros Hcharge Hlimit. unfold run. rewrite runPhases_split.
  set (started := setCurrentRun (Some (newRun (env_runId env) objective budgetUSD)) a).
  destruct (phaseDiscover_effect env started) as [Hengine Hfound].
  destruct (phaseDiscover env started) as [[tools|e] a1] eqn:Hd; simpl in *.
  2:{ rewrite (bind_throw _ _ _ _ _ Hd). simpl. by rewrite Hengine. }
  rewrite (bind_ok _ _ _ _ _ Hd).
  destruct (Hfound tools eq_refl) as [Henv Hreg].
  destruct (Hcharge tools Henv) as [Htrade Hcalls].
  assert (H1 : withinDailyLimit tools a1) by (split; [done | by rewrite Hengine]).
  assert (Hk : keeps (withinDailyLimit tools)
                 (let! result := researchPhases env objective in
                  finalize budgetUSD result)).
  { apply keeps_bind.
    - apply invariant_researchPhases.
      + intros s. apply dailyLimit_updateRun.
      + intros s. apply dailyLimit_updateRun.
      + apply dailyLimit_updateRun.
      + intros m. apply keeps_modify. intros x. by apply dailyLimit_same.
      + intros. by apply dailyLimit_executeTool.
      + intros. by apply dailyLimit_executeTool.
    - intros result. unfold finalize. pose proof (dailyLimit_updateRun tools). solve_keeps. }
  specialize (Hk a1 H1).
  destruct ((let! result := researchPhases env objective in finalize budgetUSD result) a1)
    as [[?|e] a2]; simpl in Hk |- *; by destruct Hk.
Qed.

(** **** The loop of the Execute phase *)

Lemma receiptsTotal_from (x : Q) rs :
  foldl (fun sum r => sum + rcpt_amountUSD r) x rs == x + receiptsTotal rs.
Proof.
  unfold receiptsTotal. revert x. induction rs as [|r rs IH]; intros x; simpl; [ring|].
  rewrite (IH (x + rcpt_amountUSD r)), (IH (0 + rcpt_amountUSD r)). ring.
Qed.

Lemma receiptsTotal_app rs1 rs2 :
  receiptsTotal (rs1 ++ rs2) == receiptsTotal rs1 + receiptsTotal rs2.
Proof. unfold receiptsTotal at 1. rewrite foldl_app. apply receiptsTotal_from. Qed.

Lemma liftResult_Ok_inv {A} (r : Result A) a x a' :
  liftResult r a = (Ok x, a') -> r = Ok x /\ a' = a.
Proof. unfold liftResult. by intros [= -> ->]. Qed.

Lemma executeSteps_accounts env protocol steps :
  forall i results a r results' a',
    currentRun a = Some r ->
    executeSteps env protocol steps i results a = (Ok results', a') ->
    exists ran r' new,
      results' = results ++ ran /\
      length ran = length steps /\
      currentRun a' = Some r' /\
      run_steps r' = run_steps r ++ (result_step <$> ran) /\
      run_status r' = run_status r /\
      run_budgetUSD r' = run_budgetUSD r /\
      run_totalCostUSD r'
        == run_totalCostUSD r + Qsum (costOrZero <$> (result_step <$> ran)) /\
      (ran <> [] -> run_budgetRemainingUSD r' == run_budgetUSD r - run_totalCostUSD r') /\
      (ran = [] -> r' = r) /\
      receipts (logger a') = receipts (logger a) ++ new /\
      receiptsTotal new
        == Qsum (costOrZero <$>
                   List.filter (fun s => negb (isRejection s)) (result_step <$> ran)).
Proof.
  induction steps as [|p rest IH]; intros i results a r results' a' Hrun Hexec.
  - simpl in Hexec. inversion Hexec; subst. exists [], r, [].
    rewrite !app_nil_r. simpl. repeat split; try done.
    unfold Qsum. simpl. ring.
  - rewrite executeSteps_cons in Hexec.
    apply bind_Ok_inv in Hexec as (tool & a1 & Htool & Hexec).
    apply liftResult_Ok_inv in Htool as [Htool ->].
    apply bind_Ok_inv in Hexec as (params & a1 & Hparams & Hexec).
    apply liftResult_Ok_inv in Hparams as [Hparams ->].
    apply bind_Ok_inv in Hexec as ([s data] & a1 & Hcall & Hexec).
    apply executeTool_outcomes in Hcall as (t & _ & _ & Hsame & _ & _ & Hcases).
    rewrite recordStep_then with (r := r) in Hexec by congruence.
    destruct (IH (S i) _ (setCurrentRun (Some (recordStep s r)) a1) (recordStep s r)
                results' a' eq_refl Hexec)
      as (ran & r' & new & -> & Hlen & Hrun' & Hsteps & Hstatus & Hbudget & Htotal & Hrem
          & Hnone & Hrcpt & Hsum).
    simpl in Hsteps, Hstatus, Hbudget, Htotal, Hrem, Hrcpt.
    set (entry := {| result_tool := tool; result_data := data; result_step := s |}).
    assert (Hremaining : run_budgetRemainingUSD r' == run_budgetUSD r - run_totalCostUSD r').
    { destruct ran as [|x ran]; [|apply Hrem; done].
      rewrite (Hnone eq_refl). simpl. reflexivity. }
    assert (Hreceipts :
              exists mine,
                receipts (logger a1) = receipts (logger a) ++ mine /\
                receiptsTotal mine
                  == (if negb (isRejection s) then costOrZero s else 0)).
    { destruct Hcases as [Hrej | [Hfail | Hpaid]].
      - destruct Hrej as (_ & Htype & _ & _ & Hr & _). exists [].
        rewrite app_nil_r. split; [done|]. unfold isRejection. rewrite Htype. reflexivity.
      - destruct Hfail as (_ & Htype & _ & Hcost & Hr & _). exists [].
        rewrite app_nil_r. split; [done|]. unfold isRejection. rewrite Htype. simpl.
        rewrite (costOrZero_eq s 0 Hcost). reflexivity.
      - destruct Hpaid as (_ & Htype & _ & Hcost & (rc & Hamount & _ & Hr) & _).
        exists [rc]. split; [done|]. unfold isRejection. rewrite Htype. simpl.
        rewrite (costOrZero_eq s _ Hcost), <- Hamount.
        unfold receiptsTotal. cbn [foldl]. apply Qplus_0_l. }
    destruct Hreceipts as (mine & Hmine & Hminesum).
    exists (entry :: ran), r', (mine ++ new).
    split; [by rewrite <- app_assoc|]. split; [simpl; lia|]. split; [done|].
    split; [rewrite Hsteps; simpl; by rewrite <- app_assoc|].
    split; [done|]. split; [done|].
    split.
    { rewrite Htotal. unfold entry. rewrite !fmap_cons, Qsum_cons. cbn [result_step]. ring. }
    split; [done|]. split; [done|].
    split; [rewrite Hrcpt, Hmine; by rewrite app_assoc|].
    rewrite receiptsTotal_app, Hminesum, Hsum. unfold entry.
    rewrite fmap_cons. cbn [result_step List.filter].
    destruct (negb (isRejection s)); rewrite ?fmap_cons, ?Qsum_cons; ring.
Qed.

(** **** The run as a whole *)

(** Property X14.  [run] never leaves a run running: whatever the
    environment does, the agent's current run afterwards has the identifier,
    objective and budget [run] was called with, and it is either completed
    with a result or failed without one. *)
Theorem run_returns_a_finished_run env objective budgetUSD a :
  exists r,
    currentRun (run env objective budgetUSD a) = Some r /\
    run_id r = env_runId env /\
    run_objective r = objective /\
    run_budgetUSD r = budgetUSD /\
    ((run_status r = RunStatus.completed /\ is_Some (run_result r)) \/
     (run_status r = RunStatus.failed /\ run_result r = None)).
Proof.
  destruct (run_outcome env objective budgetUSD a)
    as (r & Hr & Hid & Hobj & Hb & [[Hdone (result & Hres & _)] | Hfailed]).
  - exists r. do 4 (split; [done|]). left. split; [done|]. by rewrite Hres.
  - exists r. do 4 (split; [done|]). by right.
Qed.

(** Property X15.  A completed run reports the audit log: its total cost is
    the sum of all receipts of the agent's logger, from earlier runs of the
    agent too, its remaining budget is the budget minus that sum, and the
    result holds these receipts and a summary with the same total and count. *)
Theorem completed_run_reports_the_receipts_of_the_logger env objective budgetUSD a r :
  currentRun (run env objective budgetUSD a) = Some r ->
  run_status r = RunStatus.completed ->
  run_totalCostUSD r = receiptsTotal (receipts (logger (run env objective budgetUSD a))) /\
  run_budgetRemainingUSD r = budgetUSD - run_totalCostUSD r /\
  exists result,
    run_result r = Some result /\
    res_receipts result = receipts (logger (run env objective budgetUSD a)) /\
    totalSpentUSD (res_auditSummary result) = run_totalCostUSD r /\
    totalPayments (res_auditSummary result)
      = length (receipts (logger (run env objective budgetUSD a))).
Proof.
  intros Hrun Hstatus.
  destruct (run_outcome env objective budgetUSD a)
    as (r' & Hr & _ & _ & _ & [[_ (result & Hres & Hrcpt & Hsum & Htotal & Hrem)] | [Hf _]]).
  - rewrite Hrun in Hr. inversion Hr; subst r'. split; [done|]. split; [done|].
    exists result. split; [done|]. split; [done|]. rewrite Hsum, Htotal. done.
  - rewrite Hrun in Hr. inversion Hr; subst r'. congruence.
Qed.

(** Property X16.  The risk engine and the audit log stay in step over a
    run: receipts are only appended, the spent total of the engine grows by
    the sum of the new receipts, the engine logs one action per new receipt,
    and the policy is unchanged. This holds for a failed run as well. *)
Theorem run_adds_receipts_and_spend_together env objective budgetUSD a :
  exists new,
    receipts (logger (run env objective budgetUSD a)) = receipts (logger a) ++ new /\
    dailySpent (riskEngine (run env objective budgetUSD a))
      == dailySpent (riskEngine a) + receiptsTotal new /\
    length (actionLog (riskEngine (run env objective budgetUSD a)))
      = (length (actionLog (riskEngine a)) + length new)%nat /\
    policy (riskEngine (run env objective budgetUSD a)) = policy (riskEngine a).
Proof. apply (ledger_run a env objective budgetUSD a), ledger_start. Qed.


(** Property X18.  When the Execute phase returns, it has appended one step
    per planned step, in order, left the status and the budget of the run
    alone, added the cost of every step to the total cost and set the
    remaining budget to budget minus total. The receipts it added sum to the
    costs of the steps the risk engine did not reject. *)
Theorem execute_phase_accounts_for_every_step env plan mandate a r results a' :
  currentRun a = Some r ->
  phaseExecute env plan mandate a = (Ok results, a') ->
  exists r' new,
    currentRun a' = Some r' /\
    run_steps r' = run_steps r ++ (result_step <$> results) /\
    run_status r' = run_status r /\
    run_budgetUSD r' = run_budgetUSD r /\
    run_totalCostUSD r'
      == run_totalCostUSD r + Qsum (costOrZero <$> (result_step <$> results)) /\
    (results <> [] -> run_budgetRemainingUSD r' == run_budgetUSD r - run_totalCostUSD r') /\
    (results = [] -> r' = r) /\
    receipts (logger a') = receipts (logger a) ++ new /\
    receiptsTotal new
      == Qsum (costOrZero <$>
                 List.filter (fun s => negb (isRejection s)) (result_step <$> results)) /\
    (forall p, getProp plan "plan" = Ok p ->
               length results = length (stepsOf (jsOr p (JArr [])))).
Proof.
  intros Hrun Hexec. unfold phaseExecute in Hexec.
  apply bind_Ok_inv in Hexec as (p & a1 & Hp & Hexec).
  apply liftResult_Ok_inv in Hp as [Hp ->].
  destruct (executeSteps_accounts _ _ _ _ _ _ _ _ _ Hrun Hexec)
    as (ran & r' & new & Hres & Hlen & Hrest).
  simpl in Hres. subst ran. exists r', new.
  destruct Hrest as (H1 & H2 & H3 & H4 & H5 & H6 & H7 & H8 & H9).
  do 9 (split; [done|]). intros p' Hp'. rewrite Hp in Hp'. by inversion Hp'; subst p'.
Qed.

(** Property X19.  The trade phase appends its step and adds its cost to the
    total cost of the run, but does not update the remaining budget: until
    the run is finalized, remaining and budget minus total differ by the
    cost of the trade. *)
Theorem trade_step_leaves_the_remaining_budget_stale env decision action a r a' :
  currentRun a = Some r ->
  getProp decision "action" = Ok action ->
  truthy action = true ->
  phaseTradeExecute env decision a = (Ok tt, a') ->
  exists r' s,
    currentRun a' = Some r' /\
    run_steps r' = run_steps r ++ [s] /\
    run_totalCostUSD r' = run_totalCostUSD r + costOrZero s /\
    run_budgetUSD r' = run_budgetUSD r /\
    run_budgetRemainingUSD r' = run_budgetRemainingUSD r.
Proof.
  intros Hrun Haction Htruthy Htrade. unfold phaseTradeExecute in Htrade.
  apply bind_Ok_inv in Htrade as (action' & a1 & Ha & Htrade).
  apply liftResult_Ok_inv in Ha as [Ha ->].
  rewrite Haction in Ha. inversion Ha; subst action'. rewrite Htruthy in Htrade. simpl in Htrade.
  apply bind_Ok_inv in Htrade as (tool & a1 & Htool & Htrade).
  apply liftResult_Ok_inv in Htool as [Htool ->].
  apply bind_Ok_inv in Htrade as (params & a1 & Hparams & Htrade).
  apply liftResult_Ok_inv in Hparams as [Hparams ->].
  apply bind_Ok_inv in Htrade as ([s data] & a1 & Hcall & Htrade).
  apply executeTool_outcomes in Hcall as (t & _ & _ & Hsame & _).
  unfold bind, pushStep, addToTotalCost, updateRun in Htrade.
  rewrite Hsame, Hrun in Htrade. simpl in Htrade. inversion Htrade; subst a'.
  eexists _, s. simpl. done.
Qed.

End AgentFacts.

(** *** Cost estimates *)

Lemma estimate_from (registry : list PaidTool) (x : Q) ids :
  foldl (fun sum id =>
           sum + match truthyNumber (tool_priceUSD <$> findTool id registry) with
                 | Some p => p
                 | None => 0
                 end) x ids
  == x + estimateWorkflowCost registry ids.
Proof.
  unfold estimateWorkflowCost. revert x. induction ids as [|id ids IH]; intros x; simpl.
  - ring.
  - rewrite (IH (x + _)), (IH (0 + _)). ring.
Qed.


Section AgentFacts2.
Context `{NumberFormat}.

(** Property X21.  During a run the Authorize phase never throws on a plan
    whose cost can be read and whose steps can be listed: it appends one
    step, authorize, and leaves the status and the total cost of the run,
    the risk engine and the receipts as they are. It returns a mandate only
    when the endpoint authorized one; otherwise the step is failed, carries
    the error, and the phase returns null. *)
Theorem mandate_failure_does_not_block_the_run env objective plan a r declared toolIds :
  currentRun a = Some r ->
  getProp plan "estimatedCostUSD" = Ok declared ->
  plannedTools plan = Ok toolIds ->
  exists mandate a' r' s,
    phaseAuthorize env objective plan a = (Ok mandate, a') /\
    currentRun a' = Some r' /\
    run_steps r' = run_steps r ++ [s] /\
    step_id s = "authorize" /\
    run_status r' = run_status r /\
    run_totalCostUSD r' = run_totalCostUSD r /\
    riskEngine a' = riskEngine a /\
    receipts (logger a') = receipts (logger a) /\
    match mandate with
    | Some m =>
        step_status s = StepStatus.success /\
        exists created, env_mandate env = MandateAuthorized created m
    | None =>
        step_status s = StepStatus.failed /\ is_Some (step_error s)
    end.
Proof.
  intros Hrun Hdeclared Htools.
  unfold phaseAuthorize, bind, liftResult, modify, ret, pushStep, updateRun.
  rewrite Hdeclared, Htools. simpl.
  destruct (env_mandate env) as [msg|created msg|created authorized] eqn:Hmandate; simpl.
  - rewrite Hrun. simpl. eexists None, _, _, _. split; [done|]. simpl.
    do 7 (split; [done|]). split; [done|eauto].
  - rewrite Hrun. simpl. eexists None, _, _, _. split; [done|]. simpl.
    do 7 (split; [done|]). split; [done|eauto].
  - destruct (jsOr declared (JNum 0.5)) eqn:Hcost; simpl; rewrite Hrun; simpl;
      try (eexists None, _, _, _; split; [done|]; simpl;
           do 7 (split; [done|]); split; [done|eauto]).
    eexists (Some authorized), _, _, _. split; [done|]. simpl.
    do 7 (split; [done|]). split; [done|eauto].
Qed.

(** Property X22.  When the catalogue is available and the language model
    answers the three prompts in prose, the run completes with the steps
    discover, plan, authorize, decide and report: no tool is called, nothing
    is paid or recorded by the risk engine, and the summary of the result is
    the text of the report reply. *)
Theorem run_completes_without_paying_when_no_reply_is_json
    env objective budgetUSD a tools planText decideText reportText :
  env_tools env = Ok tools ->
  env_planReply env = Ok {| reply_text := planText; reply_parsed := None |} ->
  env_decideReply env = Ok {| reply_text := decideText; reply_parsed := None |} ->
  env_reportReply env = Ok {| reply_text := reportText; reply_parsed := None |} ->
  exists r result,
    currentRun (run env objective budgetUSD a) = Some r /\
    run_status r = RunStatus.completed /\
    step_id <$> run_steps r = ["discover"; "plan"; "authorize"; "decide"; "report"] /\
    run_result r = Some result /\
    res_summary result = JStr reportText /\
    res_recommendation result = JStr "See full logs" /\
    receipts (logger (run env objective budgetUSD a)) = receipts (logger a) /\
    riskEngine (run env objective budgetUSD a) = riskEngine a /\
    run_totalCostUSD r = receiptsTotal (receipts (logger a)) /\
    run_budgetRemainingUSD r = budgetUSD - receiptsTotal (receipts (logger a)).
Proof.
  intros Htools Hplan Hdecide Hreport.
  unfold run, runPhases, phaseDiscover, discoverTools, phasePlan, phaseAuthorize,
    phaseExecute, phaseDecide, phaseTradeExecute, phaseReport, finalize,
    bind, liftResult, modify, gets, ret, throw, pushStep, updateRun, requireRun.
  rewrite Htools, Hplan, Hdecide, Hreport. simpl.
  destruct (env_mandate env); simpl; eexists _, _; (split; [reflexivity|]); simpl;
    repeat split; reflexivity.
Qed.

End AgentFacts2.

(** *** The budget of a run *)

Lemma respects_ret {A} (x : A) : respects (ret x).
Proof. by intros a1 a2 Hs. Qed.

Lemma respects_throw {A} e : respects (@throw A e).
Proof. by intros a1 a2 Hs. Qed.

Lemma respects_liftResult {A} (r : Result A) : respects (liftResult r).
Proof. by intros a1 a2 Hs. Qed.

Lemma respects_bind {A B} (m : M A) (k : A -> M B) :
  respects m -> (forall x, respects (k x)) -> respects (bind m k).
Proof.
  intros Hm Hk a1 a2 Hs. unfold bind. destruct (Hm a1 a2 Hs) as [Hres Hs'].
  destruct (m a1) as [[x|e] a1'], (m a2) as [[y|e'] a2']; simpl in *; try done.
  - inversion Hres; subst y. by apply Hk.
  - inversion Hres; subst e'. by split.
Qed.

Lemma respects_gets_toolRegistry : respects (gets toolRegistry).
Proof. intros a1 a2 Hs. split; [|done]. simpl. by destruct Hs as (_ & _ & -> & _). Qed.

Lemma respects_gets_riskEngine : respects (gets riskEngine).
Proof. intros a1 a2 Hs. split; [|done]. simpl. by destruct Hs as (-> & _). Qed.

Lemma respects_gets_logger : respects (gets logger).
Proof. intros a1 a2 Hs. split; [|done]. simpl. by destruct Hs as (_ & -> & _). Qed.

Lemma respects_setLogger (f : AuditLogger -> AuditLogger) :
  respects (modify (fun a => setLogger (f (logger a)) a)).
Proof.
  intros a1 a2 (He & Hl & Hr & Hrun). split; [done|]. simpl.
  split; [done|]. split; [by rewrite Hl|]. done.
Qed.

Lemma respects_setRiskEngine (f : RiskEngine -> RiskEngine) :
  respects (modify (fun a => setRiskEngine (f (riskEngine a)) a)).
Proof.
  intros a1 a2 (He & Hl & Hr & Hrun). split; [done|]. simpl.
  split; [by rewrite He|]. done.
Qed.

Lemma respects_setToolRegistry tools : respects (modify (setToolRegistry tools)).
Proof. intros a1 a2 (He & Hl & Hr & Hrun). split; [done|]. simpl. done. Qed.

Lemma respects_updateRun (f g : WorkflowRun -> WorkflowRun) :
  (forall r1 r2, sameRun r1 r2 -> sameRun (f r1) (g r2)) ->
  forall a1 a2, sameButBudget a1 a2 ->
    (updateRun f a1).1 = (updateRun g a2).1 /\
    sameButBudget (updateRun f a1).2 (updateRun g a2).2.
Proof.
  intros Hf a1 a2 (He & Hl & Hr & Hrun). unfold updateRun.
  destruct (currentRun a1) as [r1|] eqn:H1, (currentRun a2) as [r2|] eqn:H2; try done.
  - simpl. split; [done|]. split; [done|]. split; [done|]. split; [done|]. by apply Hf.
  - simpl. split; [done|]. unfold sameButBudget. by rewrite H1, H2.
Qed.

Lemma respects_pushStep s : respects (pushStep s).
Proof.
  intros a1 a2 Hs. unfold pushStep. apply respects_updateRun; [|done].
  intros r1 r2 (? & ? & ? & Hsteps & ? & ?).
  unfold sameRun. simpl. by rewrite Hsteps.
Qed.

Lemma respects_addToTotalCost s : respects (addToTotalCost s).
Proof.
  intros a1 a2 Hs. unfold addToTotalCost. apply respects_updateRun; [|done].
  intros r1 r2 (? & ? & ? & ? & Htotal & ?).
  unfold sameRun. simpl. by rewrite Htotal.
Qed.

Lemma respects_refresh : respects refreshBudgetRemaining.
Proof.
  intros a1 a2 Hs. unfold refreshBudgetRemaining. apply respects_updateRun; [|done].
  by intros r1 r2 Hr.
Qed.

(** [requireRun] returns the run, the rest of the phase does not use it. *)
Lemma respects_after_requireRun {B} (k : M B) :
  respects k -> respects (let! _ := requireRun in k).
Proof.
  intros Hk a1 a2 Hs. unfold bind, requireRun.
  pose proof Hs as (_ & _ & _ & Hrun).
  destruct (currentRun a1), (currentRun a2); try done. by apply Hk.
Qed.

Create HintDb respects.
#[local] Hint Resolve respects_ret respects_throw respects_liftResult
  respects_gets_toolRegistry respects_gets_riskEngine respects_gets_logger
  respects_setToolRegistry respects_pushStep respects_addToTotalCost respects_refresh
  : respects.
#[local] Hint Extern 1 (respects (bind requireRun _)) =>
  apply respects_after_requireRun : respects.
#[local] Hint Extern 2 (respects (bind _ _)) => apply respects_bind; [|intros] : respects.
#[local] Hint Extern 2 (respects (modify (fun a => setLogger _ a))) =>
  apply (respects_setLogger (fun l => _)) : respects.
#[local] Hint Extern 2 (respects (modify (fun a => setRiskEngine _ a))) =>
  apply (respects_setRiskEngine (fun e => _)) : respects.
#[local] Hint Extern 4 (respects (match ?x with _ => _ end)) => destruct x : respects.
#[local] Hint Extern 4 (respects (if ?x then _ else _)) => destruct x : respects.
#[local] Hint Extern 4 (respects (let (_, _) := ?x in _)) => destruct x : respects.

Ltac solve_respects := auto 30 with respects.

Section BudgetFacts.
Context `{NumberFormat}.

Lemma respects_executeTool penv id params hint c :
  respects (executeTool penv id params hint c).
Proof.
  unfold executeTool.
  apply respects_bind; [apply respects_gets_toolRegistry|]. intros registry.
  destruct (findTool id registry) as [t|]; [|solve_respects].
  apply respects_bind; [apply respects_gets_riskEngine|]. intros engine.
  apply respects_bind.
  { apply (respects_setLogger (logRiskAssessment _)). }
  intros _. destruct (negb _); [solve_respects|].
  destruct (call_outcome c); [solve_respects|].
  apply respects_bind.
  { apply (respects_setRiskEngine
             (fun e => recordAction e (call_stampedAt c) (call_loggedAt c) _ _ true)). }
  intros _. apply respects_bind; [|intros; solve_respects].
  apply (respects_setLogger (logPayment _)).
Qed.

Lemma respects_phaseDiscover env : respects (phaseDiscover env).
Proof. unfold phaseDiscover, discoverTools. solve_respects. Qed.

Lemma respects_phasePlan env objective : respects (phasePlan env objective).
Proof. unfold phasePlan. solve_respects. Qed.

Lemma respects_phaseAuthorize env objective plan :
  respects (phaseAuthorize env objective plan).
Proof.
  unfold phaseAuthorize.
  assert (Hlog : forall m, respects (modify (fun a => setLogger (logMandate m (logger a)) a)))
    by (intros m; apply (respects_setLogger (logMandate m))).
  solve_respects.
Qed.

Lemma respects_executeSteps env protocol steps :
  forall i results, respects (executeSteps env protocol steps i results).
Proof.
  induction steps as [|p rest IH]; intros i results; simpl; [solve_respects|].
  pose proof respects_executeTool. solve_respects.
Qed.

Lemma respects_phaseExecute env plan mandate : respects (phaseExecute env plan mandate).
Proof. unfold phaseExecute. pose proof respects_executeSteps. solve_respects. Qed.

Lemma respects_phaseDecide env results : respects (phaseDecide env results).
Proof. unfold phaseDecide. solve_respects. Qed.

Lemma respects_phaseTradeExecute env decision : respects (phaseTradeExecute env decision).
Proof. unfold phaseTradeExecute. pose proof respects_executeTool. solve_respects. Qed.

Lemma respects_phaseReport env objective : respects (phaseReport env objective).
Proof. unfold phaseReport. solve_respects. Qed.

Lemma respects_researchPhases env objective : respects (researchPhases env objective).
Proof.
  unfold researchPhases.
  pose proof respects_phasePlan. pose proof respects_phaseAuthorize.
  pose proof respects_phaseExecute. pose proof respects_phaseDecide.
  pose proof respects_phaseTradeExecute. pose proof respects_phaseReport.
  solve_respects.
Qed.

(** The "Finalize" block with two budgets. *)
Lemma finalize_two_budgets budget1 budget2 result a1 a2 :
  sameButBudget a1 a2 ->
  (finalize budget1 result a1).1 = (finalize budget2 result a2).1 /\
  sameButBudget (finalize budget1 result a1).2 (finalize budget2 result a2).2.
Proof.
  intros Hs. unfold finalize, bind, gets. simpl.
  pose proof Hs as (_ & Hl & _). rewrite Hl.
  apply respects_updateRun; [|done]. intros r1 r2 (? & ? & ? & ? & ? & ?).
  unfold sameRun. simpl. done.
Qed.


End BudgetFacts.

Section ToolCallChecks.
Context `{NumberFormat}.

(** Property X24.  [executeTool] gives [assess] the listed price and the
    category of the tool and nothing else. So a call that returns was let
    through by the risk engine exactly when the price fits the daily and the
    per-transaction limit, the cooldown has elapsed and the category is
    empty or allowed; the token, chain and slippage checks never apply to a
    tool call. *)
Theorem tool_call_is_rejected_on_four_checks_only penv id params hint c a s data a' :
  executeTool penv id params hint c a = (Ok (s, data), a') ->
  exists t,
    findTool id (toolRegistry a) = Some t /\
    (step_type s = StepType.pay \/ step_type s = StepType.execute) /\
    (step_type s = StepType.execute <->
     dailySpent (riskEngine a) + tool_priceUSD t <= dailyLimitUSD (policy (riskEngine a)) /\
     tool_priceUSD t <= perTransactionLimitUSD (policy (riskEngine a)) /\
     (cooldownMs (policy (riskEngine a))
        <= inject_Z (call_assessedAt c - lastActionTimestamp (riskEngine a))
      \/ (lastActionTimestamp (riskEngine a) <= 0)%Z) /\
     (tool_category t = EmptyString
      \/ tool_category t ∈ allowedCategories (policy (riskEngine a)))).
Proof.
  intros Hexec.
  apply executeTool_outcomes in Hexec as (t & Hfind & _ & _ & _ & _ & Hcases).
  exists t. split; [done|].
  assert (Hiff : approved (assess (riskEngine a) (call_assessedAt c) ("tool:" +:+ tool_id t)
                             (tool_priceUSD t) (toolMetadata t)) = true <->
                 dailySpent (riskEngine a) + tool_priceUSD t
                   <= dailyLimitUSD (policy (riskEngine a)) /\
                 tool_priceUSD t <= perTransactionLimitUSD (policy (riskEngine a)) /\
                 (cooldownMs (policy (riskEngine a))
                    <= inject_Z (call_assessedAt c - lastActionTimestamp (riskEngine a))
                  \/ (lastActionTimestamp (riskEngine a) <= 0)%Z) /\
                 (tool_category t = EmptyString
                  \/ tool_category t ∈ allowedCategories (policy (riskEngine a)))).
  { rewrite approved_conditions. unfold toolMetadata. split.
    - intros (H1 & H2 & H3 & Hcat & _). do 3 (split; [done|]).
      destruct (decide (tool_category t = EmptyString)) as [|Hne]; [by left|right].
      by eapply Hcat.
    - intros (H1 & H2 & H3 & Hcat). do 3 (split; [done|]).
      split; [|repeat split; intros md x [= <-]; done].
      intros md x [= <-] [= <-] Hne. by destruct Hcat. }
  destruct Hcases as [(Hno & Htype & _) | [(Hyes & Htype & _) | (Hyes & Htype & _)]];
    rewrite Htype.
  - split; [by left|]. split; [done|]. intros Hall. apply Hiff in Hall. congruence.
  - split; [by right|]. split; [intros _; by apply Hiff | done].
  - split; [by right|]. split; [intros _; by apply Hiff | done].
Qed.

End ToolCallChecks.

(** *** The report of the audit logger *)

Lemma Qplus_swap (x y z : Q) : x + y + z = x + z + y.
Proof.
  unfold Qplus. destruct x as [nx dx], y as [ny dy], z as [nz dz]. simpl.
  f_equal; [|lia]. rewrite !Pos2Z.inj_mul. ring.
Qed.

Lemma breakdownTotal_insert (m : gmap string Q) k amount :
  m !! k = None ->
  breakdownTotal (<[k := amount]> m) = breakdownTotal m + amount.
Proof.
  intros Hnone. unfold breakdownTotal.
  rewrite map_fold_insert_L; [done| |done].
  intros j1 j2 z1 z2 y _ _ _. apply Qplus_swap.
Qed.

Lemma breakdownTotal_addSpend (m : gmap string Q) k amount :
  breakdownTotal (addSpend k amount m) == breakdownTotal m + amount.
Proof.
  unfold addSpend. destruct (m !! k) as [old|] eqn:Hk; simpl.
  - rewrite <- (insert_delete_eq m k (old + amount)).
    rewrite breakdownTotal_insert by apply lookup_delete_eq.
    rewrite <- (insert_id m k old Hk) at 2.
    rewrite <- (insert_delete_eq m k old).
    rewrite breakdownTotal_insert by apply lookup_delete_eq. ring.
  - rewrite breakdownTotal_insert by done. ring.
Qed.

Lemma breakdown_total (key : PaymentReceipt -> string) (rs : list PaymentReceipt) :
  breakdownTotal (foldl (fun acc r => addSpend (key r) (rcpt_amountUSD r) acc) ∅ rs)
    == receiptsTotal rs.
Proof.
  induction rs as [|r rs IH] using rev_ind.
  - reflexivity.
  - rewrite foldl_snoc, breakdownTotal_addSpend, IH, receiptsTotal_snoc. reflexivity.
Qed.

Lemma breakdown_entry (key : PaymentReceipt -> string) (rs : list PaymentReceipt) k :
  match foldl (fun acc r => addSpend (key r) (rcpt_amountUSD r) acc) ∅ rs !! k with
  | Some amount => amountsUnder key k rs <> [] /\ amount == Qsum (amountsUnder key k rs)
  | None => amountsUnder key k rs = []
  end.
Proof.
  unfold amountsUnder. induction rs as [|r rs IH] using rev_ind; [done|].
  rewrite foldl_snoc, List.filter_app, fmap_app. simpl. unfold addSpend at 1.
  destruct (bool_decide_reflect (key r = k)) as [<-|Hne].
  - rewrite lookup_insert_eq. simpl.
    split; [by destruct (rcpt_amountUSD <$> _)|].
    rewrite Qsum_app.
    destruct (foldl _ ∅ rs !! key r) as [old|]; simpl.
    + destruct IH as [_ ->]. unfold Qsum. simpl. ring.
    + rewrite IH. unfold Qsum. simpl. ring.
  - rewrite lookup_insert_ne by done. rewrite app_nil_r. exact IH.
Qed.


(** *** The mandate store *)

(** Property X26.  The fulfil handler answers with a fulfilment exactly when
    the stored mandate is authorized, and with 404 exactly when there is
    none. A fulfilment marks the mandate fulfilled, so that a second request
    for it is answered 400 and changes nothing; a request that is refused
    leaves the store as it is, and no request touches another mandate. *)
Theorem fulfilment_needs_an_authorized_mandate
    (store : gmap string Mandate.t) idAt now id body :
  let answer := (Mandate.fulfill store idAt now id body).1 in
  let store' := (Mandate.fulfill store idAt now id body).2 in
  ((exists f, answer = Mandate.Json f) <->
   (exists m, store !! id = Some m /\ Mandate.status m = Mandate.authorized)) /\
  (answer = Mandate.NotFound <-> store !! id = None) /\
  ((exists f, answer = Mandate.Json f) ->
   (Mandate.status <$> store' !! id) = Some Mandate.fulfilled /\
   forall idAt' now' body',
     (Mandate.fulfill store' idAt' now' id body').1 = Mandate.BadRequest /\
     (Mandate.fulfill store' idAt' now' id body').2 = store') /\
  ((forall f, answer <> Mandate.Json f) -> store' = store) /\
  (forall other, other <> id -> store' !! other = store !! other).
Proof.
  cbn zeta. unfold Mandate.fulfill.
  destruct (store !! id) as [m|] eqn:Hm.
  2:{ cbn [fst snd]. split; [split; [by intros [? ?] | by intros (? & ? & ?)]|].
      split; [done|]. split; [by intros [? ?]|]. done. }
  destruct (Mandate.status m) eqn:Hs; cbn [fst snd].
  - split; [split; [by intros [? ?] | intros (? & [= <-] & ?); congruence]|].
    split; [done|]. split; [by intros [? ?]|]. done.
  - split; [split; [eauto | eauto]|].
    split; [done|]. split.
    + intros _. split; [by rewrite lookup_insert_eq|].
      intros idAt' now' body'. by rewrite lookup_insert_eq.
    + split; [intros Hno; by destruct (Hno _ eq_refl)|].
      intros other Hne. by rewrite lookup_insert_ne.
  - split; [split; [by intros [? ?] | intros (? & [= <-] & ?); congruence]|].
    split; [done|]. split; [by intros [? ?]|]. done.
Qed.

(** Property X27.  The life of a mandate: once created it is stored as
    pending under its identifier, with a maximum value that is not zero; it
    cannot be fulfilled before it is authorized; authorizing it keeps its
    cart mandate and records the time; then it can be fulfilled, whatever
    the time, after which it is stored as fulfilled. Authorizing it once
    more makes it authorized again: the authorize handler does not look at
    the status. *)
Theorem mandate_goes_from_created_to_fulfilled
    (store : gmap string Mandate.t) idAt expiresFrom verifiedNow createdNow suffix request
    created authorizedNow fulfilIdAt completedNow by_ body :
  let id := "mandate-" +:+ pretty idAt +:+ "-" +:+ suffix in
  let made := Mandate.create store idAt expiresFrom verifiedNow createdNow suffix request in
  let store1 := made.2 in
  let store2 := (Mandate.authorize store1 authorizedNow id by_).2 in
  let store3 := (Mandate.fulfill store2 fulfilIdAt completedNow id body).2 in
  made.1 = Mandate.Json created ->
  (Mandate.mandateId created = id /\ Mandate.status created = Mandate.pending /\
   ~ Mandate.amount (Mandate.maxValue (Mandate.cartMandate created)) == 0 /\
   Mandate.get store1 id = Mandate.Json created) /\
  (Mandate.fulfill store1 fulfilIdAt completedNow id body).1 = Mandate.BadRequest /\
  (exists m, (Mandate.authorize store1 authorizedNow id by_).1 = Mandate.Json m /\
     Mandate.status m = Mandate.authorized /\
     Mandate.authorizedAt m = Some authorizedNow /\
     Mandate.cartMandate m = Mandate.cartMandate created /\
     Mandate.get store2 id = Mandate.Json m) /\
  (exists f, (Mandate.fulfill store2 fulfilIdAt completedNow id body).1 = Mandate.Json f /\
     Mandate.ful_mandateId f = id /\ Mandate.ful_completedAt f = completedNow) /\
  (exists m, Mandate.get store3 id = Mandate.Json m /\
     Mandate.status m = Mandate.fulfilled) /\
  (exists m, (Mandate.authorize store3 authorizedNow id by_).1 = Mandate.Json m /\
     Mandate.status m = Mandate.authorized).
Proof.
  cbn zeta. unfold Mandate.create.
  destruct (Mandate.isoDate _) as [expires|]; [|done].
  cbn [fst snd]. intros [= <-].
  unfold Mandate.authorize, Mandate.fulfill, Mandate.get. simpl.
  rewrite !lookup_insert_eq. simpl. rewrite !lookup_insert_eq. simpl.
  rewrite !lookup_insert_eq. simpl.
  split.
  { do 2 (split; [done|]). split; [|done].
    unfold Mandate.orElse, Mandate.nonZero.
    destruct (Mandate.body_maxValueUSD request) as [v|]; [|discriminate].
    destruct (Qeq_bool v 0) eqn:Hz; simpl; [discriminate|]. by apply Qeq_bool_neq. }
  split; [done|].
  split; [eexists; done|]. split; [eexists; done|]. split; eexists; done.
Qed.


(** **** Example *)

Lemma five_dollar_mandate_is_fulfilled :
  exists created f,
    (Mandate.create ∅ 1000 1000 1001 1001 "k3x9ab" fiveDollarRequest).1
      = Mandate.Json created /\
    Mandate.expiresAt (Mandate.cartMandate created) = 601000%Z /\
    (Mandate.fulfill
       (Mandate.authorize
          (Mandate.create ∅ 1000 1000 1001 1001 "k3x9ab" fiveDollarRequest).2
          2000 "mandate-1000-k3x9ab" None).2
       3000 3000 "mandate-1000-k3x9ab" noFulfillBody).1 = Mandate.Json f /\
    Mandate.ful_completedAt f = 3000%Z.
Proof.
  eassert (Hmade : (Mandate.create ∅ 1000 1000 1001 1001 "k3x9ab" fiveDollarRequest).1
                   = Mandate.Json _) by (vm_compute; reflexivity).
  destruct (mandate_goes_from_created_to_fulfilled ∅ 1000 1000 1001 1001 "k3x9ab"
              fiveDollarRequest _ 2000 3000 3000 None noFulfillBody Hmade)
    as (_ & _ & _ & (f & Hf & _ & Hdone) & _).
  eexists _, f. split; [exact Hmade|]. split; [reflexivity|].
  split; [exact Hf | exact Hdone].
Defined.

(** ** The fallback decision *)

Lemma roundTo2_between q (lo hi : Z) :
  0 <= q -> inject_Z lo <= q * 100 -> q * 100 <= inject_Z hi ->
  inject_Z lo <= roundTo 2 q * 100 /\ roundTo 2 q * 100 <= inject_Z hi.
Proof.
  intros Hpos Hlo Hhi. unfold roundTo.
  assert (Hsign : Qltb q 0 = false) by (by apply Qltb_false).
  rewrite Hsign. rewrite (Qabs_pos q Hpos).
  change (inject_Z (10 ^ Z.of_nat 2)) with 100.
  set (n := Qfloor (q * 100 + (1 # 2))).
  assert (Hscaled : inject_Z n / 100 * 100 == inject_Z n) by field.
  rewrite Hscaled. rewrite <- !Zle_Qle. split.
  - rewrite <- (Qfloor_Z lo). apply Qfloor_resp_le. lra.
  - assert (Hlt : inject_Z n < inject_Z (hi + 1)).
    { eapply Qle_lt_trans; [apply Qfloor_le|]. rewrite inject_Z_plus.
      change (inject_Z 1) with 1. lra. }
    rewrite <- Zlt_Qlt in Hlt. lia.
Qed.

Lemma nanGt_true x y : nanGt x y = true <-> exists v, x = Some v /\ y < v.
Proof.
  destruct x as [v|]; simpl.
  - rewrite Qgtb_true. split; [eauto | by intros (? & [= <-] & ?)].
  - split; [done | by intros (? & ? & _)].
Qed.

(** Property X29.  The decision rule of the fallback never sells. It buys
    exactly when the sentiment score is above 0.15 or the 24h change above
    2, the largest position is at most 60 percent and the price impact below
    50 bps; it proposes an action, the trade-execute call, exactly when it
    buys; and its confidence is between 0.55 and 0.9. *)
Theorem fallback_decision_never_sells_and_trades_only_on_a_buy (f : ResearchFacts) :
  let d := fallbackDecision f in
  fd_decision d <> Sell /\
  (fd_decision d = Buy <->
     (0.15 < facts_sentimentScore f \/ exists v, facts_changeNum f = Some v /\ 2 < v) /\
     facts_portfolioAllocation f <= 60 /\
     facts_priceImpact f < 50) /\
  (truthy (fd_action d) = true <-> fd_decision d = Buy) /\
  (fd_decision d = Buy -> fd_action d = tradeAction) /\
  (0.55 <= fd_confidence d /\ fd_confidence d <= 0.9).
Proof.
  simpl. unfold fallbackDecision.
  set (s := facts_sentimentScore f).
  assert (Habs : 0 <= Qabs s * 0.5) by (pose proof (Qabs_nonneg s); lra).
  assert (Hround : forall c, 0.55 <= c -> c <= 0.9 ->
                     0.55 <= roundTo 2 c /\ roundTo 2 c <= 0.9).
  { intros c H1 H2. destruct (roundTo2_between c 55 90) as [Hlo Hhi];
      try change (inject_Z 55) with 55; try change (inject_Z 90) with 90; try lra.
    change (inject_Z 55) with 55 in Hlo. change (inject_Z 90) with 90 in Hhi. lra. }
  assert (Hbuy : (Qgtb s 0.15 || nanGt (facts_changeNum f) 2)
                   && negb (Qgtb (facts_portfolioAllocation f) 60)
                   && Qltb (facts_priceImpact f) 50 = true <->
                 (0.15 < s \/ exists v, facts_changeNum f = Some v /\ 2 < v) /\
                 facts_portfolioAllocation f <= 60 /\ facts_priceImpact f < 50).
  { rewrite !andb_true_iff, orb_true_iff, negb_true_iff.
    rewrite Qgtb_true, nanGt_true, Qgtb_false, Qltb_true. tauto. }
  destruct ((Qgtb s 0.15 || nanGt (facts_changeNum f) 2)
              && negb (Qgtb (facts_portfolioAllocation f) 60)
              && Qltb (facts_priceImpact f) 50) eqn:Hcase.
  - simpl. split; [done|]. split; [tauto|]. split; [done|]. split; [done|].
    destruct (mathMin_cases 0.25 (Qabs s * 0.5)) as (H1 & H2 & H3).
    apply Hround; [|lra].
    destruct H3 as [He|He]; rewrite He; lra.
  - assert (Hnot : ~ ((0.15 < s \/ exists v, facts_changeNum f = Some v /\ 2 < v) /\
                      facts_portfolioAllocation f <= 60 /\ facts_priceImpact f < 50)).
    { intros Hall. apply Hbuy in Hall. congruence. }
    destruct (Qltb s (-0.15) || nanLt (facts_changeNum f) (-3)); simpl.
    + split; [done|]. split; [split; [done | tauto]|]. split; [done|]. split; [done|].
      destruct (mathMin_cases 0.3 (Qabs s * 0.5)) as (H1 & H2 & H3).
      apply Hround; [|lra].
      destruct H3 as [He|He]; rewrite He; lra.
    + destruct (Qgtb (facts_portfolioAllocation f) 60); simpl.
      * split; [done|]. split; [split; [done | tauto]|]. split; [done|]. split; [done|].
        apply Hround; [discriminate | discriminate].
      * split; [done|]. split; [split; [done | tauto]|]. split; [done|]. split; [done|].
        apply Hround; [discriminate | discriminate].
Qed.

(** ** Worked examples *)

(** Sentiment *)


Lemma scenarioD_confidence_is_low :
  exists c, compositeAggregation scenarioD = Some c /\
    0 <= compositeConfidence c /\ compositeConfidence c <= 0.35.
Proof.
  eassert (Hc : compositeAggregation scenarioD = Some _) by (vm_compute; reflexivity).
  eexists. split; [exact Hc|].
  apply (composite_confidence_is_at_most_the_largest_weight scenarioD _).
  - repeat constructor; discriminate.
  - exact Hc.
Defined.

Lemma calm_market_sentiment_is_in_range :
  plausible calmMarket /\
  exists r, @buildSentiment decimalFormat "ETH" "all" calmMarket 5 = Some r /\
    -1 <= compositeScore (sr_overall r) /\ compositeScore (sr_overall r) <= 1 /\
    compositeConfidence (sr_overall r) <= 0.35.
Proof.
  assert (Hp : plausible calmMarket).
  { split.
    - intros fg [= <-]. split; discriminate.
    - intros coin [= <-]. discriminate. }
  split; [exact Hp|].
  eassert (Hr : @buildSentiment decimalFormat "ETH" "all" calmMarket 5 = Some _)
    by (vm_compute; reflexivity).
  eexists. split; [exact Hr|].
  destruct (proj2 (@sentiment_is_always_built_and_stays_in_range decimalFormat
                     "ETH" "all" calmMarket 5) _ Hp Hr) as (_ & [H1 H2] & [_ H3]).
  split; [exact H1|]. split; [exact H2 | exact H3].
Defined.


Lemma second_request_within_a_minute_is_cached :
  exists result cache1,
    @fetchSentiment decimalFormat ∅ 0 5 10 "ETH" "all" calmMarket = Some (result, cache1) /\
    @fetchSentiment decimalFormat cache1 30000 30005 30010 "ETH" "all" onChainDown
      = Some (result, cache1).
Proof.
  eassert (Hfirst : @fetchSentiment decimalFormat ∅ 0 5 10 "ETH" "all" calmMarket
                    = Some (_, _)) by (vm_compute; reflexivity).
  eexists _, _. split; [exact Hfirst|].
  refine (proj1 (@repeated_request_is_answered_from_the_cache decimalFormat ∅ 0 5 10
                   "ETH" "all" calmMarket _ _ 30000 30005 30010 onChainDown _ Hfirst) _).
  - reflexivity.
  - reflexivity.
Defined.

(** The agent *)

Lemma two_step_run_reports_its_receipts :
  exists r,
    currentRun (@run decimalFormat twoStepEnv "Research ETH" 1 (newAriaAgent DEFAULT_POLICY))
      = Some r /\
    run_status r = RunStatus.completed /\
    run_totalCostUSD r
      = receiptsTotal
          (receipts (logger (@run decimalFormat twoStepEnv "Research ETH" 1
                               (newAriaAgent DEFAULT_POLICY)))) /\
    run_totalCostUSD r == 0.03.
Proof.
  eassert (Hrun : currentRun (@run decimalFormat twoStepEnv "Research ETH" 1
                                (newAriaAgent DEFAULT_POLICY)) = Some _)
    by (vm_compute; reflexivity).
  eexists. split; [exact Hrun|].
  assert (Hstatus : run_status
                      (default (newRun "" "" 0)
                         (currentRun (@run decimalFormat twoStepEnv "Research ETH" 1
                                        (newAriaAgent DEFAULT_POLICY))))
                    = RunStatus.completed) by (vm_compute; reflexivity).
  rewrite Hrun in Hstatus. simpl in Hstatus.
  split; [exact Hstatus|].
  destruct (@completed_run_reports_the_receipts_of_the_logger decimalFormat twoStepEnv
              "Research ETH" 1 (newAriaAgent DEFAULT_POLICY) _ Hrun Hstatus) as (Htotal & _).
  split; [exact Htotal|]. vm_compute. reflexivity.
Defined.


Lemma hasty_plan_is_accounted_for :
  exists results a' r',
    @phaseExecute decimalFormat (envWith (replyOf (planOf [])) hastyCalls)
      (planOf ["web-search"; "market-data"]) None (runningAgent catalogue) = (Ok results, a') /\
    currentRun a' = Some r' /\
    length results = 2%nat /\
    isRejection <$> (result_step <$> results) = [false; true] /\
    run_budgetRemainingUSD r' == run_budgetUSD r' - run_totalCostUSD r'.
Proof.
  eassert (Hexec : @phaseExecute decimalFormat (envWith (replyOf (planOf [])) hastyCalls)
                     (planOf ["web-search"; "market-data"]) None (runningAgent catalogue)
                   = (Ok _, _)) by (vm_compute; reflexivity).
  eassert (Hcur : currentRun (runningAgent catalogue) = Some _) by reflexivity.
  destruct (@execute_phase_accounts_for_every_step decimalFormat _ _ _ _ _ _ _ Hcur Hexec)
    as (r' & new & Hrun & _ & _ & Hbudget & _ & Hremaining & _).
  eexists _, _, r'. split; [exact Hexec|]. split; [exact Hrun|].
  split; [reflexivity|]. split; [reflexivity|].
  rewrite Hbudget. apply Hremaining. discriminate.
Defined.

Lemma settled_trade_is_not_deducted :
  exists a' r',
    @phaseTradeExecute decimalFormat tradeEnv buyDecision (runningAgent catalogue)
      = (Ok tt, a') /\
    currentRun a' = Some r' /\
    run_totalCostUSD r' == 0.1 /\
    run_budgetRemainingUSD r' == 1.
Proof.
  eassert (Htrade : @phaseTradeExecute decimalFormat tradeEnv buyDecision
                      (runningAgent catalogue) = (Ok tt, _)) by (vm_compute; reflexivity).
  eassert (Hcur : currentRun (runningAgent catalogue) = Some _) by reflexivity.
  destruct (@trade_step_leaves_the_remaining_budget_stale decimalFormat tradeEnv buyDecision
              tradeAction (runningAgent catalogue) _ _ Hcur eq_refl eq_refl Htrade)
    as (r' & s & Hrun & _ & _ & _ & Hremaining).
  eexists _, r'. split; [exact Htrade|]. split; [exact Hrun|].
  split; [|rewrite Hremaining; reflexivity].
  vm_compute in Hrun. injection Hrun as <-. reflexivity.
Defined.

Lemma failed_mandate_request_leaves_a_failed_step :
  exists a' r',
    @phaseAuthorize decimalFormat twoStepEnv "Research ETH"
      (planOf ["web-search"; "market-data"]) (runningAgent catalogue) = (Ok None, a') /\
    currentRun a' = Some r' /\
    step_status <$> run_steps r' = [StepStatus.failed].
Proof.
  eassert (Hcur : currentRun (runningAgent catalogue) = Some _) by reflexivity.
  destruct (@mandate_failure_does_not_block_the_run decimalFormat twoStepEnv "Research ETH"
              (planOf ["web-search"; "market-data"]) (runningAgent catalogue)
              _ (JNum 0.13)
              [JStr "web-search"; JStr "market-data"] Hcur eq_refl eq_refl)
    as (mandate & a' & r' & s & Hauth & Hrun & Hsteps & _ & _ & _ & _ & _ & Hcase).
  assert (mandate = None) as ->.
  { vm_compute in Hauth. by inversion Hauth. }
  destruct Hcase as [Hfailed _].
  exists a', r'. split; [exact Hauth|]. split; [exact Hrun|].
  rewrite Hsteps. simpl. by rewrite Hfailed.
Defined.

Lemma prose_replies_run_completes :
  exists r result,
    currentRun (@run decimalFormat allProseEnv "Research ETH" 1 (newAriaAgent DEFAULT_POLICY))
      = Some r /\
    run_status r = RunStatus.completed /\
    run_result r = Some result /\
    res_summary result = JStr "Nothing to report".
Proof.
  destruct (@run_completes_without_paying_when_no_reply_is_json decimalFormat allProseEnv
              "Research ETH" 1 (newAriaAgent DEFAULT_POLICY) catalogue
              "I cannot plan" "I cannot decide" "Nothing to report"
              eq_refl eq_refl eq_refl eq_refl)
    as (r & result & Hrun & Hstatus & _ & Hresult & Hsummary & _).
  exists r, result. repeat split; assumption.
Defined.

Lemma web_search_call_passes_the_four_checks :
  exists s data a',
    @executeTool decimalFormat noProcessEnv (JStr "web-search") (JObj []) "x402"
      (steadyCalls 0) (runningAgent catalogue) = (Ok (s, data), a') /\
    step_type s = StepType.execute.
Proof.
  eassert (Hexec : @executeTool decimalFormat noProcessEnv (JStr "web-search") (JObj [])
                     "x402" (steadyCalls 0) (runningAgent catalogue) = (Ok (_, _), _))
    by (vm_compute; reflexivity).
  destruct (@tool_call_is_rejected_on_four_checks_only decimalFormat _ _ _ _ _ _ _ _ _ Hexec)
    as (t & Hfind & _ & Hiff).
  eexists _, _, _. split; [exact Hexec|].
  vm_compute in Hfind. inversion Hfind; subst t. apply Hiff.
  split; [discriminate|]. split; [discriminate|]. split; [by right|].
  right. apply list_elem_of_In. simpl. tauto.
Defined.
